(** * MachineHealthCheck controller: admission, signalling and event routing

    A shallow embedding of [controllers/machinehealthcheck_controller.go]
    (cluster-api, API version v1alpha3) together with the properties its
    specification states about it.

    Conventions.
    - Go's [int32] and [int] values are integers in [Z]; the conversion to
      [int32] and [int32] arithmetic wrap around and are written with
      [wrap32].
    - A Go [map[string]string] is a [gmap string string]; a nil map reads
      like the empty one and is the empty one here.
    - The API server is a [World]: three keyed collections of objects and the
      list of recorded events.  Calls that may fail for reasons outside the
      program (network, conflicts) take their outcome from a [Faults] record.
    - Functions of the repository that live in other files (the target
      resolver, the health evaluator, the label matcher) are fields of the
      [MachineHealthCheckReconciler] record or are modelled from the
      specification, which is said where it happens. *)

From stdpp Require Import base option list strings gmap fin_maps.
From Stdlib Require Import ZArith Lia.

#[local] Open Scope string_scope.
#[local] Open Scope list_scope.
#[local] Open Scope Z_scope.

(** ** Errors *)

(** The error values the controller builds and inspects:
    [apierrors.IsNotFound], [errors.New]/[errors.Errorf],
    [errors.Wrap]/[errors.Wrapf] and [kerrors.NewAggregate].

    [Panic v] is not a value a call returns: it stands for a call that
    panics with the value [v] instead of returning.  A panic is not
    inspected, wrapped or recorded by the caller; it ends the caller as
    well, once the caller's deferred calls have run. *)
#[warnings="-register-all"]
Inductive error : Type :=
| NotFound (what : string)
| Errorf (msg : string)
| Wrapf (cause : error) (msg : string)
| Aggregate (errs : list error)
| Panic (value : string).

(** The way a call ended is a panic. *)
Definition panicking (reterr : option error) : bool :=
  match reterr with
  | Some (Panic _) => true
  | _ => false
  end.

(** The value of the panic raised by a method call through a nil pointer. *)
Definition nilPointerDereference : string :=
  "runtime error: invalid memory address or nil pointer dereference".

Module apierrors.
Definition IsNotFound (err : error) : bool :=
  match err with
  | NotFound _ => true
  | _ => false
  end.
End apierrors.

Module kerrors.
(** [NewAggregate] drops the nil entries of its argument and returns nil when
    nothing is left. *)
Definition NewAggregate (errlist : list (option error)) : option error :=
  match omap id errlist with
  | [] => None
  | errs => Some (Aggregate errs)
  end.
End kerrors.

(** ** Machine integers *)

Definition MaxInt32 : Z := 2147483647.
Definition MinInt32 : Z := -2147483648.

(** Conversion to [int32]: the low 32 bits, read as a signed number. *)
Definition wrap32 (z : Z) : Z := (z + 2147483648) mod 4294967296 - 2147483648.

Definition int32_sub (a b : Z) : Z := wrap32 (a - b).

(** ** [intstr.IntOrString] *)

Module intstr.

Inductive IntOrString : Type :=
| FromInt (IntVal : Z)
| FromString (StrVal : string).

Definition digit_of (c : Ascii.ascii) : option Z :=
  let n := Z.of_N (Ascii.N_of_ascii c) in
  if (48 <=? n) && (n <=? 57) then Some (n - 48) else None.

(** Reads ["<digits>%"]: the accumulator [acc] is [None] until a first digit
    has been seen. *)
Fixpoint parsePercent (acc : option Z) (s : string) : option Z :=
  match s with
  | EmptyString => None
  | String c rest =>
      match digit_of c with
      | Some d => parsePercent (Some (default 0 acc * 10 + d)) rest
      | None =>
          if Z.of_N (Ascii.N_of_ascii c) =? 37 (* the percent sign *)
          then match rest with EmptyString => acc | _ => None end
          else None
      end
  end.

(** Modelled from the spec: [intstr.GetValueFromIntOrPercent] belongs to the
    apimachinery library and is not part of the controller's sources.  The
    specification says that [maxUnhealthy] is "an absolute count or
    percentage", that it is resolved against the expected-machine count and
    that some values "cannot be resolved".  An integer resolves to itself; a
    percentage ["p%"] resolves to [p * total / 100], rounded down unless
    [roundUp] is set; any other string cannot be resolved. *)
Definition GetValueFromIntOrPercent
    (intOrPercent : IntOrString) (total : Z) (roundUp : bool) : Z + error :=
  match intOrPercent with
  | FromInt v => inl v
  | FromString s =>
      match parsePercent None s with
      | Some p =>
          if roundUp
          then inl (- ((- (p * total)) / 100))
          else inl ((p * total) / 100)
      | None => inr (Errorf "invalid value for IntOrString")
      end
  end.

End intstr.

(** ** API objects *)

Record NamespacedName : Type := mkNamespacedName {
  Namespace : string;
  Name : string
}.

#[global] Instance NamespacedName_eq_dec : EqDecision NamespacedName.
Proof. solve_decision. Defined.

#[global] Instance NamespacedName_countable : Countable NamespacedName.
Proof.
  refine (inj_countable' (fun k => (Namespace k, Name k))
            (fun p => mkNamespacedName p.1 p.2) _).
  by intros [].
Defined.

Record OwnerReference : Type := mkOwnerReference {
  orAPIVersion : string;
  orKind : string;
  orName : string;
  orUID : string
}.

Record ObjectMeta : Type := mkObjectMeta {
  metaNamespace : string;
  metaName : string;
  metaLabels : gmap string string;
  metaAnnotations : gmap string string;
  metaOwnerReferences : list OwnerReference;
  metaUID : string
}.

Definition ObjectKey (o : ObjectMeta) : NamespacedName :=
  mkNamespacedName (metaNamespace o) (metaName o).

Record LabelSelectorRequirement : Type := mkRequirement {
  reqKey : string;
  reqOperator : string;
  reqValues : list string
}.

Record LabelSelector : Type := mkLabelSelector {
  MatchLabels : gmap string string;
  MatchExpressions : list LabelSelectorRequirement
}.

(** [time.Duration]: nanoseconds. *)
Definition Duration : Type := Z.

Record MachineHealthCheckSpec : Type := mkMHCSpec {
  ClusterName : string;
  Selector : LabelSelector;
  MaxUnhealthy : option intstr.IntOrString;
  NodeStartupTimeout : Duration
}.

Record MachineHealthCheckStatus : Type := mkMHCStatus {
  ExpectedMachines : Z;
  CurrentHealthy : Z;
  Targets : list string
}.

Record MachineHealthCheck : Type := mkMHC {
  mhcMeta : ObjectMeta;
  mhcSpec : MachineHealthCheckSpec;
  mhcStatus : MachineHealthCheckStatus
}.

(** ** Admission *)

(** [isAllowedRemediation] checks the value of the MaxUnhealthy field to
    determine whether remediation should be allowed or not. *)
Definition isAllowedRemediation (mhc : MachineHealthCheck) : bool :=
  match MaxUnhealthy (mhcSpec mhc) with
  | None => true
  | Some mu =>
      match intstr.GetValueFromIntOrPercent mu
              (ExpectedMachines (mhcStatus mhc)) false with
      | inr _ => false
      | inl maxUnhealthy =>
          let unhealthy :=
            int32_sub (ExpectedMachines (mhcStatus mhc))
                      (CurrentHealthy (mhcStatus mhc)) in
          unhealthy <=? maxUnhealthy
      end
  end.

(** ** Machines, nodes, clusters and targets *)

Inductive ConditionStatus : Type := ConditionTrue | ConditionFalse | ConditionUnknown.

Record Condition : Type := mkCondition {
  condStatus : ConditionStatus;
  condSeverity : string;
  condReason : string;
  condMessage : string
}.

#[global] Instance ConditionStatus_eq_dec : EqDecision ConditionStatus.
Proof. solve_decision. Defined.

#[global] Instance Condition_eq_dec : EqDecision Condition.
Proof. solve_decision. Defined.

Record Machine : Type := mkMachine {
  machineMeta : ObjectMeta;
  machineClusterName : string;
  (** [Status.NodeRef]: the name of the backing node, when there is one. *)
  NodeRef : option string;
  (** [Status.Conditions], by condition type. *)
  Conditions : gmap string Condition
}.

Record Node : Type := mkNode {
  nodeName : string
}.

Record Cluster : Type := mkCluster {
  clusterMeta : ObjectMeta;
  clusterPaused : bool
}.

(** A target pairs a Machine with its node, if any.  Its patch helper is the
    call [Patch] below, applied to the target's machine. *)
Record healthCheckTarget : Type := mkTarget {
  tMachine : Machine;
  tNode : option Node
}.

(** The objects handed to the mapping functions ([handler.MapObject]). *)
Inductive Object : Type :=
| ClusterObject (c : Cluster)
| MachineObject (m : Machine)
| NodeObject (n : Node)
| MachineHealthCheckObject (m : MachineHealthCheck).

(** ** Constants *)

Definition machineNodeNameIndex : string := "status.nodeRef.name".

(** [EventRemediationRestricted] is emitted in case when machine remediation
    is restricted by remediation circuit shorting logic. *)
Definition EventRemediationRestricted : string := "RemediationRestricted".

Definition EventTypeNormal : string := "Normal".
Definition EventTypeWarning : string := "Warning".

(** Modelled from the spec: [clusterv1.ClusterLabelName] is declared in the
    API package, not among the sources; it is the label by which a policy is
    "labeled as belonging to" a cluster. *)
Definition ClusterLabelName : string := "cluster.x-k8s.io/cluster-name".

(** Modelled from the spec: [clusterv1.MachineOwnerRemediatedCondition] is
    declared in the API package; it is the type of the Machine's
    "remediation-requested condition". *)
Definition MachineOwnerRemediatedCondition : string := "OwnerRemediated".

(** Modelled from the spec: [clusterv1.WaitingForRemediation] is declared in
    the API package; it is the "fixed reason" of the "waiting" state. *)
Definition WaitingForRemediation : string := "WaitingForRemediation".

(** Modelled from the spec: [clusterv1.ConditionSeverityWarning] is declared
    in the API package; it is the "warning severity". *)
Definition ConditionSeverityWarning : string := "Warning".

(** Modelled from the spec: [EventMachineMarkedUnhealthy] is declared in the
    targets file; it is the reason of the event "recording which target was
    marked". *)
Definition EventMachineMarkedUnhealthy : string := "MachineMarkedUnhealthy".

(** ** Conditions *)

Module conditions.

(** Modelled from the spec: [conditions.MarkFalse] is defined in the
    repository's [util/conditions] package, not among the sources.  It
    "set[s] the Machine's ... condition to a ... state with a ... severity
    and a fixed reason": the condition of type [t] becomes the false
    condition with the given reason, severity and message, whether or not the
    machine had a condition of that type before. *)
Definition MarkFalse (to : Machine) (t : string) (reason severity message : string)
  : Machine :=
  {| machineMeta := machineMeta to;
     machineClusterName := machineClusterName to;
     NodeRef := NodeRef to;
     Conditions := <[t := mkCondition ConditionFalse severity reason message]>
                     (Conditions to) |}.

(** The condition of type [t] of a machine, if it has one. *)
Definition Get (from : Machine) (t : string) : option Condition :=
  Conditions from !! t.

End conditions.

(** The condition the signaller writes. *)
Definition remediationCondition : Condition :=
  mkCondition ConditionFalse ConditionSeverityWarning WaitingForRemediation
    "MachineHealthCheck failed".

(** A machine carries the remediation-requested condition. *)
Definition carriesRemediation (m : Machine) : Prop :=
  is_Some (conditions.Get m MachineOwnerRemediatedCondition).

(** ** The world outside the controller *)

Inductive EventArg : Type :=
| ArgInt (n : Z)
| ArgIntOrString (v : option intstr.IntOrString)
| ArgString (s : string)
| ArgError (e : error).

Inductive EventObject : Type :=
| OnMachineHealthCheck (key : NamespacedName)
| OnMachine (key : NamespacedName).

Record Event : Type := mkEvent {
  evObject : EventObject;
  evType : string;
  evReason : string;
  evMessageFmt : string;
  evArgs : list EventArg
}.

Record World : Type := mkWorld {
  mhcs : gmap NamespacedName MachineHealthCheck;
  clusters : gmap NamespacedName Cluster;
  machines : gmap NamespacedName Machine;
  (** What [r.recorder] has been given, oldest first. *)
  events : list Event
}.

(** The outcome of the calls that can fail for external reasons: [None] when
    the call goes through. *)
Record Faults : Type := mkFaults {
  failGet : option error;
  failGetCluster : option error;
  failListMachineHealthChecks : option error;
  failListMachines : option error;
  failNewHelper : option error;
  failPatchMachineHealthCheck : option error;
  failPatchMachine : NamespacedName -> option error
}.

Record ClusterCacheTracker : Type := mkTracker {
  trackerGetClient : NamespacedName -> option error;
  trackerWatch : NamespacedName -> option error
}.

(** The classes of the health evaluator. *)
Inductive Health : Type :=
| Healthy
| Unhealthy
| Pending (nextCheck : Duration).

(** [MachineHealthCheckReconciler] reconciles a MachineHealthCheck object.
    Besides the client and the tracker it carries, as fields, the helpers of
    the repository that are defined in other files. *)
Record MachineHealthCheckReconciler : Type := mkReconciler {
  Client : Faults;
  Tracker : option ClusterCacheTracker;
  (** [getTargetsFromMHC]: the target resolver. *)
  getTargetsFromMHC : World -> MachineHealthCheck -> list healthCheckTarget + error;
  (** The per-target rule of the health evaluator. *)
  evaluate : healthCheckTarget -> Duration -> Health;
  hasMatchingLabels : LabelSelector -> gmap string string -> bool;
  (** [t.string()]. *)
  targetString : healthCheckTarget -> string;
  (** [annotations.IsPaused]. *)
  IsPaused : Cluster -> MachineHealthCheck -> bool;
  (** [util.EnsureOwnerRef]. *)
  EnsureOwnerRef : list OwnerReference -> OwnerReference -> list OwnerReference
}.

(** [ctrl.Result]. *)
Record Result : Type := mkResult {
  Requeue : bool;
  RequeueAfter : Duration
}.

Definition emptyResult : Result := mkResult false 0.

(** ** Effects: a state-and-error monad over the world

    A computation reads and updates the world and either returns a value or
    stops with an error.  The world reached so far is kept when it stops:
    patches already applied stay applied. *)

Definition M (A : Type) : Type := World -> (A + error) * World.

Definition ret {A} (a : A) : M A := fun w => (inl a, w).

Definition fail {A} (err : error) : M A := fun w => (inr err, w).

Definition bind {A B} (c : M A) (k : A -> M B) : M B :=
  fun w =>
    match c w with
    | (inl a, w') => k a w'
    | (inr err, w') => (inr err, w')
    end.

#[global] Instance M_ret : MRet M := @ret.
#[global] Instance M_bind : MBind M := fun A B k c => bind c k.

(** [for _, x := range l { if err := body(x); err != nil { return err } }] *)
Fixpoint forEach {A} (l : list A) (body : A -> M unit) : M unit :=
  match l with
  | [] => ret tt
  | x :: l' => body x;; forEach l' body
  end.

(** [r.recorder.Eventf]. *)
Definition Eventf (object : EventObject) (eventtype reason messageFmt : string)
    (args : list EventArg) : M unit :=
  fun w =>
    (inl tt,
     {| mhcs := mhcs w; clusters := clusters w; machines := machines w;
        events := events w ++ [mkEvent object eventtype reason messageFmt args] |}).

Definition setMachine (machine : Machine) (w : World) : World :=
  {| mhcs := mhcs w; clusters := clusters w;
     machines := <[ObjectKey (machineMeta machine) := machine]> (machines w);
     events := events w |}.

Definition setMachineHealthCheck (m : MachineHealthCheck) (w : World) : World :=
  {| mhcs := <[ObjectKey (mhcMeta m) := m]> (mhcs w); clusters := clusters w;
     machines := machines w; events := events w |}.

(** [t.patchHelper.Patch(ctx, t.Machine)]: the machine as it is in memory
    replaces the stored one, unless the call fails. *)
Definition Patch (c : Faults) (machine : Machine) : M unit :=
  fun w =>
    match failPatchMachine c (ObjectKey (machineMeta machine)) with
    | Some err => (inr err, w)
    | None => (inl tt, setMachine machine w)
    end.

(** [if err := c; err != nil { return errors.Wrapf(err, msg) }] *)
Definition wrapErr {A} (c : M A) (msg : string) : M A :=
  fun w =>
    match c w with
    | (inr err, w') => (inr (Wrapf err msg), w')
    | r => r
    end.

(** [r.Client.Get] of a MachineHealthCheck. *)
Definition Get (c : Faults) (w : World) (key : NamespacedName)
  : MachineHealthCheck + error :=
  match failGet c with
  | Some err => inr err
  | None =>
      match mhcs w !! key with
      | Some m => inl m
      | None => inr (NotFound (Name key))
      end
  end.

(** Modelled from the spec: [util.GetClusterByName] is defined in the
    repository's [util] package, not among the sources.  The store answers
    "get(kind, namespacedName) -> object | NotFound", or fails otherwise. *)
Definition GetClusterByName (c : Faults) (w : World) (namespace name : string)
  : Cluster + error :=
  match failGetCluster c with
  | Some err => inr err
  | None =>
      match clusters w !! mkNamespacedName namespace name with
      | Some cl => inl cl
      | None => inr (NotFound name)
      end
  end.

Definition matchesLabels (want : list (string * string)) (have : gmap string string)
  : bool :=
  forallb (fun kv => bool_decide (have !! kv.1 = Some kv.2)) want.

(** [r.Client.List] of MachineHealthChecks with [client.InNamespace] and
    [client.MatchingLabels]. *)
Definition ListMachineHealthChecks (c : Faults) (w : World)
    (InNamespace : string) (MatchingLabels : list (string * string))
  : list MachineHealthCheck + error :=
  match failListMachineHealthChecks c with
  | Some err => inr err
  | None =>
      inl (List.filter
             (fun mhc =>
                bool_decide (metaNamespace (mhcMeta mhc) = InNamespace)
                && matchesLabels MatchingLabels (metaLabels (mhcMeta mhc)))
             (map_to_list (mhcs w)).*2)
  end.

(** ** Event routing *)

Definition indexMachineByNodeName (object : Object) : list string :=
  match object with
  | MachineObject machine =>
      match NodeRef machine with
      | Some name => [name]
      | None => []
      end
  | _ => []
  end.

(** [r.Client.List] of Machines with [client.MatchingFields] on the index
    [machineNodeNameIndex]. *)
Definition ListMachinesByNodeName (c : Faults) (w : World) (nodeName : string)
  : list Machine + error :=
  match failListMachines c with
  | Some err => inr err
  | None =>
      inl (List.filter
             (fun machine =>
                bool_decide (nodeName ∈ indexMachineByNodeName (MachineObject machine)))
             (map_to_list (machines w)).*2)
  end.

(** [clusterToMachineHealthCheck] maps events from Cluster objects to
    MachineHealthCheck objects that belong to the Cluster. *)
Definition clusterToMachineHealthCheck (r : MachineHealthCheckReconciler)
    (w : World) (o : Object) : list NamespacedName :=
  match o with
  | ClusterObject c =>
      match ListMachineHealthChecks (Client r) w (metaNamespace (clusterMeta c))
              [(ClusterLabelName, metaName (clusterMeta c))] with
      | inr _ => []
      | inl items =>
          map (fun mhc => mkNamespacedName (metaNamespace (mhcMeta mhc))
                                           (metaName (mhcMeta mhc))) items
      end
  | _ => []
  end.

(** [machineToMachineHealthCheck] maps events from Machine objects to
    MachineHealthCheck objects that monitor the given machine. *)
Definition machineToMachineHealthCheck (r : MachineHealthCheckReconciler)
    (w : World) (o : Object) : list NamespacedName :=
  match o with
  | MachineObject m =>
      match ListMachineHealthChecks (Client r) w (metaNamespace (machineMeta m))
              [(ClusterLabelName, machineClusterName m)] with
      | inr _ => []
      | inl items =>
          map (fun mhc => ObjectKey (mhcMeta mhc))
            (List.filter
               (fun mhc => hasMatchingLabels r (Selector (mhcSpec mhc))
                             (metaLabels (machineMeta m)))
               items)
      end
  | _ => []
  end.

Definition machineNames (machines : list Machine) : list string :=
  map (fun m => metaName (machineMeta m)) machines.

Definition getMachineFromNode (r : MachineHealthCheckReconciler) (w : World)
    (nodeName : string) : Machine + error :=
  match ListMachinesByNodeName (Client r) w nodeName with
  | inr err => inr (Wrapf err "failed getting machine list")
  | inl machineList =>
      let items :=
        List.filter
          (fun machine => bool_decide (NodeRef machine = Some nodeName))
          machineList in
      match items with
      | [machine] => inl machine
      | _ => inr (Errorf "expecting one machine for node")
      end
  end.

Definition nodeToMachineHealthCheck (r : MachineHealthCheckReconciler)
    (w : World) (o : Object) : list NamespacedName :=
  match o with
  | NodeObject node =>
      match getMachineFromNode r w (nodeName node) with
      | inr _ => []
      | inl machine => machineToMachineHealthCheck r w (MachineObject machine)
      end
  | _ => []
  end.

(** ** Health evaluation *)

Definition isHealthy (h : Health) : bool :=
  match h with Healthy => true | _ => false end.

Definition isUnhealthy (h : Health) : bool :=
  match h with Unhealthy => true | _ => false end.

Definition pendingDeadline (h : Health) : option Duration :=
  match h with Pending d => Some d | _ => None end.

(** Modelled from the spec: [healthCheckTargets] is defined in the
    repository's targets file, not among the sources.  The health evaluator
    "classif[ies] each target into exactly one of Healthy, Unhealthy,
    Pending"; its output is the "partition of Targets into healthy/unhealthy
    lists" and the candidate next-check times of the pending ones. *)
Definition healthCheckTargets (r : MachineHealthCheckReconciler)
    (targets : list healthCheckTarget) (timeoutForMachineToHaveNode : Duration)
  : list healthCheckTarget * list healthCheckTarget * list Duration :=
  (List.filter (fun t => isHealthy (evaluate r t timeoutForMachineToHaveNode)) targets,
   List.filter (fun t => isUnhealthy (evaluate r t timeoutForMachineToHaveNode)) targets,
   omap (fun t => pendingDeadline (evaluate r t timeoutForMachineToHaveNode)) targets).

(** Modelled from the spec: [minDuration] is defined in the targets file.
    "Across all Pending targets, the engine retains the minimum candidate
    next-check time", "zero/absent if none pending". *)
Definition minDuration (durations : list Duration) : Duration :=
  match durations with
  | [] => 0
  | d :: ds => foldr Z.min d ds
  end.

(** ** The reconciliation pass *)

Definition withOwnerReferences (m : MachineHealthCheck) (refs : list OwnerReference)
  : MachineHealthCheck :=
  {| mhcMeta :=
       {| metaNamespace := metaNamespace (mhcMeta m);
          metaName := metaName (mhcMeta m);
          metaLabels := metaLabels (mhcMeta m);
          metaAnnotations := metaAnnotations (mhcMeta m);
          metaOwnerReferences := refs;
          metaUID := metaUID (mhcMeta m) |};
     mhcSpec := mhcSpec m;
     mhcStatus := mhcStatus m |}.

Definition withLabel (m : MachineHealthCheck) (key value : string)
  : MachineHealthCheck :=
  {| mhcMeta :=
       {| metaNamespace := metaNamespace (mhcMeta m);
          metaName := metaName (mhcMeta m);
          metaLabels := <[key := value]> (metaLabels (mhcMeta m));
          metaAnnotations := metaAnnotations (mhcMeta m);
          metaOwnerReferences := metaOwnerReferences (mhcMeta m);
          metaUID := metaUID (mhcMeta m) |};
     mhcSpec := mhcSpec m;
     mhcStatus := mhcStatus m |}.

Definition withStatus (m : MachineHealthCheck) (st : MachineHealthCheckStatus)
  : MachineHealthCheck :=
  {| mhcMeta := mhcMeta m; mhcSpec := mhcSpec m; mhcStatus := st |}.

Definition watchClusterNodes (r : MachineHealthCheckReconciler) (cluster : Cluster)
  : option error :=
  match Tracker r with
  | None => None
  | Some tracker => trackerWatch tracker (ObjectKey (clusterMeta cluster))
  end.

(** [r.Tracker.GetClient].  With a nil tracker the Go call dereferences nil
    and panics; it does not return. *)
Definition GetClient (r : MachineHealthCheckReconciler) (cluster : Cluster)
  : option error :=
  match Tracker r with
  | None => Some (Panic nilPointerDereference)
  | Some tracker => trackerGetClient tracker (ObjectKey (clusterMeta cluster))
  end.

Definition machineKey (t : healthCheckTarget) : NamespacedName :=
  ObjectKey (machineMeta (tMachine t)).

(** The branch taken when remediation is not allowed. *)
Definition shortCircuit (r : MachineHealthCheckReconciler) (m : MachineHealthCheck)
    (totalTargets : Z) (healthy unhealthy : list healthCheckTarget) : M Result :=
  Eventf (OnMachineHealthCheck (ObjectKey (mhcMeta m)))
    EventTypeWarning EventRemediationRestricted
    "Remediation restricted due to exceeded number of unhealthy machines (total: %v, unhealthy: %v, maxUnhealthy: %v)"
    [ArgInt totalTargets;
     ArgInt (CurrentHealthy (mhcStatus m));
     ArgIntOrString (MaxUnhealthy (mhcSpec m))];;
  forEach (healthy ++ unhealthy) (fun t =>
    wrapErr (Patch (Client r) (tMachine t))
      "Failed to patch machine status for machine");;
  mret (mkResult true 0).

(** Mark one unhealthy target for remediation. *)
Definition markUnhealthy (r : MachineHealthCheckReconciler) (t : healthCheckTarget)
  : M unit :=
  let machine :=
    conditions.MarkFalse (tMachine t) MachineOwnerRemediatedCondition
      WaitingForRemediation ConditionSeverityWarning "MachineHealthCheck failed" in
  wrapErr (Patch (Client r) machine)
    "Failed to patch unhealthy machine status for machine";;
  Eventf (OnMachine (machineKey t)) EventTypeNormal EventMachineMarkedUnhealthy
    "Machine %v has been marked as unhealthy" [ArgString (targetString r t)].

(** The branch taken when remediation is allowed. *)
Definition remediate (r : MachineHealthCheckReconciler)
    (healthy unhealthy : list healthCheckTarget) (nextCheckTimes : list Duration)
  : M Result :=
  let errList : list error := [] in
  forEach unhealthy (markUnhealthy r);;
  forEach healthy (fun t =>
    wrapErr (Patch (Client r) (tMachine t))
      "Failed to patch healthy machine status for machine");;
  match kerrors.NewAggregate (map Some errList) with
  | Some err => fail err
  | None =>
      let minNextCheck := minDuration nextCheckTimes in
      if 0 <? minNextCheck
      then mret (mkResult false minNextCheck)
      else mret emptyResult
  end.

(** [m.OwnerReferences = util.EnsureOwnerRef(m.OwnerReferences, ...)] *)
Definition ensureOwned (r : MachineHealthCheckReconciler) (cluster : Cluster)
    (m : MachineHealthCheck) : MachineHealthCheck :=
  withOwnerReferences m
    (EnsureOwnerRef r (metaOwnerReferences (mhcMeta m))
       (mkOwnerReference "cluster.x-k8s.io/v1alpha3" "Cluster"
          (metaName (clusterMeta cluster)) (metaUID (clusterMeta cluster)))).

(** [reconcile] returns the policy object as the pass leaves it in memory,
    the result or error of the pass and the world it leaves. *)
Definition reconcile (r : MachineHealthCheckReconciler) (cluster : Cluster)
    (m : MachineHealthCheck) (w : World)
  : MachineHealthCheck * ((Result + error) * World) :=
  (* Ensure the MachineHealthCheck is owned by the Cluster it belongs to *)
  let m := ensureOwned r cluster m in
  (* Get the remote cluster cache to use as a client.Reader. *)
  match GetClient r cluster with
  | Some err => (m, (inr err, w))
  | None =>
  match watchClusterNodes r cluster with
  | Some err => (m, (inr (Wrapf err "Error watching nodes on target cluster"), w))
  | None =>
  (* fetch all targets *)
  match getTargetsFromMHC r w m with
  | inr err =>
      (m, (inr (Wrapf err "Failed to fetch targets from MachineHealthCheck"), w))
  | inl targets =>
  let totalTargets := Z.of_nat (length targets) in
  let m :=
    withStatus m
      {| ExpectedMachines := wrap32 totalTargets;
         CurrentHealthy := CurrentHealthy (mhcStatus m);
         Targets := map (fun t => metaName (machineMeta (tMachine t))) targets |} in
  (* health check all targets and reconcile mhc status *)
  let '(healthy, unhealthy, nextCheckTimes) :=
    healthCheckTargets r targets (NodeStartupTimeout (mhcSpec m)) in
  let m :=
    withStatus m
      {| ExpectedMachines := ExpectedMachines (mhcStatus m);
         CurrentHealthy := wrap32 (Z.of_nat (length healthy));
         Targets := Targets (mhcStatus m) |} in
  (* check MHC current health against MaxUnhealthy *)
  if negb (isAllowedRemediation m)
  then (m, shortCircuit r m totalTargets healthy unhealthy w)
  else (m, remediate r healthy unhealthy nextCheckTimes w)
  end end end.

(** [Reconcile]: the whole pass for one work item.  The result is Go's pair
    of a [ctrl.Result] and an error, nil when [None].  When [reconcile]
    panics, the rest of the body is skipped: no event is recorded, the
    deferred patch runs and the panic goes on, which the result shows as
    [Some (Panic v)]. *)
Definition Reconcile (r : MachineHealthCheckReconciler) (req : NamespacedName)
    (w : World) : (Result * option error) * World :=
  (* Fetch the MachineHealthCheck instance *)
  match Get (Client r) w req with
  | inr err =>
      if apierrors.IsNotFound err
      then ((emptyResult, None), w)
      else ((emptyResult, Some err), w)
  | inl m =>
  match GetClusterByName (Client r) w (metaNamespace (mhcMeta m))
          (ClusterName (mhcSpec m)) with
  | inr err =>
      ((emptyResult, Some (Wrapf err "failed to get Cluster for MachineHealthCheck")), w)
  | inl cluster =>
  (* Return early if the object or Cluster is paused. *)
  if IsPaused r cluster m then ((emptyResult, None), w) else
  (* Initialize the patch helper *)
  match failNewHelper (Client r) with
  | Some err => ((emptyResult, Some err), w)
  | None =>
  (* Reconcile labels. *)
  let m := withLabel m ClusterLabelName (ClusterName (mhcSpec m)) in
  let '(m, (outcome, w)) := reconcile r cluster m w in
  let '(result, reterr, w) :=
    match outcome with
    | inr (Panic v) => (emptyResult, Some (Panic v), w)
    | inr err =>
        (emptyResult, Some err,
         snd (Eventf (OnMachineHealthCheck (ObjectKey (mhcMeta m)))
                EventTypeWarning "ReconcileError" "%v" [ArgError err] w))
    | inl result => (result, None, w)
    end in
  (* Always attempt to patch the object and status after each reconciliation. *)
  match failPatchMachineHealthCheck (Client r) with
  | Some err =>
      ((result,
        if panicking reterr then reterr
        else kerrors.NewAggregate [reterr; Some err]), w)
  | None => ((result, reterr), setMachineHealthCheck m w)
  end
  end end end.

(** ** Vocabulary of the statements *)

(** The unhealthy count of the admission check,
    [mhc.Status.ExpectedMachines - mhc.Status.CurrentHealthy] in [int32]. *)
Definition unhealthyCount (mhc : MachineHealthCheck) : Z :=
  int32_sub (ExpectedMachines (mhcStatus mhc)) (CurrentHealthy (mhcStatus mhc)).

(** The pass gets as far as health evaluation, with these targets. *)
Definition reachesEvaluation (r : MachineHealthCheckReconciler) (cluster : Cluster)
    (m : MachineHealthCheck) (w : World) (targets : list healthCheckTarget) : Prop :=
  GetClient r cluster = None /\
  watchClusterNodes r cluster = None /\
  getTargetsFromMHC r w (ensureOwned r cluster m) = inl targets.

Definition healthyTargets (r : MachineHealthCheckReconciler)
    (m : MachineHealthCheck) (targets : list healthCheckTarget)
  : list healthCheckTarget :=
  (healthCheckTargets r targets (NodeStartupTimeout (mhcSpec m))).1.1.

Definition unhealthyTargets (r : MachineHealthCheckReconciler)
    (m : MachineHealthCheck) (targets : list healthCheckTarget)
  : list healthCheckTarget :=
  (healthCheckTargets r targets (NodeStartupTimeout (mhcSpec m))).1.2.

Definition nextCheckTimesOf (r : MachineHealthCheckReconciler)
    (m : MachineHealthCheck) (targets : list healthCheckTarget) : list Duration :=
  (healthCheckTargets r targets (NodeStartupTimeout (mhcSpec m))).2.

(** The policy object at the time of the admission check. *)
Definition observed (r : MachineHealthCheckReconciler) (cluster : Cluster)
    (m : MachineHealthCheck) (targets : list healthCheckTarget)
  : MachineHealthCheck :=
  withStatus (ensureOwned r cluster m)
    {| ExpectedMachines := wrap32 (Z.of_nat (length targets));
       CurrentHealthy := wrap32 (Z.of_nat (length (healthyTargets r m targets)));
       Targets := map (fun t => metaName (machineMeta (tMachine t))) targets |}.

(** The store after the machines of [ts] have been written in order, [f]
    giving the object written for a target. *)
Definition written (f : healthCheckTarget -> Machine) (ts : list healthCheckTarget)
    (store : gmap NamespacedName Machine) : gmap NamespacedName Machine :=
  foldl (fun s t => <[ObjectKey (machineMeta (f t)) := f t]> s) store ts.

Definition markedMachine (t : healthCheckTarget) : Machine :=
  conditions.MarkFalse (tMachine t) MachineOwnerRemediatedCondition
    WaitingForRemediation ConditionSeverityWarning "MachineHealthCheck failed".

Definition restrictionEvent (m : MachineHealthCheck) (totalTargets : Z) : Event :=
  mkEvent (OnMachineHealthCheck (ObjectKey (mhcMeta m)))
    EventTypeWarning EventRemediationRestricted
    "Remediation restricted due to exceeded number of unhealthy machines (total: %v, unhealthy: %v, maxUnhealthy: %v)"
    [ArgInt totalTargets;
     ArgInt (CurrentHealthy (mhcStatus m));
     ArgIntOrString (MaxUnhealthy (mhcSpec m))].

Definition markedEvent (r : MachineHealthCheckReconciler) (t : healthCheckTarget)
  : Event :=
  mkEvent (OnMachine (machineKey t)) EventTypeNormal EventMachineMarkedUnhealthy
    "Machine %v has been marked as unhealthy" [ArgString (targetString r t)].

Definition withMachines (w : World) (store : gmap NamespacedName Machine) : World :=
  {| mhcs := mhcs w; clusters := clusters w; machines := store; events := events w |}.

Definition withEvents (w : World) (evs : list Event) : World :=
  {| mhcs := mhcs w; clusters := clusters w; machines := machines w; events := evs |}.

(** The policy objects and the machine objects the store holds. *)
Definition storedPolicies (w : World) : list MachineHealthCheck :=
  (map_to_list (mhcs w)).*2.

Definition storedMachines (w : World) : list Machine :=
  (map_to_list (machines w)).*2.

(** The policy [mhc] is in the machine's namespace, is labelled as belonging
    to the machine's cluster and has a selector that matches the machine's
    labels. *)
Definition monitors (r : MachineHealthCheckReconciler) (m : Machine)
    (mhc : MachineHealthCheck) : bool :=
  bool_decide (metaNamespace (mhcMeta mhc) = metaNamespace (machineMeta m))
  && bool_decide (metaLabels (mhcMeta mhc) !! ClusterLabelName
                  = Some (machineClusterName m))
  && hasMatchingLabels r (Selector (mhcSpec mhc)) (metaLabels (machineMeta m)).

(** The stored machines whose node reference names the node. *)
Definition owningMachines (w : World) (node : string) : list Machine :=
  List.filter (fun machine => bool_decide (NodeRef machine = Some node))
    (storedMachines w).


(** No patch of a machine of [ts] fails. *)
Definition patchesSucceed (c : Faults) (ts : list healthCheckTarget) : Prop :=
  Forall (fun t => failPatchMachine c (machineKey t) = None) ts.

(** The event [Reconcile] records when [reconcile] fails. *)
Definition reconcileErrorEvent (m : MachineHealthCheck) (err : error) : Event :=
  mkEvent (OnMachineHealthCheck (ObjectKey (mhcMeta m)))
    EventTypeWarning "ReconcileError" "%v" [ArgError err].

(** The policy object with its cluster label reconciled. *)
Definition labelled (m : MachineHealthCheck) : MachineHealthCheck :=
  withLabel m ClusterLabelName (ClusterName (mhcSpec m)).

(** [Reconcile] gets as far as calling [reconcile]: it has fetched the
    policy [m] and its cluster, neither is paused and the patch helper is
    there. *)
Definition callsReconcile (r : MachineHealthCheckReconciler) (req : NamespacedName)
    (w : World) (m : MachineHealthCheck) (cluster : Cluster) : Prop :=
  Get (Client r) w req = inl m /\
  GetClusterByName (Client r) w (metaNamespace (mhcMeta m))
    (ClusterName (mhcSpec m)) = inl cluster /\
  IsPaused r cluster m = false /\
  failNewHelper (Client r) = None.

(** ** The control plane's status ([updateStatus])

    The second part of the source file belongs to the KubeadmControlPlane
    controller.  Its collaborators (the management cluster, the machine
    filters, the configuration hash, the condition setters and the names
    declared in the control plane's API package) are fields of the
    reconciler record. *)

Module controlplane.

(** [workloadCluster.ClusterStatus]'s answer. *)
Record ClusterStatus : Type := mkClusterStatus {
  Nodes : Z;
  ReadyNodes : Z;
  HasKubeadmConfig : bool
}.

Record KubeadmControlPlaneStatus : Type := mkKCPStatus {
  Selector : string;
  Replicas : Z;
  UpdatedReplicas : Z;
  ReadyReplicas : Z;
  UnavailableReplicas : Z;
  Initialized : bool;
  Ready : bool;
  kcpConditions : gmap string Condition
}.

Record KubeadmControlPlane : Type := mkKCP {
  kcpMeta : ObjectMeta;
  (** [Spec.Replicas], a pointer: [None] is nil. *)
  SpecReplicas : option Z;
  (** [DeletionTimestamp], a pointer to a time: [None] is nil. *)
  DeletionTimestamp : option Z;
  kcpStatus : KubeadmControlPlaneStatus
}.

(** [t.IsZero()] on a [*metav1.Time]: nil or the zero time. *)
Definition IsZero (t : option Z) : bool :=
  match t with
  | None => true
  | Some v => v =? 0
  end.

(** How a call ends: it returns, with an error or nil, or it panics. *)
Inductive Outcome : Type :=
| Returned (err : option error)
| Panicked.

Record KubeadmControlPlaneReconciler : Type := mkKCPReconciler {
  (** [machinefilters.ControlPlaneSelectorForCluster(name).String()]. *)
  ControlPlaneSelectorForCluster : string -> string;
  (** [r.managementCluster.GetMachinesForCluster] with the filter
      [machinefilters.OwnedMachines(kcp)]. *)
  GetMachinesForCluster :
    NamespacedName -> KubeadmControlPlane -> list Machine + error;
  (** [machinefilters.MatchesConfigurationHash(hash.Compute(&kcp.Spec))]. *)
  MatchesConfigurationHash : KubeadmControlPlane -> Machine -> bool;
  (** [machinefilters.IsReady()]. *)
  IsReady : Machine -> bool;
  (** [r.managementCluster.GetWorkloadCluster], and what the workload
      cluster's [ClusterStatus] then answers. *)
  GetWorkloadCluster : NamespacedName -> (ClusterStatus + error) + error;
  (** [conditions.MarkFalse] and [conditions.MarkTrue], which read and write
      the conditions of their object and nothing else. *)
  MarkFalse :
    gmap string Condition -> string -> string -> string -> string -> list Z
    -> gmap string Condition;
  MarkTrue : gmap string Condition -> string -> gmap string Condition;
  (** Names declared in the control plane's API package. *)
  ResizedCondition : string;
  ScalingUpReason : string;
  ScalingDownReason : string;
  AvailableCondition : string
}.

Definition withStatus (kcp : KubeadmControlPlane) (st : KubeadmControlPlaneStatus)
  : KubeadmControlPlane :=
  {| kcpMeta := kcpMeta kcp; SpecReplicas := SpecReplicas kcp;
     DeletionTimestamp := DeletionTimestamp kcp; kcpStatus := st |}.

Definition setSelector (s : string) (st : KubeadmControlPlaneStatus) :=
  {| Selector := s; Replicas := Replicas st; UpdatedReplicas := UpdatedReplicas st;
     ReadyReplicas := ReadyReplicas st; UnavailableReplicas := UnavailableReplicas st;
     Initialized := Initialized st; Ready := Ready st;
     kcpConditions := kcpConditions st |}.

Definition setUpdatedReplicas (n : Z) (st : KubeadmControlPlaneStatus) :=
  {| Selector := Selector st; Replicas := Replicas st; UpdatedReplicas := n;
     ReadyReplicas := ReadyReplicas st; UnavailableReplicas := UnavailableReplicas st;
     Initialized := Initialized st; Ready := Ready st;
     kcpConditions := kcpConditions st |}.

(** [Status.Replicas], [Status.ReadyReplicas] and
    [Status.UnavailableReplicas], assigned together. *)
Definition setReplicas (replicas ready unavailable : Z)
    (st : KubeadmControlPlaneStatus) :=
  {| Selector := Selector st; Replicas := replicas;
     UpdatedReplicas := UpdatedReplicas st;
     ReadyReplicas := ready; UnavailableReplicas := unavailable;
     Initialized := Initialized st; Ready := Ready st;
     kcpConditions := kcpConditions st |}.

Definition setConditions (conds : gmap string Condition)
    (st : KubeadmControlPlaneStatus) :=
  {| Selector := Selector st; Replicas := Replicas st;
     UpdatedReplicas := UpdatedReplicas st;
     ReadyReplicas := ReadyReplicas st; UnavailableReplicas := UnavailableReplicas st;
     Initialized := Initialized st; Ready := Ready st;
     kcpConditions := conds |}.

Definition setInitialized (st : KubeadmControlPlaneStatus) :=
  {| Selector := Selector st; Replicas := Replicas st;
     UpdatedReplicas := UpdatedReplicas st;
     ReadyReplicas := ReadyReplicas st; UnavailableReplicas := UnavailableReplicas st;
     Initialized := true; Ready := Ready st;
     kcpConditions := kcpConditions st |}.

Definition setReady (st : KubeadmControlPlaneStatus) :=
  {| Selector := Selector st; Replicas := Replicas st;
     UpdatedReplicas := UpdatedReplicas st;
     ReadyReplicas := ReadyReplicas st; UnavailableReplicas := UnavailableReplicas st;
     Initialized := Initialized st; Ready := true;
     kcpConditions := kcpConditions st |}.

(** The [switch] on the number of replicas. *)
Definition markResized (r : KubeadmControlPlaneReconciler)
    (ownedMachines : list Machine) (replicas desiredReplicas : Z)
    (st : KubeadmControlPlaneStatus) : KubeadmControlPlaneStatus :=
  if replicas <? desiredReplicas then
    (* We are scaling up *)
    setConditions
      (MarkFalse r (kcpConditions st) (ResizedCondition r) (ScalingUpReason r)
         ConditionSeverityWarning "Scaling up to %d replicas (actual %d)"
         [desiredReplicas; replicas]) st
  else if desiredReplicas <? replicas then
    (* We are scaling down *)
    setConditions
      (MarkFalse r (kcpConditions st) (ResizedCondition r) (ScalingDownReason r)
         ConditionSeverityWarning "Scaling down to %d replicas (actual %d)"
         [desiredReplicas; replicas]) st
  else
    (* make sure last resize operation is marked as completed. *)
    let readyMachines := List.filter (IsReady r) ownedMachines in
    if wrap32 (Z.of_nat (length readyMachines)) =? replicas
    then setConditions (MarkTrue r (kcpConditions st) (ResizedCondition r)) st
    else st.

(** What the workload cluster's status adds. *)
Definition recordClusterStatus (r : KubeadmControlPlaneReconciler)
    (replicas : Z) (status : ClusterStatus) (st : KubeadmControlPlaneStatus)
  : KubeadmControlPlaneStatus :=
  let st :=
    setReplicas replicas (ReadyNodes status)
      (int32_sub replicas (ReadyNodes status)) st in
  (* This only gets initialized once and does not change if the kubeadm
     config map goes away. *)
  let st :=
    if HasKubeadmConfig status
    then setConditions (MarkTrue r (kcpConditions st) (AvailableCondition r))
           (setInitialized st)
    else st in
  if 0 <? ReadyReplicas st then setReady st else st.

(** [updateStatus] is called after every reconcilitation loop in a defer
    statement to always make sure we have the resource status subresourcs
    up-to-date.  It returns the object as it leaves it and how it ended. *)
Definition updateStatus (r : KubeadmControlPlaneReconciler)
    (kcp : KubeadmControlPlane) (cluster : Cluster)
  : KubeadmControlPlane * Outcome :=
  let selector := ControlPlaneSelectorForCluster r (metaName (clusterMeta cluster)) in
  (* Copy label selector to its status counterpart in string format. *)
  let kcp := withStatus kcp (setSelector selector (kcpStatus kcp)) in
  match GetMachinesForCluster r (ObjectKey (clusterMeta cluster)) kcp with
  | inr err =>
      (kcp, Returned (Some (Wrapf err "failed to get list of owned machines")))
  | inl ownedMachines =>
  let currentMachines := List.filter (MatchesConfigurationHash r kcp) ownedMachines in
  let kcp :=
    withStatus kcp
      (setUpdatedReplicas (wrap32 (Z.of_nat (length currentMachines)))
         (kcpStatus kcp)) in
  let replicas := wrap32 (Z.of_nat (length ownedMachines)) in
  match SpecReplicas kcp with
  | None => (kcp, Panicked)
  | Some desiredReplicas =>
  (* set basic data that does not require interacting with the workload
     cluster *)
  let kcp := withStatus kcp (setReplicas replicas 0 replicas (kcpStatus kcp)) in
  let kcp :=
    withStatus kcp
      (markResized r ownedMachines replicas desiredReplicas (kcpStatus kcp)) in
  (* Return early if the deletion timestamp is set, we don't want to try to
     connect to the workload cluster. *)
  if negb (IsZero (DeletionTimestamp kcp)) then (kcp, Returned None) else
  match GetWorkloadCluster r (ObjectKey (clusterMeta cluster)) with
  | inr err =>
      (kcp, Returned (Some (Wrapf err "failed to create remote cluster client")))
  | inl (inr err) => (kcp, Returned (Some err))
  | inl (inl status) =>
      (withStatus kcp (recordClusterStatus r replicas status (kcpStatus kcp)),
       Returned None)
  end end end.

(** The status after the "basic data that does not require interacting with
    the workload cluster" has been set, for the owned machines [owned] and
    the wanted number of replicas [desired]. *)
Definition basicStatus (r : KubeadmControlPlaneReconciler)
    (kcp : KubeadmControlPlane) (cluster : Cluster) (owned : list Machine)
    (desired : Z) : KubeadmControlPlaneStatus :=
  let selected :=
    setSelector (ControlPlaneSelectorForCluster r (metaName (clusterMeta cluster)))
      (kcpStatus kcp) in
  let replicas := wrap32 (Z.of_nat (length owned)) in
  markResized r owned replicas desired
    (setReplicas replicas 0 replicas
       (setUpdatedReplicas
          (wrap32 (Z.of_nat (length
             (List.filter (MatchesConfigurationHash r (withStatus kcp selected))
                owned))))
          selected)).

(** The owned machines are listed: [owned]. *)
Definition lists (r : KubeadmControlPlaneReconciler) (kcp : KubeadmControlPlane)
    (cluster : Cluster) (owned : list Machine) : Prop :=
  GetMachinesForCluster r (ObjectKey (clusterMeta cluster))
    (withStatus kcp
       (setSelector (ControlPlaneSelectorForCluster r (metaName (clusterMeta cluster)))
          (kcpStatus kcp))) = inl owned.

(** The same reconciler with another answer of the management cluster for
    the workload cluster. *)
Definition withWorkloadCluster (r : KubeadmControlPlaneReconciler)
    (answer : NamespacedName -> (ClusterStatus + error) + error)
  : KubeadmControlPlaneReconciler :=
  {| ControlPlaneSelectorForCluster := ControlPlaneSelectorForCluster r;
     GetMachinesForCluster := GetMachinesForCluster r;
     MatchesConfigurationHash := MatchesConfigurationHash r;
     IsReady := IsReady r;
     GetWorkloadCluster := answer;
     MarkFalse := MarkFalse r;
     MarkTrue := MarkTrue r;
     ResizedCondition := ResizedCondition r;
     ScalingUpReason := ScalingUpReason r;
     ScalingDownReason := ScalingDownReason r;
     AvailableCondition := AvailableCondition r |}.

End controlplane.

(** ** Fixtures: concrete objects for the examples *)

Module Fixture.

Definition meta (namespace name : string) (labels : gmap string string) : ObjectMeta :=
  mkObjectMeta namespace name labels ∅ [] "".

Definition selector : LabelSelector := mkLabelSelector {["app" := "web"]} [].

(** A policy of cluster ["c1"] in namespace ["ns"]. *)
Definition policy (name : string) (maxUnhealthy : option intstr.IntOrString)
    (expected healthy : Z) : MachineHealthCheck :=
  mkMHC (meta "ns" name {[ClusterLabelName := "c1"]})
    (mkMHCSpec "c1" selector maxUnhealthy 0)
    (mkMHCStatus expected healthy []).

Definition cluster : Cluster := mkCluster (meta "ns" "c1" ∅) false.

Definition machine (name : string) (node : option string)
    (conds : gmap string Condition) : Machine :=
  mkMachine (meta "ns" name {["app" := "web"]}) "c1" node conds.

Definition noFaults : Faults :=
  mkFaults None None None None None None (fun _ => None).

Definition tracker : ClusterCacheTracker :=
  mkTracker (fun _ => None) (fun _ => None).

(** A selector matches when it is not empty and its labels are among the
    machine's. *)
Definition matchLabels (s : LabelSelector) (labels : gmap string string) : bool :=
  negb (bool_decide (MatchLabels s = ∅)) && bool_decide (MatchLabels s ⊆ labels).

(** An evaluator for the examples: a machine without a node is unhealthy, a
    machine whose node is called ["starting"] is pending, any other machine
    is healthy. *)
Definition classify (t : healthCheckTarget) (timeout : Duration) : Health :=
  match NodeRef (tMachine t) with
  | None => Unhealthy
  | Some n => if bool_decide (n = "starting") then Pending 5 else Healthy
  end.

(** A reconciler whose resolver returns [targets]. *)
Definition reconciler (c : Faults) (targets : list healthCheckTarget)
  : MachineHealthCheckReconciler :=
  mkReconciler c (Some tracker)
    (fun _ _ => inl targets)
    classify
    matchLabels
    (fun t => metaName (machineMeta (tMachine t)))
    (fun c _ => clusterPaused c)
    (fun refs ref => (refs ++ [ref])%list).

Definition world (policies : list MachineHealthCheck) (cls : list Cluster)
    (ms : list Machine) : World :=
  mkWorld
    (list_to_map (map (fun p => (ObjectKey (mhcMeta p), p)) policies))
    (list_to_map (map (fun c => (ObjectKey (clusterMeta c), c)) cls))
    (list_to_map (map (fun m => (ObjectKey (machineMeta m), m)) ms))
    [].

Definition target (m : Machine) : healthCheckTarget :=
  mkTarget m (option_map mkNode (NodeRef m)).

(** One healthy, two unhealthy and one pending target. *)
Definition t1 : healthCheckTarget := target (machine "m1" (Some "n1") ∅).
Definition t2 : healthCheckTarget := target (machine "m2" None ∅).
Definition t3 : healthCheckTarget := target (machine "m3" None ∅).
Definition t4 : healthCheckTarget := target (machine "m4" (Some "starting") ∅).

(** A healthy target whose machine was marked by an earlier pass. *)
Definition t5 : healthCheckTarget :=
  target (machine "m5" (Some "n5")
            {[MachineOwnerRemediatedCondition := remediationCondition]}).

Definition emptyWorld : World := world [] [] [].

(** Patching the machine called [name] fails. *)
Definition patchFails (name : string) : Faults :=
  mkFaults None None None None None None
    (fun k => if bool_decide (Name k = name)
              then Some (Errorf "conflict") else None).

Definition listFails : Faults :=
  mkFaults None None (Some (Errorf "timeout")) None None None (fun _ => None).

(** The scenario of the specification: [maxUnhealthy = 1], three targets,
    two of them unhealthy. *)
Definition scenarioTargets : list healthCheckTarget := [t1; t2; t3].
Definition scenarioPolicy : MachineHealthCheck :=
  policy "p" (Some (intstr.FromInt 1)) 0 0.
Definition scenarioReconciler : MachineHealthCheckReconciler :=
  reconciler noFaults scenarioTargets.


(** A pass with [maxUnhealthy] unset over the already marked, now healthy
    target [t5]. *)
Definition recoveredTargets : list healthCheckTarget := [t5].
Definition recoveredPolicy : MachineHealthCheck := policy "p" None 0 0.
Definition recoveredReconciler : MachineHealthCheckReconciler :=
  reconciler noFaults recoveredTargets.

(** The scenario of the specification with one unhealthy target only. *)
Definition admittedTargets : list healthCheckTarget := [t1; t2].
Definition admittedReconciler : MachineHealthCheckReconciler :=
  reconciler noFaults admittedTargets.

(** A world that holds the policy ["p"] but not its cluster. *)
Definition orphanWorld : World := world [scenarioPolicy] [] [].

(** A world with two policies of cluster ["c1"], of which only ["p"] selects
    machines labelled [app=web], and two machines on two nodes. *)
Definition otherPolicy : MachineHealthCheck :=
  mkMHC (meta "ns" "q" {[ClusterLabelName := "c1"]})
    (mkMHCSpec "c1" (mkLabelSelector {["app" := "db"]} []) None 0)
    (mkMHCStatus 0 0 []).

Definition routingWorld : World :=
  world [scenarioPolicy; otherPolicy] [cluster]
    [machine "m1" (Some "n1") ∅; machine "m6" (Some "n6") ∅].

(** A reconciler whose tracker cannot watch the nodes of the cluster. *)
Definition blindReconciler : MachineHealthCheckReconciler :=
  mkReconciler noFaults
    (Some (mkTracker (fun _ => None) (fun _ => Some (Errorf "unreachable"))))
    (fun _ _ => inl scenarioTargets) classify matchLabels
    (fun t => metaName (machineMeta (tMachine t)))
    (fun c _ => clusterPaused c)
    (fun refs ref => refs ++ [ref]).

(** Admission is granted to [t1] and [t2]; the patch of the healthy [t1]
    fails. *)
Definition lateFailureReconciler : MachineHealthCheckReconciler :=
  reconciler (patchFails "m1") admittedTargets.

(** The final patch of the policy fails. *)
Definition policyPatchFails : Faults :=
  mkFaults None None None None None (Some (Errorf "conflict")) (fun _ => None).

(** The policy can be fetched neither as found nor as missing. *)
Definition getFails : Faults :=
  mkFaults (Some (Errorf "timeout")) None None None None None (fun _ => None).

Definition pausedCluster : Cluster := mkCluster (meta "ns" "c1" ∅) true.

Definition pausedWorld : World := world [scenarioPolicy] [pausedCluster] [].

(** A policy stored without labels, with its cluster. *)
Definition barePolicy : MachineHealthCheck :=
  mkMHC (meta "ns" "bare" ∅) (mkMHCSpec "c1" selector None 0) (mkMHCStatus 0 0 []).

Definition bareWorld : World := world [barePolicy] [cluster] [].

(** A control plane with three wanted replicas, and a management cluster
    that owns the machines [owned], of which those on a node are ready and
    up to date, whose workload cluster answers [answer]. *)
Definition controlPlane (deletion : option Z) : controlplane.KubeadmControlPlane :=
  controlplane.mkKCP (meta "ns" "cp" ∅) (Some 3) deletion
    (controlplane.mkKCPStatus "" 0 0 0 0 false false ∅).

Definition hasNode (m : Machine) : bool :=
  match NodeRef m with Some _ => true | None => false end.

Definition controlPlaneReconciler (owned : list Machine)
    (answer : (controlplane.ClusterStatus + error) + error)
  : controlplane.KubeadmControlPlaneReconciler :=
  controlplane.mkKCPReconciler
    (fun name => "cluster.x-k8s.io/cluster-name=" +:+ name)
    (fun _ _ => inl owned)
    (fun _ m => hasNode m)
    hasNode
    (fun _ => answer)
    (fun conds t reason severity _ _ =>
       <[t := mkCondition ConditionFalse severity reason ""]> conds)
    (fun conds t => <[t := mkCondition ConditionTrue "" "" ""]> conds)
    "Resized" "ScalingUp" "ScalingDown" "Available".

Definition ownedMachines : list Machine :=
  [machine "cp1" (Some "n1") ∅; machine "cp2" (Some "n2") ∅; machine "cp3" None ∅].

(** A reconciler without a tracker. *)
Definition noTrackerReconciler : MachineHealthCheckReconciler :=
  mkReconciler noFaults None
    (fun _ _ => inl scenarioTargets) classify matchLabels
    (fun t => metaName (machineMeta (tMachine t)))
    (fun c _ => clusterPaused c)
    (fun refs ref => refs ++ [ref]).

End Fixture.

(** * Properties *)

(** ** Machine integers *)

Lemma wrap32_small (z : Z) : MinInt32 <= z <= MaxInt32 -> wrap32 z = z.
Proof.
  unfold MinInt32, MaxInt32, wrap32. intros Hz.
  rewrite Z.mod_small by lia. lia.
Qed.

Lemma wrap32_of_length {A} (l : list A) :
  Z.of_nat (length l) <= MaxInt32 -> wrap32 (Z.of_nat (length l)) = Z.of_nat (length l).
Proof. intros Hl. apply wrap32_small. unfold MinInt32. lia. Qed.

(** ** Admission *)

Lemma isAllowedRemediation_unset (mhc : MachineHealthCheck) :
  MaxUnhealthy (mhcSpec mhc) = None -> isAllowedRemediation mhc = true.
Proof. intros Hmu. unfold isAllowedRemediation. by rewrite Hmu. Qed.

Lemma isAllowedRemediation_resolved (mhc : MachineHealthCheck) mu (resolvedMax : Z) :
  MaxUnhealthy (mhcSpec mhc) = Some mu ->
  intstr.GetValueFromIntOrPercent mu (ExpectedMachines (mhcStatus mhc)) false
    = inl resolvedMax ->
  isAllowedRemediation mhc = (unhealthyCount mhc <=? resolvedMax).
Proof.
  intros Hmu Hres. unfold isAllowedRemediation, unhealthyCount.
  by rewrite Hmu, Hres.
Qed.

Lemma isAllowedRemediation_unresolved (mhc : MachineHealthCheck) mu err :
  MaxUnhealthy (mhcSpec mhc) = Some mu ->
  intstr.GetValueFromIntOrPercent mu (ExpectedMachines (mhcStatus mhc)) false
    = inr err ->
  isAllowedRemediation mhc = false.
Proof.
  intros Hmu Hres. unfold isAllowedRemediation. by rewrite Hmu, Hres.
Qed.

Lemma percent_rounds_down (s : string) (p total : Z) :
  intstr.parsePercent None s = Some p ->
  exists resolvedMax,
    intstr.GetValueFromIntOrPercent (intstr.FromString s) total false = inl resolvedMax /\
    100 * resolvedMax <= p * total < 100 * (resolvedMax + 1).
Proof.
  intros Hp. exists (p * total / 100). split.
  - unfold intstr.GetValueFromIntOrPercent. by rewrite Hp.
  - pose proof (Z.div_mod (p * total) 100 ltac:(lia)) as Hdm.
    pose proof (Z.mod_pos_bound (p * total) 100 ltac:(lia)) as Hb.
    lia.
Qed.

(** C1.  Admission: with [maxUnhealthy] unset remediation is admitted;
    otherwise, when [maxUnhealthy] resolves against the expected-machine
    count to [resolvedMax], remediation is admitted exactly when the
    unhealthy count [ExpectedMachines - CurrentHealthy] is at most
    [resolvedMax].  The count is the plain difference whenever it fits
    [int32], as it does for counts of machines.  A percentage resolves to the
    product rounded down to an integer: ["50%"] of 3 is 1, so with three
    expected machines one unhealthy machine is admitted and two are not. *)
Theorem admission_decision :
  (forall mhc, MaxUnhealthy (mhcSpec mhc) = None -> isAllowedRemediation mhc = true) /\
  (forall mhc mu resolvedMax,
     MaxUnhealthy (mhcSpec mhc) = Some mu ->
     intstr.GetValueFromIntOrPercent mu (ExpectedMachines (mhcStatus mhc)) false
       = inl resolvedMax ->
     (isAllowedRemediation mhc = true <-> unhealthyCount mhc <= resolvedMax) /\
     (MinInt32 <= ExpectedMachines (mhcStatus mhc) - CurrentHealthy (mhcStatus mhc)
        <= MaxInt32 ->
      unhealthyCount mhc
        = ExpectedMachines (mhcStatus mhc) - CurrentHealthy (mhcStatus mhc))) /\
  (forall s p total,
     intstr.parsePercent None s = Some p ->
     exists resolvedMax,
       intstr.GetValueFromIntOrPercent (intstr.FromString s) total false
         = inl resolvedMax /\
       100 * resolvedMax <= p * total < 100 * (resolvedMax + 1)) /\
  intstr.GetValueFromIntOrPercent (intstr.FromString "50%") 3 false = inl 1 /\
  isAllowedRemediation
    (Fixture.policy "p" (Some (intstr.FromString "50%")) 3 2) = true /\
  isAllowedRemediation
    (Fixture.policy "p" (Some (intstr.FromString "50%")) 3 1) = false.
Proof.
  split; [exact isAllowedRemediation_unset |].
  split.
  { intros mhc mu resolvedMax Hmu Hres. split.
    - rewrite (isAllowedRemediation_resolved mhc mu resolvedMax Hmu Hres).
      apply Z.leb_le.
    - intros Hfit. unfold unhealthyCount, int32_sub. by apply wrap32_small. }
  split; [exact percent_rounds_down |].
  repeat split; reflexivity.
Qed.

(** An instance of C1: a policy with [maxUnhealthy = 1], three expected
    machines and two healthy ones admits remediation. *)
Lemma admission_decision_witness :
  isAllowedRemediation (Fixture.policy "p" (Some (intstr.FromInt 1)) 3 2) = true /\
  unhealthyCount (Fixture.policy "p" (Some (intstr.FromInt 1)) 3 2) = 3 - 2.
Proof.
  destruct admission_decision as (_ & Hres & _).
  destruct (Hres (Fixture.policy "p" (Some (intstr.FromInt 1)) 3 2)
              (intstr.FromInt 1) 1 eq_refl eq_refl) as [Hiff Hcount].
  split.
  - apply Hiff. vm_compute. discriminate.
  - apply Hcount. vm_compute. split; discriminate.
Defined.

(** ** Stores written by a loop of patches *)

Section Written.
Context (f : healthCheckTarget -> Machine).

Let key (t : healthCheckTarget) : NamespacedName := ObjectKey (machineMeta (f t)).

Lemma written_app (ts us : list healthCheckTarget) store :
  written f (ts ++ us) store = written f us (written f ts store).
Proof. unfold written. apply foldl_app. Qed.

Lemma written_snoc (ts : list healthCheckTarget) t store :
  written f (ts ++ [t]) store = <[key t := f t]> (written f ts store).
Proof. by rewrite written_app. Qed.

(** A key that no target of the loop has keeps its object. *)
Lemma written_lookup_other (ts : list healthCheckTarget) store k :
  (forall t, t ∈ ts -> key t <> k) ->
  written f ts store !! k = store !! k.
Proof.
  induction ts as [| t ts IH] using rev_ind; intros Hk; [done |].
  rewrite written_snoc, lookup_insert_ne.
  - apply IH. intros u Hu. apply Hk. set_solver.
  - apply Hk. set_solver.
Qed.

(** Whatever the store holds afterwards was there before or is what the
    loop wrote for one of its targets. *)
Lemma written_lookup_cases (ts : list healthCheckTarget) store k mach :
  written f ts store !! k = Some mach ->
  store !! k = Some mach \/ exists t, t ∈ ts /\ key t = k /\ mach = f t.
Proof.
  induction ts as [| t ts IH] using rev_ind; intros Hlk; [by left |].
  rewrite written_snoc in Hlk.
  destruct (decide (key t = k)) as [Heq | Hne].
  - rewrite Heq, lookup_insert_eq in Hlk. right. exists t.
    split; [apply elem_of_app; right; apply list_elem_of_singleton; done |].
    split; congruence.
  - rewrite lookup_insert_ne in Hlk by done.
    destruct (IH Hlk) as [Hold | (u & Hu & Hku & Hm)]; [by left |].
    right. exists u. split; [apply elem_of_app; by left | done].
Qed.

(** With one target per key, each target's object is in the store. *)
Lemma written_lookup_target (ts : list healthCheckTarget) store t :
  NoDup (key <$> ts) -> t ∈ ts ->
  written f ts store !! key t = Some (f t).
Proof.
  induction ts as [| u ts IH] using rev_ind; intros Hnd Ht; [set_solver |].
  rewrite fmap_app in Hnd. apply NoDup_app in Hnd as (Hnd & Hdisj & _).
  rewrite written_snoc.
  apply elem_of_app in Ht as [Ht | Ht].
  - rewrite lookup_insert_ne; [by apply IH |].
    intros Heq. apply (Hdisj (key t)).
    + apply list_elem_of_fmap. by exists t.
    + rewrite <- Heq. set_solver.
  - apply list_elem_of_singleton in Ht as ->. apply lookup_insert_eq.
Qed.
End Written.

(** ** Loops of patches *)

Lemma world_eta (w : World) : withMachines w (machines w) = w.
Proof. by destruct w. Qed.

(** The loop [for _, t := range ts { Patch(f t) }] writes a prefix [done] of
    its targets: all of them when it returns normally, those before the
    first failing patch otherwise. *)
Lemma forEach_Patch (c : Faults) (f : healthCheckTarget -> Machine) (msg : string)
    (ts : list healthCheckTarget) (w : World) :
  exists done rest,
    ts = done ++ rest /\
    (forEach ts (fun t => wrapErr (Patch c (f t)) msg) w).2
      = withMachines w (written f done (machines w)) /\
    match rest with
    | [] => (forEach ts (fun t => wrapErr (Patch c (f t)) msg) w).1 = inl tt
    | t :: _ =>
        exists perr,
          failPatchMachine c (ObjectKey (machineMeta (f t))) = Some perr /\
          (forEach ts (fun t => wrapErr (Patch c (f t)) msg) w).1
            = inr (Wrapf perr msg)
    end.
Proof.
  revert w. induction ts as [| t ts IH]; intros w.
  - exists [], []. simpl. by rewrite world_eta.
  - simpl. unfold mbind, M_bind, bind, wrapErr, Patch.
    destruct (failPatchMachine c (ObjectKey (machineMeta (f t)))) as [perr |] eqn:Hfail.
    + exists [], (t :: ts). simpl. rewrite world_eta.
      repeat split. exists perr. by rewrite Hfail.
    + destruct (IH (setMachine (f t) w)) as (done & rest & -> & Hw & Hres).
      exists (t :: done), rest. split; [done |]. split; [exact Hw |].
      destruct rest as [| u rest]; [exact Hres |].
      destruct Hres as (perr & Hperr & Hout). exists perr. by split.
Qed.

(** When no patch fails the loop writes every target. *)
Lemma forEach_Patch_ok (c : Faults) (f : healthCheckTarget -> Machine) (msg : string)
    (ts : list healthCheckTarget) (w : World) :
  Forall (fun t => failPatchMachine c (ObjectKey (machineMeta (f t))) = None) ts ->
  forEach ts (fun t => wrapErr (Patch c (f t)) msg) w
    = (inl tt, withMachines w (written f ts (machines w))).
Proof.
  intros Hok.
  destruct (forEach_Patch c f msg ts w) as (done & rest & -> & Hw & Hres).
  destruct rest as [| t rest].
  - rewrite app_nil_r in *.
    destruct (forEach done _ w) as [out w'] eqn:Hrun. simpl in *. by subst.
  - destruct Hres as (perr & Hperr & _).
    apply Forall_app in Hok as [_ Hok]. apply Forall_cons in Hok as [Hok _].
    congruence.
Qed.

Lemma forEach_cons {A} (x : A) (l : list A) (body : A -> M unit) (w : World) :
  forEach (x :: l) body w
    = match body x w with
      | (inl _, w') => forEach l body w'
      | (inr err, w') => (inr err, w')
      end.
Proof. reflexivity. Qed.

Lemma markUnhealthy_run (r : MachineHealthCheckReconciler) (t : healthCheckTarget)
    (w : World) :
  markUnhealthy r t w
    = match failPatchMachine (Client r) (machineKey t) with
      | Some perr =>
          (inr (Wrapf perr "Failed to patch unhealthy machine status for machine"), w)
      | None =>
          (inl tt,
           withEvents
             (withMachines w (<[machineKey t := markedMachine t]> (machines w)))
             (events w ++ [markedEvent r t]))
      end.
Proof.
  unfold markUnhealthy, mbind, M_bind, bind, wrapErr, Patch, Eventf.
  change (ObjectKey (machineMeta (conditions.MarkFalse (tMachine t) _ _ _ _)))
    with (machineKey t).
  by destruct (failPatchMachine (Client r) (machineKey t)).
Qed.

(** The loop over the unhealthy targets marks, patches and records a prefix
    of them. *)
Lemma forEach_markUnhealthy (r : MachineHealthCheckReconciler)
    (ts : list healthCheckTarget) (w : World) :
  exists done rest,
    ts = done ++ rest /\
    (forEach ts (markUnhealthy r) w).2
      = withEvents (withMachines w (written markedMachine done (machines w)))
          (events w ++ map (markedEvent r) done) /\
    match rest with
    | [] => (forEach ts (markUnhealthy r) w).1 = inl tt
    | t :: _ =>
        exists perr,
          failPatchMachine (Client r) (machineKey t) = Some perr /\
          (forEach ts (markUnhealthy r) w).1
            = inr (Wrapf perr "Failed to patch unhealthy machine status for machine")
    end.
Proof.
  revert w. induction ts as [| t ts IH]; intros w.
  - exists [], []. simpl. rewrite app_nil_r. by destruct w.
  - rewrite forEach_cons, markUnhealthy_run.
    destruct (failPatchMachine (Client r) (machineKey t)) as [perr |] eqn:Hfail.
    + exists [], (t :: ts). simpl. rewrite app_nil_r.
      split; [done |]. split; [by destruct w |]. by exists perr.
    + match goal with
      | |- context [forEach ts (markUnhealthy r) ?w1] =>
          destruct (IH w1) as (done & rest & -> & Hw & Hres)
      end.
      exists (t :: done), rest. split; [done |]. split.
      * rewrite Hw. simpl. unfold withEvents, withMachines. simpl.
        by rewrite <- app_assoc.
      * exact Hres.
Qed.

Lemma forEach_markUnhealthy_ok (r : MachineHealthCheckReconciler)
    (ts : list healthCheckTarget) (w : World) :
  patchesSucceed (Client r) ts ->
  forEach ts (markUnhealthy r) w
    = (inl tt,
       withEvents (withMachines w (written markedMachine ts (machines w)))
         (events w ++ map (markedEvent r) ts)).
Proof.
  intros Hok.
  destruct (forEach_markUnhealthy r ts w) as (done & rest & -> & Hw & Hres).
  destruct rest as [| t rest].
  - rewrite app_nil_r in *.
    destruct (forEach done _ w) as [out w'] eqn:Hrun. simpl in *. by subst.
  - destruct Hres as (perr & Hperr & _).
    apply Forall_app in Hok as [_ Hok]. apply Forall_cons in Hok as [Hok _].
    congruence.
Qed.

(** ** The two branches of the pass *)

Lemma shortCircuit_run (r : MachineHealthCheckReconciler) (m : MachineHealthCheck)
    (totalTargets : Z) (healthy unhealthy : list healthCheckTarget) (w : World) :
  shortCircuit r m totalTargets healthy unhealthy w
    = match forEach (healthy ++ unhealthy)
              (fun t => wrapErr (Patch (Client r) (tMachine t))
                          "Failed to patch machine status for machine")
              (withEvents w (events w ++ [restrictionEvent m totalTargets])) with
      | (inl _, w') => (inl (mkResult true 0), w')
      | (inr err, w') => (inr err, w')
      end.
Proof. reflexivity. Qed.

Lemma remediate_run (r : MachineHealthCheckReconciler)
    (healthy unhealthy : list healthCheckTarget) (nextCheckTimes : list Duration)
    (w : World) :
  remediate r healthy unhealthy nextCheckTimes w
    = match forEach unhealthy (markUnhealthy r) w with
      | (inr err, w') => (inr err, w')
      | (inl _, w') =>
          match forEach healthy
                  (fun t => wrapErr (Patch (Client r) (tMachine t))
                              "Failed to patch healthy machine status for machine")
                  w' with
          | (inr err, w'') => (inr err, w'')
          | (inl _, w'') =>
              (inl (if 0 <? minDuration nextCheckTimes
                    then mkResult false (minDuration nextCheckTimes)
                    else emptyResult), w'')
          end
      end.
Proof.
  unfold remediate, mbind, M_bind, bind. simpl.
  destruct (forEach unhealthy (markUnhealthy r) w) as [[[] | err] w']; [| done].
  destruct (forEach healthy _ w') as [[[] | err] w'']; [| done].
  by destruct (0 <? minDuration nextCheckTimes).
Qed.

(** Once the targets are resolved, the pass leaves [observed] in memory and
    runs one of the two branches on it. *)
Lemma reconcile_evaluated (r : MachineHealthCheckReconciler) (cluster : Cluster)
    (m : MachineHealthCheck) (w : World) (targets : list healthCheckTarget) :
  reachesEvaluation r cluster m w targets ->
  reconcile r cluster m w
    = (observed r cluster m targets,
       if isAllowedRemediation (observed r cluster m targets)
       then remediate r (healthyTargets r m targets) (unhealthyTargets r m targets)
              (nextCheckTimesOf r m targets) w
       else shortCircuit r (observed r cluster m targets)
              (Z.of_nat (length targets))
              (healthyTargets r m targets) (unhealthyTargets r m targets) w).
Proof.
  intros (Hclient & Hwatch & Htargets).
  unfold reconcile. rewrite Hclient, Hwatch, Htargets.
  unfold healthCheckTargets. cbn [mhcSpec withStatus mhcStatus ExpectedMachines Targets].
  change (withStatus _ _) with (observed r cluster m targets).
  by destruct (isAllowedRemediation (observed r cluster m targets)).
Qed.

(** ** The partition made by the health evaluator *)

Lemma healthy_elem (r : MachineHealthCheckReconciler) (m : MachineHealthCheck)
    (targets : list healthCheckTarget) (t : healthCheckTarget) :
  t ∈ healthyTargets r m targets <->
  t ∈ targets /\ evaluate r t (NodeStartupTimeout (mhcSpec m)) = Healthy.
Proof.
  unfold healthyTargets, healthCheckTargets. simpl.
  rewrite !list_elem_of_In, filter_In.
  destruct (evaluate r t _); simpl; intuition congruence.
Qed.

Lemma unhealthy_elem (r : MachineHealthCheckReconciler) (m : MachineHealthCheck)
    (targets : list healthCheckTarget) (t : healthCheckTarget) :
  t ∈ unhealthyTargets r m targets <->
  t ∈ targets /\ evaluate r t (NodeStartupTimeout (mhcSpec m)) = Unhealthy.
Proof.
  unfold unhealthyTargets, healthCheckTargets. simpl.
  rewrite !list_elem_of_In, filter_In.
  destruct (evaluate r t _); simpl; intuition congruence.
Qed.

(** Every target is counted once: healthy, unhealthy or pending. *)
Lemma partition_lengths (r : MachineHealthCheckReconciler) (m : MachineHealthCheck)
    (targets : list healthCheckTarget) :
  length targets
    = (length (healthyTargets r m targets)
       + length (unhealthyTargets r m targets)
       + length (nextCheckTimesOf r m targets))%nat.
Proof.
  unfold healthyTargets, unhealthyTargets, nextCheckTimesOf, healthCheckTargets.
  simpl. induction targets as [| t ts IH]; [done |].
  cbn [List.filter omap list_omap length].
  destruct (evaluate r t _); cbn [isHealthy isUnhealthy pendingDeadline length];
    rewrite IH; lia.
Qed.

(** With one target per machine, the healthy and the unhealthy targets
    together still have one target per machine. *)
Lemma partition_NoDup (r : MachineHealthCheckReconciler) (m : MachineHealthCheck)
    (targets : list healthCheckTarget) :
  NoDup (machineKey <$> targets) ->
  NoDup (machineKey <$> (healthyTargets r m targets ++ unhealthyTargets r m targets)).
Proof.
  unfold healthyTargets, unhealthyTargets, healthCheckTargets. simpl.
  induction targets as [| t ts IH]; intros Hnd; [constructor |].
  rewrite fmap_cons in Hnd. apply NoDup_cons in Hnd as [Hnotin Hnd].
  specialize (IH Hnd).
  assert (Hsub : forall k,
    k ∈ machineKey <$>
      (List.filter (fun t => isHealthy (evaluate r t (NodeStartupTimeout (mhcSpec m)))) ts
       ++ List.filter (fun t => isUnhealthy (evaluate r t (NodeStartupTimeout (mhcSpec m)))) ts)
    -> k ∈ machineKey <$> ts).
  { intros k Hk. apply list_elem_of_fmap in Hk as (u & -> & Hu).
    apply list_elem_of_fmap. exists u. split; [done |].
    apply elem_of_app in Hu as [Hu | Hu];
      apply list_elem_of_In, filter_In in Hu as [Hu _]; by apply list_elem_of_In. }
  cbn [List.filter]. destruct (evaluate r t _); cbn [isHealthy isUnhealthy].
  - rewrite <- app_comm_cons, fmap_cons. apply NoDup_cons. split; [| done].
    intros Hin. apply Hnotin. by apply Hsub.
  - rewrite fmap_app, fmap_cons. apply NoDup_app.
    rewrite fmap_app in IH. apply NoDup_app in IH as (Hh & Hdisj & Hu).
    split; [done |]. split.
    + intros k Hk Hin. apply elem_of_cons in Hin as [-> | Hin].
      * apply Hnotin, Hsub. rewrite fmap_app. apply elem_of_app. by left.
      * by apply (Hdisj k).
    + apply NoDup_cons. split; [| done].
      intros Hin. apply Hnotin, Hsub. rewrite fmap_app. apply elem_of_app. by right.
  - done.
Qed.

(** ** What a pass does once admission is decided *)

(** A denied pass records the restriction and then patches the healthy and
    the unhealthy targets in order, stopping at the first patch that
    fails. *)
Lemma denied_pass (r : MachineHealthCheckReconciler) (cluster : Cluster)
    (m : MachineHealthCheck) (w : World) (targets : list healthCheckTarget) :
  reachesEvaluation r cluster m w targets ->
  isAllowedRemediation (observed r cluster m targets) = false ->
  exists done rest,
    healthyTargets r m targets ++ unhealthyTargets r m targets = done ++ rest /\
    (reconcile r cluster m w).1 = observed r cluster m targets /\
    (reconcile r cluster m w).2.2
      = withMachines
          (withEvents w
             (events w ++ [restrictionEvent (observed r cluster m targets)
                             (Z.of_nat (length targets))]))
          (written tMachine done (machines w)) /\
    match rest with
    | [] => (reconcile r cluster m w).2.1 = inl (mkResult true 0)
    | t :: _ =>
        exists perr,
          failPatchMachine (Client r) (machineKey t) = Some perr /\
          (reconcile r cluster m w).2.1
            = inr (Wrapf perr "Failed to patch machine status for machine")
    end.
Proof.
  intros Hreach Hdenied.
  rewrite (reconcile_evaluated r cluster m w targets Hreach), Hdenied.
  rewrite shortCircuit_run. cbn [fst snd].
  match goal with
  | |- context [forEach ?ts ?body ?w1] =>
      destruct (forEach_Patch (Client r) tMachine
                  "Failed to patch machine status for machine" ts w1)
        as (done & rest & Hsplit & Hw & Hres);
      destruct (forEach ts body w1) as [out w'] eqn:Hrun
  end.
  cbn [fst snd] in Hw, Hres. subst w'.
  exists done, rest. split; [exact Hsplit |]. split; [done |].
  destruct rest as [| t rest].
  - rewrite Hres. by split.
  - destruct Hres as (perr & Hperr & ->). split; [done |]. by exists perr.
Qed.

(** A denied pass whose patches all succeed leaves, with one target per
    machine, the machine of every healthy and unhealthy target in the
    store. *)
Lemma denied_pass_patched (r : MachineHealthCheckReconciler) (cluster : Cluster)
    (m : MachineHealthCheck) (w : World) (targets : list healthCheckTarget) :
  reachesEvaluation r cluster m w targets ->
  isAllowedRemediation (observed r cluster m targets) = false ->
  patchesSucceed (Client r)
    (healthyTargets r m targets ++ unhealthyTargets r m targets) ->
  NoDup (machineKey <$> targets) ->
  forall t,
    t ∈ healthyTargets r m targets ++ unhealthyTargets r m targets ->
    machines (reconcile r cluster m w).2.2 !! machineKey t = Some (tMachine t).
Proof.
  intros Hreach Hdenied Hok Hnd t Ht.
  destruct (denied_pass r cluster m w targets Hreach Hdenied)
    as (done & rest & Hsplit & _ & Hw & Hout).
  assert (rest = []) as ->.
  { destruct rest as [| u rest]; [done |].
    destruct Hout as (perr & Hperr & _).
    rewrite Hsplit in Hok.
    apply Forall_app in Hok as [_ Hok]. apply Forall_cons in Hok as [Hok _].
    congruence. }
  rewrite app_nil_r in Hsplit. subst done. rewrite Hw.
  apply (written_lookup_target tMachine); [| done].
  by apply partition_NoDup.
Qed.

(** An admitted pass whose patches all succeed marks and patches every
    unhealthy target, recording one event for each, and then patches every
    healthy target as it is. *)
Lemma admitted_pass (r : MachineHealthCheckReconciler) (cluster : Cluster)
    (m : MachineHealthCheck) (w : World) (targets : list healthCheckTarget) :
  reachesEvaluation r cluster m w targets ->
  isAllowedRemediation (observed r cluster m targets) = true ->
  patchesSucceed (Client r)
    (healthyTargets r m targets ++ unhealthyTargets r m targets) ->
  reconcile r cluster m w
    = (observed r cluster m targets,
       (inl (if 0 <? minDuration (nextCheckTimesOf r m targets)
             then mkResult false (minDuration (nextCheckTimesOf r m targets))
             else emptyResult),
        withEvents
          (withMachines w
             (written tMachine (healthyTargets r m targets)
                (written markedMachine (unhealthyTargets r m targets) (machines w))))
          (events w ++ map (markedEvent r) (unhealthyTargets r m targets)))).
Proof.
  intros Hreach Hadmitted Hok.
  apply Forall_app in Hok as [Hh Hu].
  rewrite (reconcile_evaluated r cluster m w targets Hreach), Hadmitted.
  rewrite remediate_run, (forEach_markUnhealthy_ok r _ w Hu).
  rewrite forEach_Patch_ok by exact Hh.
  reflexivity.
Qed.

(** ** Malformed configuration *)

(** C2.  A [maxUnhealthy] that is set but cannot be resolved denies
    admission.  A pass with such a policy takes the denied branch and does
    not fail because of it: it returns [Result{Requeue: true}] and no error
    when the patches of its targets succeed, and the only error it can
    return is that of a target patch that failed. *)
Theorem malformed_maxUnhealthy_denies :
  (forall mhc mu err,
     MaxUnhealthy (mhcSpec mhc) = Some mu ->
     intstr.GetValueFromIntOrPercent mu (ExpectedMachines (mhcStatus mhc)) false
       = inr err ->
     isAllowedRemediation mhc = false) /\
  (forall r cluster m w targets mu,
     reachesEvaluation r cluster m w targets ->
     MaxUnhealthy (mhcSpec m) = Some mu ->
     (forall total, exists err,
        intstr.GetValueFromIntOrPercent mu total false = inr err) ->
     isAllowedRemediation (reconcile r cluster m w).1 = false /\
     (patchesSucceed (Client r)
        (healthyTargets r m targets ++ unhealthyTargets r m targets) ->
      (reconcile r cluster m w).2.1 = inl (mkResult true 0)) /\
     (forall err,
        (reconcile r cluster m w).2.1 = inr err ->
        exists t perr,
          t ∈ healthyTargets r m targets ++ unhealthyTargets r m targets /\
          failPatchMachine (Client r) (machineKey t) = Some perr /\
          err = Wrapf perr "Failed to patch machine status for machine")).
Proof.
  split; [exact isAllowedRemediation_unresolved |].
  intros r cluster m w targets mu Hreach Hmu Hbad.
  assert (Hdenied : isAllowedRemediation (observed r cluster m targets) = false).
  { destruct (Hbad (ExpectedMachines (mhcStatus (observed r cluster m targets))))
      as [err Herr].
    by apply (isAllowedRemediation_unresolved _ mu err). }
  destruct (denied_pass r cluster m w targets Hreach Hdenied)
    as (done & rest & Hsplit & Hm & _ & Hout).
  rewrite Hm. split; [exact Hdenied |]. split.
  - intros Hok. destruct rest as [| t rest]; [exact Hout |].
    destruct Hout as (perr & Hperr & _).
    rewrite Hsplit in Hok.
    apply Forall_app in Hok as [_ Hok]. apply Forall_cons in Hok as [Hok _].
    congruence.
  - intros err Herr. destruct rest as [| t rest]; [congruence |].
    destruct Hout as (perr & Hperr & Hout). exists t, perr.
    split; [rewrite Hsplit; apply elem_of_app; right; apply elem_of_cons; by left |].
    split; [done | congruence].
Qed.

(** An instance of C2: the policy's [maxUnhealthy] is the string ["half"];
    the pass over one healthy and one unhealthy target denies admission and
    returns [Result{Requeue: true}]. *)
Lemma malformed_maxUnhealthy_denies_witness :
  isAllowedRemediation
    (reconcile (Fixture.reconciler Fixture.noFaults [Fixture.t1; Fixture.t2])
       Fixture.cluster
       (Fixture.policy "p" (Some (intstr.FromString "half")) 0 0)
       Fixture.emptyWorld).1 = false /\
  (reconcile (Fixture.reconciler Fixture.noFaults [Fixture.t1; Fixture.t2])
     Fixture.cluster
     (Fixture.policy "p" (Some (intstr.FromString "half")) 0 0)
     Fixture.emptyWorld).2.1 = inl (mkResult true 0).
Proof.
  destruct malformed_maxUnhealthy_denies as [_ Hpass].
  destruct (Hpass (Fixture.reconciler Fixture.noFaults [Fixture.t1; Fixture.t2])
              Fixture.cluster
              (Fixture.policy "p" (Some (intstr.FromString "half")) 0 0)
              Fixture.emptyWorld [Fixture.t1; Fixture.t2]
              (intstr.FromString "half"))
    as (Hdenied & Hok & _).
  - repeat split; reflexivity.
  - reflexivity.
  - intros total. eexists. reflexivity.
  - split; [exact Hdenied |]. apply Hok.
    repeat constructor.
Defined.

(** ** The denied pass *)




(** C4, as the code has it.  A denied pass whose target patches all succeed
    returns no error and the result [Result{Requeue: true}]: a requeue with
    no [RequeueAfter] delay. *)
Theorem denied_pass_requeues (r : MachineHealthCheckReconciler) (cluster : Cluster)
    (m : MachineHealthCheck) (w : World) (targets : list healthCheckTarget) :
  reachesEvaluation r cluster m w targets ->
  isAllowedRemediation (observed r cluster m targets) = false ->
  patchesSucceed (Client r)
    (healthyTargets r m targets ++ unhealthyTargets r m targets) ->
  (reconcile r cluster m w).2.1
    = inl {| Requeue := true; RequeueAfter := 0 |}.
Proof.
  intros Hreach Hdenied Hok.
  destruct (denied_pass r cluster m w targets Hreach Hdenied)
    as (done & rest & Hsplit & _ & _ & Hout).
  destruct rest as [| t rest]; [exact Hout |].
  destruct Hout as (perr & Hperr & _).
  rewrite Hsplit in Hok.
  apply Forall_app in Hok as [_ Hok]. apply Forall_cons in Hok as [Hok _].
  congruence.
Qed.

(** An instance of C4: the scenario of the specification. *)
Lemma denied_pass_requeues_witness :
  (reconcile Fixture.scenarioReconciler Fixture.cluster
     Fixture.scenarioPolicy Fixture.emptyWorld).2.1
    = inl {| Requeue := true; RequeueAfter := 0 |}.
Proof.
  apply (denied_pass_requeues _ _ _ _ Fixture.scenarioTargets).
  - repeat split; reflexivity.
  - reflexivity.
  - repeat constructor.
Defined.

(** C4 as stated fails: in the scenario of the specification the pass is
    denied, its patches succeed, and the result it returns asks for no
    delay. *)
Lemma denied_pass_timed_retry_counterexample :
  isAllowedRemediation
    (observed Fixture.scenarioReconciler Fixture.cluster
       Fixture.scenarioPolicy Fixture.scenarioTargets) = false /\
  patchesSucceed (Client Fixture.scenarioReconciler)
    (healthyTargets Fixture.scenarioReconciler Fixture.scenarioPolicy
       Fixture.scenarioTargets
     ++ unhealthyTargets Fixture.scenarioReconciler Fixture.scenarioPolicy
          Fixture.scenarioTargets) /\
  ~ (exists result,
       (reconcile Fixture.scenarioReconciler Fixture.cluster
          Fixture.scenarioPolicy Fixture.emptyWorld).2.1 = inl result /\
       0 < RequeueAfter result).
Proof.
  split; [reflexivity |]. split; [repeat constructor |].
  intros (result & Hout & Hafter).
  vm_compute in Hout. injection Hout as <-. simpl in Hafter. lia.
Qed.

(** ** Remediation signalling *)

Lemma carriesRemediation_marked (t : healthCheckTarget) :
  conditions.Get (markedMachine t) MachineOwnerRemediatedCondition
    = Some remediationCondition.
Proof. unfold conditions.Get, markedMachine, conditions.MarkFalse. simpl. apply lookup_insert_eq. Qed.

(** C5, as the code has it.  Take a pass that reaches health evaluation,
    with one target per machine and no failing patch.
    - A healthy or unhealthy target whose machine did not carry the
      remediation condition before has its machine in the store afterwards,
      and that machine carries the condition if and only if the target was
      classified unhealthy and admission was granted.
    - When admission is granted, the machine of every unhealthy target is
      stored with the condition set to false with reason
      [WaitingForRemediation], severity [Warning] and the message
      ["MachineHealthCheck failed"]; the events the pass records are one
      normal [MachineMarkedUnhealthy] event per unhealthy target, naming it;
      the machine of every healthy target is stored as the evaluation left
      it, conditions included. *)
Theorem remediation_signalling (r : MachineHealthCheckReconciler) (cluster : Cluster)
    (m : MachineHealthCheck) (w : World) (targets : list healthCheckTarget) :
  reachesEvaluation r cluster m w targets ->
  patchesSucceed (Client r)
    (healthyTargets r m targets ++ unhealthyTargets r m targets) ->
  NoDup (machineKey <$> targets) ->
  let admitted := isAllowedRemediation (observed r cluster m targets) in
  let w' := (reconcile r cluster m w).2.2 in
  (forall t,
     t ∈ healthyTargets r m targets ++ unhealthyTargets r m targets ->
     ~ carriesRemediation (tMachine t) ->
     exists mach,
       machines w' !! machineKey t = Some mach /\
       (carriesRemediation mach <->
        evaluate r t (NodeStartupTimeout (mhcSpec m)) = Unhealthy /\ admitted = true)) /\
  (admitted = true ->
   (forall t, t ∈ unhealthyTargets r m targets ->
      machines w' !! machineKey t = Some (markedMachine t) /\
      conditions.Get (markedMachine t) MachineOwnerRemediatedCondition
        = Some {| condStatus := ConditionFalse;
                  condSeverity := ConditionSeverityWarning;
                  condReason := WaitingForRemediation;
                  condMessage := "MachineHealthCheck failed" |}) /\
   events w'
     = events w ++
       map (fun t =>
              {| evObject := OnMachine (machineKey t);
                 evType := EventTypeNormal;
                 evReason := EventMachineMarkedUnhealthy;
                 evMessageFmt := "Machine %v has been marked as unhealthy";
                 evArgs := [ArgString (targetString r t)] |})
         (unhealthyTargets r m targets) /\
   (forall t, t ∈ healthyTargets r m targets ->
      machines w' !! machineKey t = Some (tMachine t))).
Proof.
  intros Hreach Hok Hnd admitted w'.
  pose proof (partition_NoDup r m targets Hnd) as Hnd'.
  rewrite fmap_app in Hnd'. apply NoDup_app in Hnd' as (Hndh & Hdisj & Hndu).
  assert (Hadm : admitted = true ->
            machines w'
              = written tMachine (healthyTargets r m targets)
                  (written markedMachine (unhealthyTargets r m targets) (machines w))
            /\ events w'
              = events w ++ map (markedEvent r) (unhealthyTargets r m targets)).
  { intros Ha. unfold w'.
    rewrite (admitted_pass r cluster m w targets Hreach Ha Hok). by split. }
  assert (Hu : admitted = true -> forall t, t ∈ unhealthyTargets r m targets ->
            machines w' !! machineKey t = Some (markedMachine t)).
  { intros Ha t Ht. destruct (Hadm Ha) as [-> _].
    rewrite written_lookup_other.
    - by apply (written_lookup_target markedMachine).
    - intros u Hu Heq. apply (Hdisj (machineKey t)).
      + rewrite <- Heq. apply list_elem_of_fmap. by exists u.
      + apply list_elem_of_fmap. by exists t. }
  assert (Hh : admitted = true -> forall t, t ∈ healthyTargets r m targets ->
            machines w' !! machineKey t = Some (tMachine t)).
  { intros Ha t Ht. destruct (Hadm Ha) as [-> _].
    by apply (written_lookup_target tMachine). }
  split.
  - intros t Ht Hfresh. destruct admitted eqn:Ha.
    + apply elem_of_app in Ht as [Ht | Ht].
      * exists (tMachine t). split; [by apply Hh |].
        apply healthy_elem in Ht as [_ Ht]. rewrite Ht.
        split; [done | intros [? _]; done].
      * exists (markedMachine t). split; [by apply Hu |].
        apply unhealthy_elem in Ht as [_ Ht]. rewrite Ht.
        split; [done |]. intros _. unfold carriesRemediation.
        by rewrite carriesRemediation_marked.
    + exists (tMachine t). split.
      * by apply (denied_pass_patched r cluster m w targets).
      * split; [done | intros [_ ?]; done].
  - intros Ha. split; [| split].
    + intros t Ht. split; [by apply Hu |]. apply carriesRemediation_marked.
    + by destruct (Hadm Ha) as [_ ->].
    + by apply Hh.
Qed.

(** An instance of C5, the second scenario of the specification: with
    [maxUnhealthy = 1], one healthy and one unhealthy target, admission is
    granted; exactly the unhealthy target's machine is stored with the
    condition, and one event is recorded for it. *)
Lemma remediation_signalling_witness :
  machines (reconcile Fixture.admittedReconciler Fixture.cluster
              Fixture.scenarioPolicy Fixture.emptyWorld).2.2
    !! machineKey Fixture.t2 = Some (markedMachine Fixture.t2) /\
  machines (reconcile Fixture.admittedReconciler Fixture.cluster
              Fixture.scenarioPolicy Fixture.emptyWorld).2.2
    !! machineKey Fixture.t1 = Some (tMachine Fixture.t1) /\
  events (reconcile Fixture.admittedReconciler Fixture.cluster
            Fixture.scenarioPolicy Fixture.emptyWorld).2.2
    = [markedEvent Fixture.admittedReconciler Fixture.t2].
Proof.
  assert (Hreach : reachesEvaluation Fixture.admittedReconciler Fixture.cluster
                     Fixture.scenarioPolicy Fixture.emptyWorld Fixture.admittedTargets)
    by (repeat split; reflexivity).
  assert (Hok : patchesSucceed (Client Fixture.admittedReconciler)
                  (healthyTargets Fixture.admittedReconciler Fixture.scenarioPolicy
                     Fixture.admittedTargets
                   ++ unhealthyTargets Fixture.admittedReconciler
                        Fixture.scenarioPolicy Fixture.admittedTargets))
    by repeat constructor.
  assert (Hnd : NoDup (machineKey <$> Fixture.admittedTargets)).
  { vm_compute. repeat constructor; rewrite ?list_elem_of_In; simpl; intuition discriminate. }
  destruct (remediation_signalling _ _ _ _ _ Hreach Hok Hnd) as [_ Hadm].
  destruct (Hadm eq_refl) as (Hu & Hev & Hh).
  split; [| split].
  - apply Hu. vm_compute. repeat constructor.
  - apply Hh. vm_compute. repeat constructor.
  - exact Hev.
Defined.

(** C5 as stated fails: a machine marked by an earlier pass and healthy in
    this one is patched with its conditions unchanged, so after the patch
    step it carries the remediation condition although the evaluation
    classified its target healthy. *)
Lemma remediation_signalling_counterexample :
  reachesEvaluation Fixture.recoveredReconciler Fixture.cluster
    Fixture.recoveredPolicy Fixture.emptyWorld Fixture.recoveredTargets /\
  evaluate Fixture.recoveredReconciler Fixture.t5
    (NodeStartupTimeout (mhcSpec Fixture.recoveredPolicy)) = Healthy /\
  (reconcile Fixture.recoveredReconciler Fixture.cluster
     Fixture.recoveredPolicy Fixture.emptyWorld).2.1 = inl emptyResult /\
  (exists mach,
     machines (reconcile Fixture.recoveredReconciler Fixture.cluster
                 Fixture.recoveredPolicy Fixture.emptyWorld).2.2
       !! machineKey Fixture.t5 = Some mach /\
     carriesRemediation mach) /\
  ~ (forall t, t ∈ Fixture.recoveredTargets ->
       (exists mach,
          machines (reconcile Fixture.recoveredReconciler Fixture.cluster
                      Fixture.recoveredPolicy Fixture.emptyWorld).2.2
            !! machineKey t = Some mach /\
          carriesRemediation mach) <->
       (evaluate Fixture.recoveredReconciler t
          (NodeStartupTimeout (mhcSpec Fixture.recoveredPolicy)) = Unhealthy /\
        isAllowedRemediation
          (observed Fixture.recoveredReconciler Fixture.cluster
             Fixture.recoveredPolicy Fixture.recoveredTargets) = true)).
Proof.
  assert (Hcarries : exists mach,
            machines (reconcile Fixture.recoveredReconciler Fixture.cluster
                        Fixture.recoveredPolicy Fixture.emptyWorld).2.2
              !! machineKey Fixture.t5 = Some mach /\
            carriesRemediation mach).
  { exists (tMachine Fixture.t5). split; [vm_compute; reflexivity |].
    exists remediationCondition. vm_compute. reflexivity. }
  split; [repeat split; reflexivity |].
  split; [reflexivity |].
  split; [reflexivity |].
  split; [exact Hcarries |].
  intros Hiff.
  destruct (Hiff Fixture.t5 ltac:(repeat constructor)) as [Hto _].
  destruct (Hto Hcarries) as [Hunhealthy _].
  vm_compute in Hunhealthy. discriminate.
Qed.

(** ** The observed status *)

Lemma reconcile_observed (r : MachineHealthCheckReconciler) (cluster : Cluster)
    (m : MachineHealthCheck) (w : World) (targets : list healthCheckTarget) :
  reachesEvaluation r cluster m w targets ->
  (reconcile r cluster m w).1 = observed r cluster m targets.
Proof. intros Hreach. by rewrite (reconcile_evaluated r cluster m w targets Hreach). Qed.

(** When [Reconcile] gets as far as calling [reconcile] and its deferred
    patch succeeds, the policy object left in memory is the stored one. *)
Lemma Reconcile_persists (r : MachineHealthCheckReconciler) (req : NamespacedName)
    (w : World) (m0 : MachineHealthCheck) (cluster : Cluster) :
  Get (Client r) w req = inl m0 ->
  GetClusterByName (Client r) w (metaNamespace (mhcMeta m0))
    (ClusterName (mhcSpec m0)) = inl cluster ->
  IsPaused r cluster m0 = false ->
  failNewHelper (Client r) = None ->
  failPatchMachineHealthCheck (Client r) = None ->
  let m1 := withLabel m0 ClusterLabelName (ClusterName (mhcSpec m0)) in
  mhcs (Reconcile r req w).2 !! ObjectKey (mhcMeta (reconcile r cluster m1 w).1)
    = Some (reconcile r cluster m1 w).1.
Proof.
  intros Hget Hcluster Hpaused Hhelper Hpatch m1.
  unfold Reconcile. rewrite Hget, Hcluster, Hpaused, Hhelper. fold m1.
  destruct (reconcile r cluster m1 w) as [m' [[result | err] w1]];
    [| destruct err];
    rewrite Hpatch; simpl; apply lookup_insert_eq.
Qed.

(** C7.  In a pass that reaches health evaluation, whatever status the
    policy object had before, the pass sets [Status.ExpectedMachines] to the
    number of targets it has just resolved and [Status.Targets] to their
    machine names, in order.  [Reconcile] stores the object so updated when
    its final patch succeeds. *)
Theorem expectedMachines_recomputed (r : MachineHealthCheckReconciler)
    (cluster : Cluster) (m : MachineHealthCheck) (w : World)
    (targets : list healthCheckTarget) :
  reachesEvaluation r cluster m w targets ->
  Z.of_nat (length targets) <= MaxInt32 ->
  ExpectedMachines (mhcStatus (reconcile r cluster m w).1)
    = Z.of_nat (length targets) /\
  Targets (mhcStatus (reconcile r cluster m w).1)
    = map (fun t => metaName (machineMeta (tMachine t))) targets /\
  (forall req m0,
     m = withLabel m0 ClusterLabelName (ClusterName (mhcSpec m0)) ->
     Get (Client r) w req = inl m0 ->
     GetClusterByName (Client r) w (metaNamespace (mhcMeta m0))
       (ClusterName (mhcSpec m0)) = inl cluster ->
     IsPaused r cluster m0 = false ->
     failNewHelper (Client r) = None ->
     failPatchMachineHealthCheck (Client r) = None ->
     exists stored,
       mhcs (Reconcile r req w).2 !! ObjectKey (mhcMeta m0) = Some stored /\
       ExpectedMachines (mhcStatus stored) = Z.of_nat (length targets) /\
       Targets (mhcStatus stored)
         = map (fun t => metaName (machineMeta (tMachine t))) targets).
Proof.
  intros Hreach Hlen.
  rewrite (reconcile_observed r cluster m w targets Hreach).
  assert (Hexp : ExpectedMachines (mhcStatus (observed r cluster m targets))
                 = Z.of_nat (length targets))
    by (simpl; by apply wrap32_of_length).
  split; [exact Hexp |]. split; [reflexivity |].
  intros req m0 -> Hget Hcluster Hpaused Hhelper Hpatch.
  pose proof (Reconcile_persists r req w m0 cluster Hget Hcluster Hpaused
                Hhelper Hpatch) as Hstored.
  simpl in Hstored. rewrite (reconcile_observed _ _ _ _ targets Hreach) in Hstored.
  eexists. split; [exact Hstored |]. split; [exact Hexp | reflexivity].
Qed.

(** An instance of C7: the policy claims five expected machines when the
    pass begins; the pass resolves three targets and leaves three. *)
Lemma expectedMachines_recomputed_witness :
  ExpectedMachines
    (mhcStatus (reconcile Fixture.scenarioReconciler Fixture.cluster
                  (Fixture.policy "p" (Some (intstr.FromInt 1)) 5 5)
                  Fixture.emptyWorld).1) = 3 /\
  Targets
    (mhcStatus (reconcile Fixture.scenarioReconciler Fixture.cluster
                  (Fixture.policy "p" (Some (intstr.FromInt 1)) 5 5)
                  Fixture.emptyWorld).1) = ["m1"; "m2"; "m3"] /\
  exists stored,
    mhcs (Reconcile Fixture.scenarioReconciler (mkNamespacedName "ns" "p")
            Fixture.routingWorld).2 !! mkNamespacedName "ns" "p" = Some stored /\
    ExpectedMachines (mhcStatus stored) = 3.
Proof.
  destruct (expectedMachines_recomputed Fixture.scenarioReconciler Fixture.cluster
              (Fixture.policy "p" (Some (intstr.FromInt 1)) 5 5)
              Fixture.emptyWorld Fixture.scenarioTargets)
    as (Hexp & Htargets & _).
  { repeat split; reflexivity. }
  { vm_compute. discriminate. }
  destruct (expectedMachines_recomputed Fixture.scenarioReconciler Fixture.cluster
              (withLabel Fixture.scenarioPolicy ClusterLabelName "c1")
              Fixture.routingWorld Fixture.scenarioTargets)
    as (_ & _ & Hstored).
  { repeat split; reflexivity. }
  { vm_compute. discriminate. }
  destruct (Hstored (mkNamespacedName "ns" "p") Fixture.scenarioPolicy)
    as (stored & Hlookup & Hexp' & _); try reflexivity.
  split; [exact Hexp |]. split; [exact Htargets |].
  exists stored. split; [exact Hlookup | exact Hexp'].
Defined.

(** ** Pending targets at admission *)

Lemma pending_in_nextCheckTimes (r : MachineHealthCheckReconciler)
    (m : MachineHealthCheck) (targets : list healthCheckTarget) t d :
  t ∈ targets ->
  evaluate r t (NodeStartupTimeout (mhcSpec m)) = Pending d ->
  (0 < length (nextCheckTimesOf r m targets))%nat.
Proof.
  intros Ht Hpending.
  assert (Hd : d ∈ nextCheckTimesOf r m targets).
  { unfold nextCheckTimesOf, healthCheckTargets. simpl.
    apply list_elem_of_omap. exists t. split; [done |]. by rewrite Hpending. }
  destruct (nextCheckTimesOf r m targets); [by apply elem_of_nil in Hd | simpl; lia].
Qed.

(** C10.  At the admission check [Status.CurrentHealthy] is the number of
    targets classified healthy, and the unhealthy count, expected minus
    healthy, is the number of targets classified unhealthy plus the number
    of pending ones.  With at least one pending target it is therefore
    strictly larger than the number of targets classified unhealthy.  The
    admission decision is taken on that count: when [maxUnhealthy] resolves
    to [resolvedMax], [isAllowedRemediation] allows remediation if and only
    if the unhealthy and the pending targets together are at most
    [resolvedMax]; so a pass whose unhealthy targets alone are within the
    bound is denied when the pending ones take the count over it. *)
Theorem pending_counts_as_unhealthy (r : MachineHealthCheckReconciler)
    (cluster : Cluster) (m : MachineHealthCheck) (w : World)
    (targets : list healthCheckTarget) :
  reachesEvaluation r cluster m w targets ->
  Z.of_nat (length targets) <= MaxInt32 ->
  (exists t d, t ∈ targets /\
     evaluate r t (NodeStartupTimeout (mhcSpec m)) = Pending d) ->
  CurrentHealthy (mhcStatus (reconcile r cluster m w).1)
    = Z.of_nat (length (healthyTargets r m targets)) /\
  unhealthyCount (reconcile r cluster m w).1
    = Z.of_nat (length (unhealthyTargets r m targets))
      + Z.of_nat (length (nextCheckTimesOf r m targets)) /\
  Z.of_nat (length (unhealthyTargets r m targets))
    < unhealthyCount (reconcile r cluster m w).1 /\
  (forall mu resolvedMax,
     MaxUnhealthy (mhcSpec m) = Some mu ->
     intstr.GetValueFromIntOrPercent mu (Z.of_nat (length targets)) false
       = inl resolvedMax ->
     (isAllowedRemediation (reconcile r cluster m w).1 = true <->
      Z.of_nat (length (unhealthyTargets r m targets))
      + Z.of_nat (length (nextCheckTimesOf r m targets)) <= resolvedMax) /\
     (Z.of_nat (length (unhealthyTargets r m targets)) <= resolvedMax
        < Z.of_nat (length (unhealthyTargets r m targets))
          + Z.of_nat (length (nextCheckTimesOf r m targets)) ->
      isAllowedRemediation (reconcile r cluster m w).1 = false /\
      exists evs,
        events (reconcile r cluster m w).2.2
          = events w ++
            restrictionEvent (reconcile r cluster m w).1
              (Z.of_nat (length targets)) :: evs)).
Proof.
  intros Hreach Hlen (t & d & Ht & Hpending).
  pose proof (reconcile_evaluated r cluster m w targets Hreach) as Hrun.
  rewrite (reconcile_observed r cluster m w targets Hreach).
  pose proof (partition_lengths r m targets) as Hpart.
  pose proof (pending_in_nextCheckTimes r m targets t d Ht Hpending) as Hpos.
  assert (Hh : wrap32 (Z.of_nat (length (healthyTargets r m targets)))
               = Z.of_nat (length (healthyTargets r m targets))).
  { apply wrap32_of_length. lia. }
  assert (Hcount : unhealthyCount (observed r cluster m targets)
                   = Z.of_nat (length (unhealthyTargets r m targets))
                     + Z.of_nat (length (nextCheckTimesOf r m targets))).
  { unfold unhealthyCount, int32_sub. simpl.
    rewrite Hh, (wrap32_of_length targets Hlen).
    rewrite wrap32_small; unfold MinInt32; lia. }
  split; [exact Hh |]. split; [exact Hcount |].
  split; [rewrite Hcount; lia |].
  intros mu resolvedMax Hmu Hres.
  assert (Hallowed : isAllowedRemediation (observed r cluster m targets)
                     = (unhealthyCount (observed r cluster m targets) <=? resolvedMax)).
  { apply (isAllowedRemediation_resolved _ mu); [exact Hmu |].
    simpl. by rewrite (wrap32_of_length targets Hlen). }
  split.
  - rewrite Hallowed, Hcount. apply Z.leb_le.
  - intros Hbetween.
    assert (Hdenied : isAllowedRemediation (observed r cluster m targets) = false).
    { rewrite Hallowed, Hcount. apply Z.leb_gt. lia. }
    split; [exact Hdenied |].
    destruct (denied_pass r cluster m w targets Hreach Hdenied)
      as (done & rest & _ & _ & Hw & _).
    rewrite Hw. simpl. by exists [].
Qed.

(** An instance of C10: one healthy, one unhealthy and one pending target
    under [maxUnhealthy = 1].  The unhealthy count at admission is two, and
    admission is denied although a single target is unhealthy. *)
Lemma pending_counts_as_unhealthy_witness :
  unhealthyCount
    (reconcile (Fixture.reconciler Fixture.noFaults
                  [Fixture.t1; Fixture.t2; Fixture.t4])
       Fixture.cluster Fixture.scenarioPolicy Fixture.emptyWorld).1 = 1 + 1 /\
  1 < unhealthyCount
        (reconcile (Fixture.reconciler Fixture.noFaults
                      [Fixture.t1; Fixture.t2; Fixture.t4])
           Fixture.cluster Fixture.scenarioPolicy Fixture.emptyWorld).1 /\
  isAllowedRemediation
    (reconcile (Fixture.reconciler Fixture.noFaults
                  [Fixture.t1; Fixture.t2; Fixture.t4])
       Fixture.cluster Fixture.scenarioPolicy Fixture.emptyWorld).1 = false.
Proof.
  destruct (pending_counts_as_unhealthy
              (Fixture.reconciler Fixture.noFaults
                 [Fixture.t1; Fixture.t2; Fixture.t4])
              Fixture.cluster Fixture.scenarioPolicy Fixture.emptyWorld
              [Fixture.t1; Fixture.t2; Fixture.t4])
    as (_ & Hcount & Hlt & Hadmission).
  - repeat split; reflexivity.
  - vm_compute. discriminate.
  - exists Fixture.t4, 5. split; [repeat constructor | reflexivity].
  - split; [exact Hcount |]. split; [exact Hlt |].
    destruct (Hadmission (intstr.FromInt 1) 1 eq_refl eq_refl) as [_ Hdenied].
    apply Hdenied. vm_compute. split; [discriminate | reflexivity].
Defined.

(** ** Objects that are not found *)

(** C6, as the code has it.  When the policy object is not found the pass
    ends at once with the empty result and no error, and leaves the world
    as it was: no event, no patch.  When the policy is found and fetching
    its cluster fails, the pass ends at once as well and leaves the world as
    it was, but it returns the error of the fetch, wrapped; that includes
    the case in which the cluster is not found. *)
Theorem not_found_handling :
  (forall r req w err,
     Get (Client r) w req = inr err ->
     apierrors.IsNotFound err = true ->
     Reconcile r req w = ((emptyResult, None), w)) /\
  (forall r req w,
     failGet (Client r) = None ->
     mhcs w !! req = None ->
     Reconcile r req w = ((emptyResult, None), w)) /\
  (forall r req w m err,
     Get (Client r) w req = inl m ->
     GetClusterByName (Client r) w (metaNamespace (mhcMeta m))
       (ClusterName (mhcSpec m)) = inr err ->
     Reconcile r req w
       = ((emptyResult,
           Some (Wrapf err "failed to get Cluster for MachineHealthCheck")), w)) /\
  (forall r req w m,
     Get (Client r) w req = inl m ->
     failGetCluster (Client r) = None ->
     clusters w !! mkNamespacedName (metaNamespace (mhcMeta m))
                     (ClusterName (mhcSpec m)) = None ->
     Reconcile r req w
       = ((emptyResult,
           Some (Wrapf (NotFound (ClusterName (mhcSpec m)))
                   "failed to get Cluster for MachineHealthCheck")), w)).
Proof.
  assert (Hcluster : forall r req w m err,
            Get (Client r) w req = inl m ->
            GetClusterByName (Client r) w (metaNamespace (mhcMeta m))
              (ClusterName (mhcSpec m)) = inr err ->
            Reconcile r req w
              = ((emptyResult,
                  Some (Wrapf err "failed to get Cluster for MachineHealthCheck")), w)).
  { intros r req w m err Hget Hcl. unfold Reconcile. by rewrite Hget, Hcl. }
  split; [| split; [| split]].
  - intros r req w err Hget Hnf. unfold Reconcile. by rewrite Hget, Hnf.
  - intros r req w Hfail Hnone. unfold Reconcile, Get. by rewrite Hfail, Hnone.
  - exact Hcluster.
  - intros r req w m Hget Hfail Hnone. apply (Hcluster r req w m); [done |].
    unfold GetClusterByName. by rewrite Hfail, Hnone.
Qed.

(** An instance of C6: in the empty world the work item for policy ["p"]
    is completed silently; in a world that holds the policy but not its
    cluster ["c1"] the pass returns an error and changes nothing. *)
Lemma not_found_handling_witness :
  Reconcile Fixture.scenarioReconciler (mkNamespacedName "ns" "p")
    Fixture.emptyWorld = ((emptyResult, None), Fixture.emptyWorld) /\
  Reconcile Fixture.scenarioReconciler (mkNamespacedName "ns" "p")
    Fixture.orphanWorld
    = ((emptyResult,
        Some (Wrapf (NotFound "c1") "failed to get Cluster for MachineHealthCheck")),
       Fixture.orphanWorld).
Proof.
  destruct not_found_handling as (_ & Hpolicy & _ & Hcluster).
  split.
  - apply Hpolicy; reflexivity.
  - apply (Hcluster Fixture.scenarioReconciler (mkNamespacedName "ns" "p")
             Fixture.orphanWorld Fixture.scenarioPolicy); reflexivity.
Defined.

(** C6 as stated fails for the cluster: the policy ["p"] is stored, its
    cluster ["c1"] is not, and the pass returns an error. *)
Lemma cluster_not_found_counterexample :
  mhcs Fixture.orphanWorld !! mkNamespacedName "ns" "p" = Some Fixture.scenarioPolicy /\
  clusters Fixture.orphanWorld !! mkNamespacedName "ns" "c1" = None /\
  (Reconcile Fixture.scenarioReconciler (mkNamespacedName "ns" "p")
     Fixture.orphanWorld).1.2 <> None.
Proof.
  split; [vm_compute; reflexivity |]. split; [vm_compute; reflexivity |].
  vm_compute. discriminate.
Qed.

(** ** Event routing *)

Lemma filter_filter_andb {A} (f g : A -> bool) (l : list A) :
  List.filter g (List.filter f l) = List.filter (fun x => f x && g x) l.
Proof.
  induction l as [| x l IH]; [done |].
  simpl. destruct (f x); simpl; [destruct (g x) |]; by rewrite IH.
Qed.

Lemma filter_filter_implied {A} (f g : A -> bool) (l : list A) :
  (forall x, g x = true -> f x = true) ->
  List.filter g (List.filter f l) = List.filter g l.
Proof.
  intros Himp. rewrite filter_filter_andb. apply List.filter_ext.
  intros x. destruct (g x) eqn:Hg; [by rewrite (Himp x Hg) | apply andb_false_r].
Qed.

Lemma storedPolicies_elem (w : World) (mhc : MachineHealthCheck) :
  mhc ∈ storedPolicies w <-> exists key, mhcs w !! key = Some mhc.
Proof.
  unfold storedPolicies. rewrite list_elem_of_fmap. split.
  - intros ([key x] & -> & Hin). exists key. by apply elem_of_map_to_list.
  - intros [key Hkey]. exists (key, mhc). split; [done |].
    by apply elem_of_map_to_list.
Qed.

(** When the store lists the policies, the mapping keeps those that monitor
    the machine. *)
Lemma machineToMachineHealthCheck_listed (r : MachineHealthCheckReconciler)
    (w : World) (m : Machine) :
  failListMachineHealthChecks (Client r) = None ->
  machineToMachineHealthCheck r w (MachineObject m)
    = map (fun mhc => ObjectKey (mhcMeta mhc))
        (List.filter (monitors r m) (storedPolicies w)).
Proof.
  intros Hlist. unfold machineToMachineHealthCheck, ListMachineHealthChecks.
  rewrite Hlist, filter_filter_andb. f_equal. apply List.filter_ext.
  intros mhc. unfold monitors, matchesLabels. simpl.
  by rewrite andb_true_r.
Qed.

(** C8, as the code has it.  For a change of the machine [m]: when the
    store lists the policies, the work items are, in the order of the
    listing, the keys of the stored policies that are in the machine's
    namespace, carry the cluster label with the machine's cluster name and
    have a selector matching the machine's labels, and of no other policy;
    when the listing fails there is no work item. *)
Theorem machine_to_policies (r : MachineHealthCheckReconciler) (w : World)
    (m : Machine) :
  (failListMachineHealthChecks (Client r) = None ->
   machineToMachineHealthCheck r w (MachineObject m)
     = map (fun mhc => ObjectKey (mhcMeta mhc))
         (List.filter (monitors r m) (storedPolicies w)) /\
   forall k,
     k ∈ machineToMachineHealthCheck r w (MachineObject m) <->
     exists key mhc,
       mhcs w !! key = Some mhc /\
       metaNamespace (mhcMeta mhc) = metaNamespace (machineMeta m) /\
       metaLabels (mhcMeta mhc) !! ClusterLabelName = Some (machineClusterName m) /\
       hasMatchingLabels r (Selector (mhcSpec mhc)) (metaLabels (machineMeta m)) = true /\
       k = ObjectKey (mhcMeta mhc)) /\
  (forall err,
     failListMachineHealthChecks (Client r) = Some err ->
     machineToMachineHealthCheck r w (MachineObject m) = []).
Proof.
  split.
  - intros Hlist. split; [by apply machineToMachineHealthCheck_listed |].
    intros k. rewrite (machineToMachineHealthCheck_listed r w m Hlist).
    rewrite list_elem_of_fmap. split.
    + intros (mhc & -> & Hin).
      apply list_elem_of_In, filter_In in Hin as [Hin Hmon].
      apply list_elem_of_In, storedPolicies_elem in Hin as [key Hkey].
      unfold monitors in Hmon.
      apply andb_true_iff in Hmon as [Hmon Hsel].
      apply andb_true_iff in Hmon as [Hns Hlabel].
      apply bool_decide_eq_true in Hns, Hlabel.
      by exists key, mhc.
    + intros (key & mhc & Hkey & Hns & Hlabel & Hsel & ->).
      exists mhc. split; [done |].
      apply list_elem_of_In, filter_In. split.
      * apply list_elem_of_In, storedPolicies_elem. by exists key.
      * unfold monitors. rewrite Hsel, !andb_true_r.
        apply andb_true_iff. split; by apply bool_decide_eq_true.
  - intros err Hlist.
    unfold machineToMachineHealthCheck, ListMachineHealthChecks. by rewrite Hlist.
Qed.

(** An instance of C8: of the two policies of cluster ["c1"] only ["p"]
    selects the machine ["m1"], and the mapping returns its key alone. *)
Lemma machine_to_policies_witness :
  machineToMachineHealthCheck Fixture.scenarioReconciler Fixture.routingWorld
    (MachineObject (Fixture.machine "m1" (Some "n1") ∅))
    = [mkNamespacedName "ns" "p"] /\
  machineToMachineHealthCheck (Fixture.reconciler Fixture.listFails [])
    Fixture.routingWorld (MachineObject (Fixture.machine "m1" (Some "n1") ∅))
    = [].
Proof.
  split.
  - destruct (machine_to_policies Fixture.scenarioReconciler Fixture.routingWorld
                (Fixture.machine "m1" (Some "n1") ∅)) as [Hlisted _].
    destruct (Hlisted eq_refl) as [Heq _]. rewrite Heq. vm_compute. reflexivity.
  - destruct (machine_to_policies (Fixture.reconciler Fixture.listFails [])
                Fixture.routingWorld
                (Fixture.machine "m1" (Some "n1") ∅)) as [_ Hfails].
    apply (Hfails (Errorf "timeout")). reflexivity.
Defined.

(** C8 as stated fails: the policy ["p"] is stored in the machine's
    namespace, is labelled with the machine's cluster and selects the
    machine, yet when the listing of policies fails the mapping produces no
    work item for it. *)
Lemma machine_to_policies_counterexample :
  mhcs Fixture.routingWorld !! mkNamespacedName "ns" "p" = Some Fixture.scenarioPolicy /\
  monitors (Fixture.reconciler Fixture.listFails [])
    (Fixture.machine "m1" (Some "n1") ∅) Fixture.scenarioPolicy = true /\
  ~ (forall k,
       k ∈ machineToMachineHealthCheck (Fixture.reconciler Fixture.listFails [])
             Fixture.routingWorld
             (MachineObject (Fixture.machine "m1" (Some "n1") ∅)) <->
       exists key mhc,
         mhcs Fixture.routingWorld !! key = Some mhc /\
         monitors (Fixture.reconciler Fixture.listFails [])
           (Fixture.machine "m1" (Some "n1") ∅) mhc = true /\
         k = ObjectKey (mhcMeta mhc)).
Proof.
  assert (Hstored : mhcs Fixture.routingWorld !! mkNamespacedName "ns" "p"
                    = Some Fixture.scenarioPolicy) by (vm_compute; reflexivity).
  assert (Hmon : monitors (Fixture.reconciler Fixture.listFails [])
                   (Fixture.machine "m1" (Some "n1") ∅) Fixture.scenarioPolicy = true)
    by (vm_compute; reflexivity).
  split; [exact Hstored |]. split; [exact Hmon |].
  intros Hiff.
  destruct (Hiff (mkNamespacedName "ns" "p")) as [_ Hfrom].
  assert (Hin : mkNamespacedName "ns" "p"
                ∈ machineToMachineHealthCheck (Fixture.reconciler Fixture.listFails [])
                    Fixture.routingWorld
                    (MachineObject (Fixture.machine "m1" (Some "n1") ∅))).
  { apply Hfrom. exists (mkNamespacedName "ns" "p"), Fixture.scenarioPolicy.
    split; [exact Hstored |]. split; [exact Hmon | reflexivity]. }
  vm_compute in Hin. by apply elem_of_nil in Hin.
Qed.

Lemma getMachineFromNode_owners (r : MachineHealthCheckReconciler) (w : World)
    (node : string) :
  failListMachines (Client r) = None ->
  getMachineFromNode r w node
    = match owningMachines w node with
      | [machine] => inl machine
      | _ => inr (Errorf "expecting one machine for node")
      end.
Proof.
  intros Hlist. unfold getMachineFromNode, ListMachinesByNodeName.
  rewrite Hlist. fold (storedMachines w).
  rewrite filter_filter_implied; [done |].
  intros machine Href. apply bool_decide_eq_true in Href.
  apply bool_decide_eq_true. simpl. rewrite Href.
  apply list_elem_of_singleton. done.
Qed.

(** C9.  For a change of a node, the owning machines are the stored
    machines whose node reference has the node's name.  When there is none
    or more than one, or when the store cannot list the machines, the
    mapping returns no work item; its result is a list in every case, never
    an error.  When there is exactly one, the mapping returns what the
    machine mapping returns for that machine. *)
Theorem node_to_policies (r : MachineHealthCheckReconciler) (w : World)
    (node : Node) :
  (forall err,
     failListMachines (Client r) = Some err ->
     nodeToMachineHealthCheck r w (NodeObject node) = []) /\
  (failListMachines (Client r) = None ->
   (length (owningMachines w (nodeName node)) <> 1%nat ->
    nodeToMachineHealthCheck r w (NodeObject node) = []) /\
   (forall machine,
      owningMachines w (nodeName node) = [machine] ->
      nodeToMachineHealthCheck r w (NodeObject node)
        = machineToMachineHealthCheck r w (MachineObject machine))).
Proof.
  split.
  - intros err Hlist.
    unfold nodeToMachineHealthCheck, getMachineFromNode, ListMachinesByNodeName.
    by rewrite Hlist.
  - intros Hlist. unfold nodeToMachineHealthCheck.
    rewrite (getMachineFromNode_owners r w (nodeName node) Hlist). split.
    + intros Hlen.
      destruct (owningMachines w (nodeName node)) as [| m1 [| m2 ms]]; done.
    + by intros machine ->.
Qed.

(** An instance of C9: node ["n1"] backs the machine ["m1"] alone, so its
    change maps to the policy ["p"]; node ["n9"] backs no machine and maps
    to nothing. *)
Lemma node_to_policies_witness :
  nodeToMachineHealthCheck Fixture.scenarioReconciler Fixture.routingWorld
    (NodeObject (mkNode "n1"))
    = machineToMachineHealthCheck Fixture.scenarioReconciler Fixture.routingWorld
        (MachineObject (Fixture.machine "m1" (Some "n1") ∅)) /\
  nodeToMachineHealthCheck Fixture.scenarioReconciler Fixture.routingWorld
    (NodeObject (mkNode "n9")) = [].
Proof.
  split.
  - destruct (node_to_policies Fixture.scenarioReconciler Fixture.routingWorld
                (mkNode "n1")) as [_ Hlisted].
    destruct (Hlisted eq_refl) as [_ Hone]. apply Hone.
    vm_compute. reflexivity.
  - destruct (node_to_policies Fixture.scenarioReconciler Fixture.routingWorld
                (mkNode "n9")) as [_ Hlisted].
    destruct (Hlisted eq_refl) as [Hnone _]. apply Hnone.
    vm_compute. discriminate.
Defined.

(** * Further properties of the controller *)

(** ** Loops of patches, with the patches that went through *)

Lemma forEach_Patch_trace (c : Faults) (f : healthCheckTarget -> Machine)
    (msg : string) (ts : list healthCheckTarget) (w : World) :
  exists done rest,
    ts = done ++ rest /\
    Forall (fun t => failPatchMachine c (ObjectKey (machineMeta (f t))) = None) done /\
    (forEach ts (fun t => wrapErr (Patch c (f t)) msg) w).2
      = withMachines w (written f done (machines w)) /\
    match rest with
    | [] => (forEach ts (fun t => wrapErr (Patch c (f t)) msg) w).1 = inl tt
    | t :: _ =>
        exists perr,
          failPatchMachine c (ObjectKey (machineMeta (f t))) = Some perr /\
          (forEach ts (fun t => wrapErr (Patch c (f t)) msg) w).1
            = inr (Wrapf perr msg)
    end.
Proof.
  revert w. induction ts as [| t ts IH]; intros w.
  - exists [], []. simpl. rewrite world_eta. by repeat split.
  - simpl. unfold mbind, M_bind, bind, wrapErr, Patch.
    destruct (failPatchMachine c (ObjectKey (machineMeta (f t)))) as [perr |] eqn:Hfail.
    + exists [], (t :: ts). simpl. rewrite world_eta.
      repeat split; [constructor |]. exists perr. by rewrite Hfail.
    + destruct (IH (setMachine (f t) w)) as (done & rest & -> & Hok & Hw & Hres).
      exists (t :: done), rest. split; [done |].
      split; [by constructor |]. split; [exact Hw |].
      destruct rest as [| u rest]; [exact Hres |].
      destruct Hres as (perr & Hperr & Hout). exists perr. by split.
Qed.

Lemma forEach_markUnhealthy_trace (r : MachineHealthCheckReconciler)
    (ts : list healthCheckTarget) (w : World) :
  exists done rest,
    ts = done ++ rest /\
    patchesSucceed (Client r) done /\
    (forEach ts (markUnhealthy r) w).2
      = withEvents (withMachines w (written markedMachine done (machines w)))
          (events w ++ map (markedEvent r) done) /\
    match rest with
    | [] => (forEach ts (markUnhealthy r) w).1 = inl tt
    | t :: _ =>
        exists perr,
          failPatchMachine (Client r) (machineKey t) = Some perr /\
          (forEach ts (markUnhealthy r) w).1
            = inr (Wrapf perr "Failed to patch unhealthy machine status for machine")
    end.
Proof.
  revert w. induction ts as [| t ts IH]; intros w.
  - exists [], []. simpl. rewrite app_nil_r.
    split; [done |]. split; [constructor |]. by destruct w.
  - rewrite forEach_cons, markUnhealthy_run.
    destruct (failPatchMachine (Client r) (machineKey t)) as [perr |] eqn:Hfail.
    + exists [], (t :: ts). simpl. rewrite app_nil_r.
      split; [done |]. split; [constructor |].
      split; [by destruct w |]. by exists perr.
    + match goal with
      | |- context [forEach ts (markUnhealthy r) ?w1] =>
          destruct (IH w1) as (done & rest & -> & Hok & Hw & Hres)
      end.
      exists (t :: done), rest. split; [done |].
      split; [by constructor |]. split.
      * rewrite Hw. simpl. unfold withEvents, withMachines. simpl.
        by rewrite <- app_assoc.
      * exact Hres.
Qed.

(** An admitted pass marks a prefix [doneU] of the unhealthy targets and then
    patches a prefix [doneH] of the healthy ones; it goes on to the healthy
    targets only when every unhealthy one has been marked, and it returns an
    error exactly when it stops short. *)
Lemma admitted_pass_trace (r : MachineHealthCheckReconciler) (cluster : Cluster)
    (m : MachineHealthCheck) (w : World) (targets : list healthCheckTarget) :
  reachesEvaluation r cluster m w targets ->
  isAllowedRemediation (observed r cluster m targets) = true ->
  exists doneU restU doneH restH,
    unhealthyTargets r m targets = doneU ++ restU /\
    healthyTargets r m targets = doneH ++ restH /\
    patchesSucceed (Client r) doneU /\
    patchesSucceed (Client r) doneH /\
    (restU <> [] -> doneH = []) /\
    (reconcile r cluster m w).2.2
      = withEvents
          (withMachines w
             (written tMachine doneH (written markedMachine doneU (machines w))))
          (events w ++ map (markedEvent r) doneU) /\
    match restU, restH with
    | t :: _, _ =>
        exists perr,
          failPatchMachine (Client r) (machineKey t) = Some perr /\
          (reconcile r cluster m w).2.1
            = inr (Wrapf perr "Failed to patch unhealthy machine status for machine")
    | [], t :: _ =>
        exists perr,
          failPatchMachine (Client r) (machineKey t) = Some perr /\
          (reconcile r cluster m w).2.1
            = inr (Wrapf perr "Failed to patch healthy machine status for machine")
    | [], [] =>
        (reconcile r cluster m w).2.1
          = inl (if 0 <? minDuration (nextCheckTimesOf r m targets)
                 then mkResult false (minDuration (nextCheckTimesOf r m targets))
                 else emptyResult)
    end.
Proof.
  intros Hreach Hadmitted.
  rewrite (reconcile_evaluated r cluster m w targets Hreach), Hadmitted.
  rewrite remediate_run. cbn [fst snd].
  destruct (forEach_markUnhealthy_trace r (unhealthyTargets r m targets) w)
    as (doneU & restU & HU & HokU & HwU & HresU).
  destruct (forEach (unhealthyTargets r m targets) (markUnhealthy r) w)
    as [outU wU] eqn:HrunU.
  cbn [fst snd] in HwU, HresU. subst wU.
  destruct restU as [| u restU].
  - subst outU.
    match goal with
    | |- context [forEach ?ts ?body ?w1] =>
        destruct (forEach_Patch_trace (Client r) tMachine
                    "Failed to patch healthy machine status for machine" ts w1)
          as (doneH & restH & HH & HokH & HwH & HresH);
        destruct (forEach ts body w1) as [outH wH] eqn:HrunH
    end.
    cbn [fst snd] in HwH, HresH. subst wH.
    exists doneU, [], doneH, restH.
    split; [done |]. split; [done |]. split; [done |]. split; [exact HokH |].
    split; [done |].
    destruct restH as [| h restH].
    + subst outH. by split.
    + destruct HresH as (perr & Hperr & ->). split; [done |]. by exists perr.
  - destruct HresU as (perr & Hperr & ->).
    exists doneU, (u :: restU), [], (healthyTargets r m targets).
    split; [done |]. split; [done |]. split; [done |]. split; [constructor |].
    split; [done |]. split; [done |]. by exists perr.
Qed.

(** ** Every pass, whatever its branch *)

(** A pass either stops before health evaluation, with an error, the world
    untouched and only the owner references of the policy object set, or it
    resolves its targets. *)
Lemma reconcile_cases (r : MachineHealthCheckReconciler) (cluster : Cluster)
    (m : MachineHealthCheck) (w : World) :
  (exists err,
     reconcile r cluster m w = (ensureOwned r cluster m, (inr err, w))) \/
  (exists targets, reachesEvaluation r cluster m w targets).
Proof.
  unfold reachesEvaluation, reconcile.
  destruct (GetClient r cluster) as [err |]; [left; by exists err |].
  destruct (watchClusterNodes r cluster) as [err |]; [left; by eexists |].
  destruct (getTargetsFromMHC r w (ensureOwned r cluster m)) as [targets | err];
    [right; by exists targets | left; by eexists].
Qed.

Lemma written_is_Some (f : healthCheckTarget -> Machine)
    (ts : list healthCheckTarget) (store : gmap NamespacedName Machine) k :
  is_Some (store !! k) -> is_Some (written f ts store !! k).
Proof.
  induction ts as [| t ts IH] using rev_ind; intros Hk; [done |].
  rewrite written_snoc.
  destruct (decide (ObjectKey (machineMeta (f t)) = k)) as [<- | Hne].
  - rewrite lookup_insert_eq. by eexists.
  - rewrite lookup_insert_ne by done. by apply IH.
Qed.

(** The world a pass that resolved its targets leaves: the events recorded
    so far with some more behind them, and the store with, written over it in
    order, machines of healthy and unhealthy targets, plain or marked. *)
Lemma evaluated_pass_world (r : MachineHealthCheckReconciler) (cluster : Cluster)
    (m : MachineHealthCheck) (w : World) (targets : list healthCheckTarget) :
  reachesEvaluation r cluster m w targets ->
  exists evs marked plain,
    (reconcile r cluster m w).2.2
      = withEvents
          (withMachines w
             (written tMachine plain (written markedMachine marked (machines w))))
          (events w ++ evs) /\
    (forall t, t ∈ marked -> t ∈ unhealthyTargets r m targets) /\
    (forall t, t ∈ plain ->
       t ∈ healthyTargets r m targets ++ unhealthyTargets r m targets).
Proof.
  intros Hreach.
  destruct (isAllowedRemediation (observed r cluster m targets)) eqn:Hadm.
  - destruct (admitted_pass_trace r cluster m w targets Hreach Hadm)
      as (doneU & restU & doneH & restH & HU & HH & _ & _ & _ & Hw & _).
    exists (map (markedEvent r) doneU), doneU, doneH.
    split; [exact Hw |]. split.
    + intros t Ht. rewrite HU. apply elem_of_app. by left.
    + intros t Ht. apply elem_of_app. left. rewrite HH. apply elem_of_app. by left.
  - destruct (denied_pass r cluster m w targets Hreach Hadm)
      as (done & rest & Hsplit & _ & Hw & _).
    exists [restrictionEvent (observed r cluster m targets)
              (Z.of_nat (length targets))], [], done.
    split; [exact Hw |]. split.
    + intros t Ht. by apply elem_of_nil in Ht.
    + intros t Ht. rewrite Hsplit. apply elem_of_app. by left.
Qed.

(** What a pass may do to the world. *)
Lemma reconcile_world (r : MachineHealthCheckReconciler)
    (cluster : Cluster) (m : MachineHealthCheck) (w : World) :
  mhcs (reconcile r cluster m w).2.2 = mhcs w /\
  clusters (reconcile r cluster m w).2.2 = clusters w /\
  (exists evs, events (reconcile r cluster m w).2.2 = events w ++ evs) /\
  (forall k, is_Some (machines w !! k) ->
     is_Some (machines (reconcile r cluster m w).2.2 !! k)) /\
  (forall k mach,
     machines (reconcile r cluster m w).2.2 !! k = Some mach ->
     machines w !! k = Some mach \/
     exists targets t,
       getTargetsFromMHC r w (ensureOwned r cluster m) = inl targets /\
       t ∈ targets /\ machineKey t = k /\
       (mach = tMachine t \/ mach = markedMachine t)).
Proof.
  destruct (reconcile_cases r cluster m w) as [[err Hrun] | [targets Hreach]].
  - rewrite Hrun. simpl. repeat split; try done.
    + exists []. by rewrite app_nil_r.
    + intros k mach Hk. by left.
  - destruct (evaluated_pass_world r cluster m w targets Hreach)
      as (evs & marked & plain & Hw & Hmarked & Hplain).
    rewrite Hw. simpl. repeat split; try done.
    + by exists evs.
    + intros k Hk. by do 2 apply written_is_Some.
    + intros k mach Hk.
      destruct (written_lookup_cases tMachine plain _ k mach Hk)
        as [Hk' | (t & Ht & Hkey & ->)].
      * destruct (written_lookup_cases markedMachine marked _ k mach Hk')
          as [Hold | (t & Ht & Hkey & ->)]; [by left |].
        right. exists targets, t. destruct Hreach as (_ & _ & Htargets).
        split; [done |]. split; [| split; [done | by right]].
        by apply (unhealthy_elem r m targets t), Hmarked.
      * right. exists targets, t. destruct Hreach as (_ & _ & Htargets).
        split; [done |]. split; [| split; [done | by left]].
        apply Hplain in Ht. apply elem_of_app in Ht as [Ht | Ht].
        -- by apply (healthy_elem r m targets t).
        -- by apply (unhealthy_elem r m targets t).
Qed.

(** X1.  The frame of a pass on the world.  Whatever happens, [reconcile]
    leaves the stored policies and clusters as they are, only appends to the
    recorded events, removes no machine from the store, and changes the
    entry of a machine only by writing there the machine of one of the
    targets it resolved, as the evaluation left it or marked for
    remediation. *)
Theorem reconcile_world_frame (r : MachineHealthCheckReconciler)
    (cluster : Cluster) (m : MachineHealthCheck) (w : World) :
  mhcs (reconcile r cluster m w).2.2 = mhcs w /\
  clusters (reconcile r cluster m w).2.2 = clusters w /\
  (exists evs, events (reconcile r cluster m w).2.2 = events w ++ evs) /\
  (forall k, is_Some (machines w !! k) ->
     is_Some (machines (reconcile r cluster m w).2.2 !! k)) /\
  (forall k mach,
     machines (reconcile r cluster m w).2.2 !! k = Some mach ->
     machines w !! k = Some mach \/
     exists targets t,
       getTargetsFromMHC r w (ensureOwned r cluster m) = inl targets /\
       t ∈ targets /\ machineKey t = k /\
       (mach = tMachine t \/ mach = markedMachine t)).
Proof. exact (reconcile_world r cluster m w). Qed.

(** What a pass may do to the policy object. *)
Lemma reconcile_policy (r : MachineHealthCheckReconciler)
    (cluster : Cluster) (m : MachineHealthCheck) (w : World) :
  mhcSpec (reconcile r cluster m w).1 = mhcSpec m /\
  metaNamespace (mhcMeta (reconcile r cluster m w).1) = metaNamespace (mhcMeta m) /\
  metaName (mhcMeta (reconcile r cluster m w).1) = metaName (mhcMeta m) /\
  metaLabels (mhcMeta (reconcile r cluster m w).1) = metaLabels (mhcMeta m) /\
  metaAnnotations (mhcMeta (reconcile r cluster m w).1)
    = metaAnnotations (mhcMeta m) /\
  metaUID (mhcMeta (reconcile r cluster m w).1) = metaUID (mhcMeta m) /\
  metaOwnerReferences (mhcMeta (reconcile r cluster m w).1)
    = EnsureOwnerRef r (metaOwnerReferences (mhcMeta m))
        {| orAPIVersion := "cluster.x-k8s.io/v1alpha3"; orKind := "Cluster";
           orName := metaName (clusterMeta cluster);
           orUID := metaUID (clusterMeta cluster) |}.
Proof.
  destruct (reconcile_cases r cluster m w) as [[err Hrun] | [targets Hreach]].
  - rewrite Hrun. by repeat split.
  - rewrite (reconcile_observed r cluster m w targets Hreach). by repeat split.
Qed.

(** X2.  The frame of a pass on the policy object.  Whatever happens,
    [reconcile] leaves the namespace, name, labels, annotations, UID and the
    whole spec of the object it is given as they are, and sets its owner
    references to what [util.EnsureOwnerRef] returns for a reference to the
    cluster. *)
Theorem reconcile_policy_frame (r : MachineHealthCheckReconciler)
    (cluster : Cluster) (m : MachineHealthCheck) (w : World) :
  mhcSpec (reconcile r cluster m w).1 = mhcSpec m /\
  metaNamespace (mhcMeta (reconcile r cluster m w).1) = metaNamespace (mhcMeta m) /\
  metaName (mhcMeta (reconcile r cluster m w).1) = metaName (mhcMeta m) /\
  metaLabels (mhcMeta (reconcile r cluster m w).1) = metaLabels (mhcMeta m) /\
  metaAnnotations (mhcMeta (reconcile r cluster m w).1)
    = metaAnnotations (mhcMeta m) /\
  metaUID (mhcMeta (reconcile r cluster m w).1) = metaUID (mhcMeta m) /\
  metaOwnerReferences (mhcMeta (reconcile r cluster m w).1)
    = EnsureOwnerRef r (metaOwnerReferences (mhcMeta m))
        {| orAPIVersion := "cluster.x-k8s.io/v1alpha3"; orKind := "Cluster";
           orName := metaName (clusterMeta cluster);
           orUID := metaUID (clusterMeta cluster) |}.
Proof. exact (reconcile_policy r cluster m w). Qed.

(** X3.  A pass that cannot resolve its targets records no event, patches
    nothing and leaves the status of the policy object as it was.  With a
    nil tracker it panics at the call of [GetClient] through the nil
    pointer.  With a tracker it returns an error: the error of the remote
    client as it is, or the error of the watch on the cluster's nodes or of
    the target resolver, wrapped. *)
Theorem reconcile_stops_before_evaluation (r : MachineHealthCheckReconciler)
    (cluster : Cluster) (m : MachineHealthCheck) (w : World) :
  (forall targets, ~ reachesEvaluation r cluster m w targets) ->
  (reconcile r cluster m w).2.2 = w /\
  mhcStatus (reconcile r cluster m w).1 = mhcStatus m /\
  match Tracker r with
  | None => (reconcile r cluster m w).2.1 = inr (Panic nilPointerDereference)
  | Some tracker =>
      exists err,
        (reconcile r cluster m w).2.1 = inr err /\
        (trackerGetClient tracker (ObjectKey (clusterMeta cluster)) = Some err \/
         (exists cause,
            trackerGetClient tracker (ObjectKey (clusterMeta cluster)) = None /\
            trackerWatch tracker (ObjectKey (clusterMeta cluster)) = Some cause /\
            err = Wrapf cause "Error watching nodes on target cluster") \/
         (exists cause,
            trackerGetClient tracker (ObjectKey (clusterMeta cluster)) = None /\
            trackerWatch tracker (ObjectKey (clusterMeta cluster)) = None /\
            getTargetsFromMHC r w (ensureOwned r cluster m) = inr cause /\
            err = Wrapf cause "Failed to fetch targets from MachineHealthCheck"))
  end.
Proof.
  intros Hnot. unfold reachesEvaluation in Hnot.
  unfold reconcile, GetClient, watchClusterNodes in *.
  destruct (Tracker r) as [tracker |]; [| by repeat split].
  destruct (trackerGetClient tracker _) as [err |] eqn:Hclient.
  { repeat split; try done. exists err. split; [done | by left]. }
  destruct (trackerWatch tracker _) as [cause |] eqn:Hwatch.
  { repeat split; try done. eexists. split; [done |]. right. left. by exists cause. }
  destruct (getTargetsFromMHC r w (ensureOwned r cluster m)) as [targets | cause]
    eqn:Htargets.
  { by destruct (Hnot targets). }
  repeat split; try done. eexists. split; [done |]. right. right. by exists cause.
Qed.

(** An instance of X3: a tracker that cannot watch the nodes makes the pass
    return the wrapped error; a nil tracker makes it panic. *)
Lemma reconcile_stops_before_evaluation_witness :
  (reconcile Fixture.blindReconciler Fixture.cluster Fixture.scenarioPolicy
     Fixture.emptyWorld).2.2 = Fixture.emptyWorld /\
  mhcStatus (reconcile Fixture.blindReconciler Fixture.cluster
               Fixture.scenarioPolicy Fixture.emptyWorld).1
    = mhcStatus Fixture.scenarioPolicy /\
  (reconcile Fixture.noTrackerReconciler Fixture.cluster Fixture.scenarioPolicy
     Fixture.emptyWorld).2.1 = inr (Panic nilPointerDereference).
Proof.
  destruct (reconcile_stops_before_evaluation Fixture.blindReconciler
              Fixture.cluster Fixture.scenarioPolicy Fixture.emptyWorld)
    as (Hw & Hst & _).
  { intros targets (_ & Hwatch & _). vm_compute in Hwatch. discriminate. }
  destruct (reconcile_stops_before_evaluation Fixture.noTrackerReconciler
              Fixture.cluster Fixture.scenarioPolicy Fixture.emptyWorld)
    as (_ & _ & Hpanic).
  { intros targets (Hclient & _). vm_compute in Hclient. discriminate. }
  split; [exact Hw |]. split; [exact Hst | exact Hpanic].
Defined.

(** The errors of a pass that has resolved its targets are those of its
    patches. *)
Lemma evaluated_pass_error (r : MachineHealthCheckReconciler)
    (cluster : Cluster) (m : MachineHealthCheck) (w : World)
    (targets : list healthCheckTarget) :
  reachesEvaluation r cluster m w targets ->
  (exists err, (reconcile r cluster m w).2.1 = inr err) <->
  (exists t perr,
     t ∈ healthyTargets r m targets ++ unhealthyTargets r m targets /\
     failPatchMachine (Client r) (machineKey t) = Some perr).
Proof.
  intros Hreach.
  destruct (isAllowedRemediation (observed r cluster m targets)) eqn:Hadm.
  - destruct (admitted_pass_trace r cluster m w targets Hreach Hadm)
      as (doneU & restU & doneH & restH & HU & HH & HokU & HokH & Hgate & _ & Hout).
    rewrite HU, HH. split.
    + intros [err Herr].
      destruct restU as [| u restU].
      * destruct restH as [| h restH]; [congruence |].
        destruct Hout as (perr & Hperr & _). exists h, perr. split; [| done].
        apply elem_of_app. left. apply elem_of_app. right. apply elem_of_cons. by left.
      * destruct Hout as (perr & Hperr & _). exists u, perr. split; [| done].
        apply elem_of_app. right. apply elem_of_app. right. apply elem_of_cons. by left.
    + intros (t & perr & Ht & Hperr).
      destruct restU as [| u restU].
      * destruct restH as [| h restH].
        -- rewrite !app_nil_r in Ht.
           apply elem_of_app in Ht as [Ht | Ht];
             [pose proof (proj1 (Forall_forall _ _) HokH t Ht) as Hnone
             | pose proof (proj1 (Forall_forall _ _) HokU t Ht) as Hnone];
             simpl in Hnone; congruence.
        -- destruct Hout as (perr' & _ & Hout). by eexists.
      * destruct Hout as (perr' & _ & Hout). by eexists.
  - destruct (denied_pass r cluster m w targets Hreach Hadm)
      as (done & rest & Hsplit & _ & Hw & Hout).
    split.
    + intros [err Herr]. destruct rest as [| t rest]; [congruence |].
      destruct Hout as (perr & Hperr & _). exists t, perr. split; [| done].
      rewrite Hsplit. apply elem_of_app. right. apply elem_of_cons. by left.
    + intros (t & perr & Ht & Hperr).
      destruct rest as [| u rest].
      * exfalso. rewrite app_nil_r in Hsplit.
        destruct (forEach_Patch_trace (Client r) tMachine
                    "Failed to patch machine status for machine"
                    (healthyTargets r m targets ++ unhealthyTargets r m targets)
                    (withEvents w
                       (events w ++ [restrictionEvent (observed r cluster m targets)
                                       (Z.of_nat (length targets))])))
          as (done' & rest' & Hsplit' & Hok' & _ & Hres').
        rewrite (reconcile_evaluated r cluster m w targets Hreach), Hadm in Hout.
        rewrite shortCircuit_run in Hout. cbn [fst snd] in Hout.
        destruct (forEach _ _ _) as [[[] | e] w1] eqn:Hrun; [| done].
        cbn [fst] in Hres'. destruct rest' as [| u rest'].
        -- rewrite app_nil_r in Hsplit'. subst done'.
           pose proof (proj1 (Forall_forall _ _) Hok' t Ht) as Hnone.
           simpl in Hnone. unfold machineKey in Hperr. congruence.
        -- destruct Hres' as (? & _ & ?). done.
      * destruct Hout as (perr' & _ & Hout). by eexists.
Qed.

(** X4.  A pass that has resolved its targets returns an error if and only
    if the patch of one of its healthy or unhealthy targets fails. *)
Theorem pass_fails_iff_patch_fails (r : MachineHealthCheckReconciler)
    (cluster : Cluster) (m : MachineHealthCheck) (w : World)
    (targets : list healthCheckTarget) :
  reachesEvaluation r cluster m w targets ->
  (exists err, (reconcile r cluster m w).2.1 = inr err) <->
  (exists t perr,
     t ∈ healthyTargets r m targets ++ unhealthyTargets r m targets /\
     failPatchMachine (Client r) (machineKey t) = Some perr).
Proof. exact (evaluated_pass_error r cluster m w targets). Qed.

(** An instance of X4: admission is granted and the patch of the healthy
    target fails after the unhealthy one has been marked. *)
Lemma pass_fails_iff_patch_fails_witness :
  exists err,
    (reconcile Fixture.lateFailureReconciler Fixture.cluster
       Fixture.scenarioPolicy Fixture.emptyWorld).2.1 = inr err.
Proof.
  apply (pass_fails_iff_patch_fails Fixture.lateFailureReconciler Fixture.cluster
           Fixture.scenarioPolicy Fixture.emptyWorld Fixture.admittedTargets).
  - repeat split; reflexivity.
  - exists Fixture.t1, (Errorf "conflict"). split; [| reflexivity].
    vm_compute. repeat constructor.
Defined.

Lemma minDuration_requeue_nonneg (durations : list Duration) :
  0 <= RequeueAfter (if 0 <? minDuration durations
                     then mkResult false (minDuration durations)
                     else emptyResult).
Proof.
  destruct (0 <? minDuration durations) eqn:Hpos; simpl; [| done].
  apply Z.ltb_lt in Hpos. lia.
Qed.

(** X5.  The shape of a result.  When a pass returns a result and no error,
    it has resolved its targets and every patch has succeeded; the result
    asks for a requeue exactly when admission was denied; its delay is never
    negative, and it never asks for a requeue and a delay together. *)
Theorem reconcile_result_shape (r : MachineHealthCheckReconciler)
    (cluster : Cluster) (m : MachineHealthCheck) (w : World) (result : Result) :
  (reconcile r cluster m w).2.1 = inl result ->
  exists targets,
    reachesEvaluation r cluster m w targets /\
    patchesSucceed (Client r)
      (healthyTargets r m targets ++ unhealthyTargets r m targets) /\
    Requeue result = negb (isAllowedRemediation (observed r cluster m targets)) /\
    0 <= RequeueAfter result /\
    (Requeue result = true -> RequeueAfter result = 0).
Proof.
  intros Hout.
  destruct (reconcile_cases r cluster m w) as [[err Hrun] | [targets Hreach]].
  { rewrite Hrun in Hout. done. }
  exists targets. split; [exact Hreach |].
  assert (Hok : patchesSucceed (Client r)
                  (healthyTargets r m targets ++ unhealthyTargets r m targets)).
  { apply Forall_forall. intros t Ht.
    destruct (failPatchMachine (Client r) (machineKey t)) as [perr |] eqn:Hperr;
      [| done].
    destruct (proj2 (evaluated_pass_error r cluster m w targets Hreach))
      as [err Herr]; [by exists t, perr | congruence]. }
  split; [exact Hok |].
  destruct (isAllowedRemediation (observed r cluster m targets)) eqn:Hadm.
  - rewrite (admitted_pass r cluster m w targets Hreach Hadm Hok) in Hout.
    simpl in Hout. injection Hout as <-.
    split; [by destruct (0 <? _) |].
    split; [apply minDuration_requeue_nonneg |]. by destruct (0 <? _).
  - destruct (denied_pass r cluster m w targets Hreach Hadm)
      as (done & rest & _ & _ & _ & Hres).
    destruct rest as [| t rest].
    + rewrite Hres in Hout. injection Hout as <-. by repeat split.
    + destruct Hres as (perr & _ & Hres). congruence.
Qed.

(** An instance of X5: the denied pass of the scenario. *)
Lemma reconcile_result_shape_witness :
  exists targets,
    reachesEvaluation Fixture.scenarioReconciler Fixture.cluster
      Fixture.scenarioPolicy Fixture.emptyWorld targets /\
    isAllowedRemediation
      (observed Fixture.scenarioReconciler Fixture.cluster
         Fixture.scenarioPolicy targets) = false.
Proof.
  destruct (reconcile_result_shape Fixture.scenarioReconciler Fixture.cluster
              Fixture.scenarioPolicy Fixture.emptyWorld (mkResult true 0) eq_refl)
    as (targets & Hreach & _ & Hrequeue & _).
  exists targets. split; [exact Hreach |].
  simpl in Hrequeue. by destruct (isAllowedRemediation _).
Defined.

(** X6.  Events follow patches.  In a pass in which admission is granted,
    whether or not it runs to its end, the events recorded are
    [MachineMarkedUnhealthy] events for a first part of the unhealthy
    targets, in order; the patch of each of these targets has succeeded and,
    with one target per machine, its machine is in the store with the
    remediation condition.  No event is recorded for a target whose patch
    failed or was not attempted. *)
Theorem marked_events_follow_patches (r : MachineHealthCheckReconciler)
    (cluster : Cluster) (m : MachineHealthCheck) (w : World)
    (targets : list healthCheckTarget) :
  reachesEvaluation r cluster m w targets ->
  isAllowedRemediation (observed r cluster m targets) = true ->
  NoDup (machineKey <$> targets) ->
  exists marked rest,
    unhealthyTargets r m targets = marked ++ rest /\
    events (reconcile r cluster m w).2.2
      = events w ++ map (markedEvent r) marked /\
    (forall t, t ∈ marked ->
       failPatchMachine (Client r) (machineKey t) = None /\
       machines (reconcile r cluster m w).2.2 !! machineKey t
         = Some (markedMachine t)) /\
    (rest = [] \/
     exists t rest' perr,
       rest = t :: rest' /\
       failPatchMachine (Client r) (machineKey t) = Some perr).
Proof.
  intros Hreach Hadm Hnd.
  destruct (admitted_pass_trace r cluster m w targets Hreach Hadm)
    as (doneU & restU & doneH & restH & HU & HH & HokU & _ & _ & Hw & Hout).
  pose proof (partition_NoDup r m targets Hnd) as Hnd'.
  rewrite HU, HH, !fmap_app in Hnd'.
  apply NoDup_app in Hnd' as (HndH & Hdisj & HndU).
  apply NoDup_app in HndH as (HndH & _ & _).
  apply NoDup_app in HndU as (HndU & _ & _).
  exists doneU, restU. split; [exact HU |]. split; [by rewrite Hw |]. split.
  - intros t Ht. split; [exact (proj1 (Forall_forall _ _) HokU t Ht) |].
    rewrite Hw. simpl. rewrite written_lookup_other.
    + by apply (written_lookup_target markedMachine).
    + intros h Hh Heq. apply (Hdisj (machineKey t)).
      * apply elem_of_app. left. rewrite <- Heq.
        apply list_elem_of_fmap. by exists h.
      * apply elem_of_app. left. apply list_elem_of_fmap. by exists t.
  - destruct restU as [| u restU]; [by left |].
    destruct Hout as (perr & Hperr & _). right. by exists u, restU, perr.
Qed.

(** An instance of X6: the unhealthy target is marked and recorded before
    the patch of the healthy one fails. *)
Lemma marked_events_follow_patches_witness :
  exists marked rest,
    unhealthyTargets Fixture.lateFailureReconciler Fixture.scenarioPolicy
      Fixture.admittedTargets = marked ++ rest /\
    events (reconcile Fixture.lateFailureReconciler Fixture.cluster
              Fixture.scenarioPolicy Fixture.emptyWorld).2.2
      = map (markedEvent Fixture.lateFailureReconciler) marked.
Proof.
  destruct (marked_events_follow_patches Fixture.lateFailureReconciler
              Fixture.cluster Fixture.scenarioPolicy Fixture.emptyWorld
              Fixture.admittedTargets)
    as (marked & rest & Hsplit & Hev & _).
  - repeat split; reflexivity.
  - reflexivity.
  - vm_compute. repeat constructor; rewrite ?list_elem_of_In; simpl; intuition discriminate.
  - exists marked, rest. split; [exact Hsplit | exact Hev].
Defined.

(** ** The status kept by a pass, and more on admission *)

Lemma healthy_length_le (r : MachineHealthCheckReconciler) (m : MachineHealthCheck)
    (targets : list healthCheckTarget) :
  (length (healthyTargets r m targets) <= length targets)%nat.
Proof. pose proof (partition_lengths r m targets). lia. Qed.

(** X7.  The status a pass computes is consistent.  In a pass that resolves
    fewer than 2^31 targets, the healthy count is between zero and the
    expected count, [Status.Targets] has as many names as there are expected
    machines, and the unhealthy count of the admission check is the plain
    difference of the two counts, without wrap-around, and is at least the
    number of targets classified unhealthy. *)
Theorem status_invariant (r : MachineHealthCheckReconciler) (cluster : Cluster)
    (m : MachineHealthCheck) (w : World) (targets : list healthCheckTarget) :
  reachesEvaluation r cluster m w targets ->
  Z.of_nat (length targets) <= MaxInt32 ->
  let st := mhcStatus (reconcile r cluster m w).1 in
  0 <= CurrentHealthy st <= ExpectedMachines st /\
  ExpectedMachines st <= MaxInt32 /\
  Z.of_nat (length (Targets st)) = ExpectedMachines st /\
  unhealthyCount (reconcile r cluster m w).1
    = ExpectedMachines st - CurrentHealthy st /\
  Z.of_nat (length (unhealthyTargets r m targets))
    <= unhealthyCount (reconcile r cluster m w).1.
Proof.
  intros Hreach Hlen st. unfold st.
  rewrite (reconcile_observed r cluster m w targets Hreach).
  pose proof (partition_lengths r m targets) as Hpart.
  unfold unhealthyCount, int32_sub. simpl. rewrite length_map.
  rewrite (wrap32_of_length targets Hlen).
  rewrite (wrap32_of_length (healthyTargets r m targets)) by lia.
  rewrite wrap32_small by (unfold MinInt32; lia).
  lia.
Qed.

(** An instance of X7: the scenario, with three targets of which one is
    healthy. *)
Lemma status_invariant_witness :
  unhealthyCount (reconcile Fixture.scenarioReconciler Fixture.cluster
                    Fixture.scenarioPolicy Fixture.emptyWorld).1 = 3 - 1.
Proof.
  destruct (status_invariant Fixture.scenarioReconciler Fixture.cluster
              Fixture.scenarioPolicy Fixture.emptyWorld Fixture.scenarioTargets)
    as (_ & _ & _ & Hcount & _).
  - repeat split; reflexivity.
  - vm_compute. discriminate.
  - exact Hcount.
Defined.

(** X8.  Admission is monotone in the healthy count.  For two states of a
    policy with the same [maxUnhealthy] and the same expected count, whose
    unhealthy counts fit [int32], if remediation is allowed in the state
    with fewer healthy machines it is allowed in the one with more. *)
Theorem admission_monotone (mhc1 mhc2 : MachineHealthCheck) :
  MaxUnhealthy (mhcSpec mhc1) = MaxUnhealthy (mhcSpec mhc2) ->
  ExpectedMachines (mhcStatus mhc1) = ExpectedMachines (mhcStatus mhc2) ->
  CurrentHealthy (mhcStatus mhc1) <= CurrentHealthy (mhcStatus mhc2) ->
  MinInt32 <= ExpectedMachines (mhcStatus mhc2) - CurrentHealthy (mhcStatus mhc2) ->
  ExpectedMachines (mhcStatus mhc1) - CurrentHealthy (mhcStatus mhc1) <= MaxInt32 ->
  isAllowedRemediation mhc1 = true ->
  isAllowedRemediation mhc2 = true.
Proof.
  intros Hmu Hexp Hle Hlo Hhi. unfold isAllowedRemediation.
  rewrite <- Hmu, <- Hexp.
  destruct (MaxUnhealthy (mhcSpec mhc1)) as [mu |]; [| done].
  destruct (intstr.GetValueFromIntOrPercent mu _ false) as [resolvedMax | err];
    [| done].
  unfold int32_sub. rewrite !wrap32_small by (rewrite ?Hexp in *; unfold MinInt32, MaxInt32 in *; lia).
  intros Hallowed. apply Z.leb_le in Hallowed. apply Z.leb_le. lia.
Qed.

(** An instance of X8: with ["50%"] of four machines, two healthy machines
    are enough, hence so are three. *)
Lemma admission_monotone_witness :
  isAllowedRemediation
    (Fixture.policy "p" (Some (intstr.FromString "50%")) 4 3) = true.
Proof.
  apply (admission_monotone
           (Fixture.policy "p" (Some (intstr.FromString "50%")) 4 2)
           (Fixture.policy "p" (Some (intstr.FromString "50%")) 4 3));
    try reflexivity; vm_compute; discriminate.
Defined.

(** X9.  When every expected machine is healthy, admission depends on the
    sign of the resolved maximum alone: remediation is allowed if and only
    if the maximum is not negative.  A negative [maxUnhealthy] therefore
    denies admission even to a fleet without a single unhealthy machine. *)
Theorem admission_when_all_healthy (mhc : MachineHealthCheck) mu (resolvedMax : Z) :
  MaxUnhealthy (mhcSpec mhc) = Some mu ->
  intstr.GetValueFromIntOrPercent mu (ExpectedMachines (mhcStatus mhc)) false
    = inl resolvedMax ->
  CurrentHealthy (mhcStatus mhc) = ExpectedMachines (mhcStatus mhc) ->
  (isAllowedRemediation mhc = true <-> 0 <= resolvedMax).
Proof.
  intros Hmu Hres Hall.
  rewrite (isAllowedRemediation_resolved mhc mu resolvedMax Hmu Hres).
  unfold unhealthyCount, int32_sub. rewrite Hall, Z.sub_diag.
  rewrite wrap32_small by (unfold MinInt32, MaxInt32; lia).
  apply Z.leb_le.
Qed.

(** An instance of X9: [maxUnhealthy = -1] with three healthy machines out
    of three. *)
Lemma admission_when_all_healthy_witness :
  isAllowedRemediation (Fixture.policy "p" (Some (intstr.FromInt (-1))) 3 3) = false.
Proof.
  destruct (isAllowedRemediation
              (Fixture.policy "p" (Some (intstr.FromInt (-1))) 3 3)) eqn:Hallowed;
    [| reflexivity].
  pose proof (proj1 (admission_when_all_healthy
                       (Fixture.policy "p" (Some (intstr.FromInt (-1))) 3 3)
                       (intstr.FromInt (-1)) (-1) eq_refl eq_refl eq_refl)
                Hallowed) as Hneg.
  lia.
Defined.

(** ** The whole pass: [Reconcile] *)

(** Once [Reconcile] calls [reconcile], what it returns and the world it
    leaves are those of [reconcile], with the error event and the final
    patch of the policy added. *)
Lemma Reconcile_run (r : MachineHealthCheckReconciler) (req : NamespacedName)
    (w : World) (m : MachineHealthCheck) (cluster : Cluster) :
  callsReconcile r req w m cluster ->
  Reconcile r req w
    = let pass := reconcile r cluster (labelled m) w in
      let w1 :=
        match pass.2.1 with
        | inr err =>
            if panicking (Some err) then pass.2.2
            else withEvents pass.2.2
                   (events pass.2.2 ++ [reconcileErrorEvent pass.1 err])
        | inl _ => pass.2.2
        end in
      let result := match pass.2.1 with inl res => res | inr _ => emptyResult end in
      let reterr := match pass.2.1 with inl _ => None | inr err => Some err end in
      match failPatchMachineHealthCheck (Client r) with
      | Some perr =>
          ((result,
            if panicking reterr then reterr
            else kerrors.NewAggregate [reterr; Some perr]), w1)
      | None => ((result, reterr), setMachineHealthCheck pass.1 w1)
      end.
Proof.
  intros (Hget & Hcluster & Hpaused & Hhelper).
  unfold Reconcile. rewrite Hget, Hcluster, Hpaused, Hhelper.
  fold (labelled m).
  destruct (reconcile r cluster (labelled m) w) as [m' [[res | err] w']];
    [| destruct err];
    cbn [fst snd]; by destruct (failPatchMachineHealthCheck (Client r)).
Qed.

(** [Reconcile] either ends at once, the world untouched, or calls
    [reconcile]. *)
Lemma Reconcile_cases (r : MachineHealthCheckReconciler) (req : NamespacedName)
    (w : World) :
  (exists reterr, Reconcile r req w = ((emptyResult, reterr), w)) \/
  (exists m cluster, callsReconcile r req w m cluster).
Proof.
  unfold callsReconcile, Reconcile.
  destruct (Get (Client r) w req) as [m | err] eqn:Hget.
  2: { left. destruct (apierrors.IsNotFound err); by eexists. }
  destruct (GetClusterByName _ _ _ _) as [cluster | err] eqn:Hcluster;
    [| left; by eexists].
  destruct (IsPaused r cluster m) eqn:Hpaused; [left; by eexists |].
  destruct (failNewHelper (Client r)) as [err |] eqn:Hhelper; [left; by eexists |].
  right. exists m, cluster. by repeat split.
Qed.

(** X10.  Neither error masks the other.  When the final patch of the
    policy fails, [Reconcile] returns an aggregate error: of the error of
    [reconcile] and the patch error, in this order, when [reconcile]
    returned an error, and of the patch error alone, beside the result of
    [reconcile], when it returned none.  When [reconcile] panicked there is
    nothing to aggregate: the panic goes on.  In every case the policy is
    not stored, while the machines patched by the pass stay patched. *)
Theorem Reconcile_reports_both_errors (r : MachineHealthCheckReconciler)
    (req : NamespacedName) (w : World) (m : MachineHealthCheck)
    (cluster : Cluster) (perr : error) :
  callsReconcile r req w m cluster ->
  failPatchMachineHealthCheck (Client r) = Some perr ->
  (Reconcile r req w).1
    = match (reconcile r cluster (labelled m) w).2.1 with
      | inl result => (result, Some (Aggregate [perr]))
      | inr (Panic v) => (emptyResult, Some (Panic v))
      | inr err => (emptyResult, Some (Aggregate [err; perr]))
      end /\
  mhcs (Reconcile r req w).2 = mhcs w /\
  machines (Reconcile r req w).2
    = machines (reconcile r cluster (labelled m) w).2.2.
Proof.
  intros Hcalls Hpatch.
  rewrite (Reconcile_run r req w m cluster Hcalls). cbn zeta. rewrite Hpatch.
  destruct (reconcile_world r cluster (labelled m) w) as (Hmhcs & _).
  destruct (reconcile r cluster (labelled m) w) as [m' [[res | err] w']];
    [| destruct err]; cbn [fst snd] in *; by repeat split.
Qed.

(** An instance of X10: the denied pass of the scenario succeeds and the
    final patch fails; the result [Result{Requeue: true}] comes back with
    the aggregate of the one error. *)
Lemma Reconcile_reports_both_errors_witness :
  (Reconcile (Fixture.reconciler Fixture.policyPatchFails Fixture.scenarioTargets)
     (mkNamespacedName "ns" "p") Fixture.routingWorld).1
    = (mkResult true 0, Some (Aggregate [Errorf "conflict"])).
Proof.
  destruct (Reconcile_reports_both_errors
              (Fixture.reconciler Fixture.policyPatchFails Fixture.scenarioTargets)
              (mkNamespacedName "ns" "p") Fixture.routingWorld
              Fixture.scenarioPolicy Fixture.cluster (Errorf "conflict"))
    as (Hret & _).
  - repeat split; reflexivity.
  - reflexivity.
  - exact Hret.
Defined.

(** X11.  The error event.  [Reconcile] records a warning event with reason
    ["ReconcileError"] on the policy, carrying the error, exactly when
    [reconcile] returns an error; it then returns the empty result.  When
    [reconcile] panics no event is recorded.  With the final patch
    succeeding, [Reconcile] ends as [reconcile] did: with its error as it
    is, with its panic, or with no error and its result. *)
Theorem Reconcile_error_event (r : MachineHealthCheckReconciler)
    (req : NamespacedName) (w : World) (m : MachineHealthCheck)
    (cluster : Cluster) :
  callsReconcile r req w m cluster ->
  let pass := reconcile r cluster (labelled m) w in
  events (Reconcile r req w).2
    = events pass.2.2 ++
      match pass.2.1 with
      | inr (Panic _) => []
      | inr err =>
          [{| evObject := OnMachineHealthCheck (ObjectKey (mhcMeta m));
              evType := EventTypeWarning;
              evReason := "ReconcileError";
              evMessageFmt := "%v";
              evArgs := [ArgError err] |}]
      | inl _ => []
      end /\
  (Reconcile r req w).1.1
    = match pass.2.1 with inl result => result | inr _ => emptyResult end /\
  (failPatchMachineHealthCheck (Client r) = None ->
   (Reconcile r req w).1.2
     = match pass.2.1 with inl _ => None | inr err => Some err end).
Proof.
  intros Hcalls pass. unfold pass.
  rewrite (Reconcile_run r req w m cluster Hcalls). cbn zeta.
  destruct (reconcile_policy r cluster (labelled m) w)
    as (_ & Hns & Hname & _).
  assert (Hkey : ObjectKey (mhcMeta (reconcile r cluster (labelled m) w).1)
                 = ObjectKey (mhcMeta m)).
  { unfold ObjectKey. by rewrite Hns, Hname. }
  unfold reconcileErrorEvent. rewrite Hkey.
  destruct (reconcile r cluster (labelled m) w) as [m' [[res | err] w']];
    [| destruct err];
    cbn [fst snd panicking] in *;
    destruct (failPatchMachineHealthCheck (Client r));
    cbn [fst snd events setMachineHealthCheck withEvents];
    rewrite ?app_nil_r; by repeat split.
Qed.

(** An instance of X11: the tracker cannot watch the nodes, [reconcile]
    fails and the event is recorded. *)
Lemma Reconcile_error_event_witness :
  events (Reconcile Fixture.blindReconciler (mkNamespacedName "ns" "p")
            Fixture.routingWorld).2
    = [reconcileErrorEvent Fixture.scenarioPolicy
         (Wrapf (Errorf "unreachable") "Error watching nodes on target cluster")].
Proof.
  destruct (Reconcile_error_event Fixture.blindReconciler
              (mkNamespacedName "ns" "p") Fixture.routingWorld
              Fixture.scenarioPolicy Fixture.cluster)
    as (Hev & _).
  - repeat split; reflexivity.
  - exact Hev.
Defined.

(** X12.  Ending at once.  When [Reconcile] does not get to call
    [reconcile], it leaves the world untouched and returns the empty result;
    it returns no error exactly when the policy was not found or when the
    policy or its cluster is paused, and an error in every other case (the
    policy or the cluster cannot be fetched, the patch helper cannot be
    built). *)
Theorem Reconcile_ends_at_once (r : MachineHealthCheckReconciler)
    (req : NamespacedName) (w : World) :
  (forall m cluster, ~ callsReconcile r req w m cluster) ->
  (Reconcile r req w).2 = w /\
  (Reconcile r req w).1.1 = emptyResult /\
  ((Reconcile r req w).1.2 = None <->
   (exists err, Get (Client r) w req = inr err /\ apierrors.IsNotFound err = true) \/
   (exists m cluster,
      Get (Client r) w req = inl m /\
      GetClusterByName (Client r) w (metaNamespace (mhcMeta m))
        (ClusterName (mhcSpec m)) = inl cluster /\
      IsPaused r cluster m = true)).
Proof.
  intros Hnot. unfold callsReconcile in Hnot. unfold Reconcile.
  destruct (Get (Client r) w req) as [m | err] eqn:Hget.
  2: { destruct (apierrors.IsNotFound err) eqn:Hnf; cbn [fst snd].
       - repeat split; try done. intros _. left. by exists err.
       - repeat split; try done.
         intros [(err' & Herr & Hnf') | (m & cluster & Hm & _)]; congruence. }
  destruct (GetClusterByName _ _ _ _) as [cluster | err] eqn:Hcluster.
  2: { cbn [fst snd]. repeat split; try done.
       intros [(err' & Herr & _) | (m' & cluster & Hm & Hc & _)]; [done |].
       injection Hm as <-. congruence. }
  destruct (IsPaused r cluster m) eqn:Hpaused.
  { cbn [fst snd]. repeat split; try done. intros _. right. by exists m, cluster. }
  destruct (failNewHelper (Client r)) as [err |] eqn:Hhelper.
  { cbn [fst snd]. repeat split; try done.
    intros [(err' & Herr & _) | (m' & cluster' & Hm & Hc & Hp)]; [done |].
    injection Hm as <-. rewrite Hcluster in Hc. injection Hc as <-. congruence. }
  by destruct (Hnot m cluster).
Qed.

(** An instance of X12: the cluster of the policy is paused. *)
Lemma Reconcile_ends_at_once_witness :
  Reconcile Fixture.scenarioReconciler (mkNamespacedName "ns" "p")
    Fixture.pausedWorld = ((emptyResult, None), Fixture.pausedWorld).
Proof.
  destruct (Reconcile_ends_at_once Fixture.scenarioReconciler
              (mkNamespacedName "ns" "p") Fixture.pausedWorld)
    as (Hw & Hres & Herr).
  - intros m cluster (Hget & Hcluster & Hpaused & _).
    vm_compute in Hget. injection Hget as <-.
    vm_compute in Hcluster. injection Hcluster as <-.
    vm_compute in Hpaused. discriminate.
  - destruct (Reconcile _ _ _) as [[res reterr] w']. simpl in *.
    subst. f_equal. f_equal. apply Herr. right.
    exists Fixture.scenarioPolicy, Fixture.pausedCluster.
    repeat split; reflexivity.
Defined.

(** X13.  The cluster label.  When [Reconcile] calls [reconcile] and its
    final patch succeeds, whatever [reconcile] returned, the policy is stored
    under its key with the label [cluster.x-k8s.io/cluster-name] set to the
    cluster name of its spec, its other labels and its spec as they were
    fetched; every other stored policy is left as it was. *)
Theorem Reconcile_stores_labelled_policy (r : MachineHealthCheckReconciler)
    (req : NamespacedName) (w : World) (m : MachineHealthCheck)
    (cluster : Cluster) :
  callsReconcile r req w m cluster ->
  failPatchMachineHealthCheck (Client r) = None ->
  (exists stored,
     mhcs (Reconcile r req w).2 !! ObjectKey (mhcMeta m) = Some stored /\
     metaLabels (mhcMeta stored) !! ClusterLabelName = Some (ClusterName (mhcSpec m)) /\
     (forall l, l <> ClusterLabelName ->
        metaLabels (mhcMeta stored) !! l = metaLabels (mhcMeta m) !! l) /\
     mhcSpec stored = mhcSpec m) /\
  (forall k, k <> ObjectKey (mhcMeta m) ->
     mhcs (Reconcile r req w).2 !! k = mhcs w !! k).
Proof.
  intros Hcalls Hpatch.
  rewrite (Reconcile_run r req w m cluster Hcalls). cbn zeta. rewrite Hpatch.
  destruct (reconcile_policy r cluster (labelled m) w)
    as (Hspec & Hns & Hname & Hlabels & _).
  destruct (reconcile_world r cluster (labelled m) w) as (Hmhcs & _).
  assert (Hkey : ObjectKey (mhcMeta (reconcile r cluster (labelled m) w).1)
                 = ObjectKey (mhcMeta m)).
  { unfold ObjectKey. by rewrite Hns, Hname. }
  assert (Hstore : forall w1, mhcs w1 = mhcs (reconcile r cluster (labelled m) w).2.2 ->
            mhcs (setMachineHealthCheck (reconcile r cluster (labelled m) w).1 w1)
            = <[ObjectKey (mhcMeta m) := (reconcile r cluster (labelled m) w).1]>
                (mhcs w)).
  { intros w1 Hw1. simpl. by rewrite Hkey, Hw1, Hmhcs. }
  cbn [snd].
  rewrite Hstore
    by (destruct (reconcile r cluster (labelled m) w).2.1 as [? | []]; done).
  split.
  - exists (reconcile r cluster (labelled m) w).1.
    split; [apply lookup_insert_eq |]. rewrite Hlabels, Hspec. simpl.
    split; [apply lookup_insert_eq |]. split; [| done].
    intros l Hl. by rewrite lookup_insert_ne.
  - intros k Hk. by rewrite lookup_insert_ne.
Qed.

(** An instance of X13: the policy ["p"] after the denied pass of the
    scenario. *)
Lemma Reconcile_stores_labelled_policy_witness :
  exists stored,
    mhcs (Reconcile Fixture.scenarioReconciler (mkNamespacedName "ns" "p")
            Fixture.routingWorld).2 !! mkNamespacedName "ns" "p" = Some stored /\
    metaLabels (mhcMeta stored) !! ClusterLabelName = Some "c1".
Proof.
  destruct (Reconcile_stores_labelled_policy Fixture.scenarioReconciler
              (mkNamespacedName "ns" "p") Fixture.routingWorld
              Fixture.scenarioPolicy Fixture.cluster)
    as ((stored & Hstored & Hlabel & _) & _).
  - repeat split; reflexivity.
  - reflexivity.
  - exists stored. split; [exact Hstored | exact Hlabel].
Defined.

(** X14.  Nothing is deleted.  Whatever happens, [Reconcile] leaves the
    stored clusters as they are, keeps every policy and every machine that
    was stored (possibly with a new content), and only appends to the
    recorded events. *)
Theorem Reconcile_deletes_nothing (r : MachineHealthCheckReconciler)
    (req : NamespacedName) (w : World) :
  clusters (Reconcile r req w).2 = clusters w /\
  (forall k, is_Some (mhcs w !! k) -> is_Some (mhcs (Reconcile r req w).2 !! k)) /\
  (forall k, is_Some (machines w !! k) ->
     is_Some (machines (Reconcile r req w).2 !! k)) /\
  (exists evs, events (Reconcile r req w).2 = events w ++ evs).
Proof.
  destruct (Reconcile_cases r req w) as [[reterr Hrun] | (m & cluster & Hcalls)].
  { rewrite Hrun. simpl. repeat split; try done. exists []. by rewrite app_nil_r. }
  rewrite (Reconcile_run r req w m cluster Hcalls). cbn zeta.
  destruct (reconcile_world r cluster (labelled m) w)
    as (Hmhcs & Hclusters & [evs Hevs] & Hmachines & _).
  destruct (reconcile r cluster (labelled m) w) as [m' [[res | err] w']];
    [| destruct err];
    cbn [fst snd panicking] in *;
    destruct (failPatchMachineHealthCheck (Client r));
    cbn [fst snd clusters mhcs machines events setMachineHealthCheck withEvents];
    rewrite ?Hmhcs, ?Hevs;
    (split; [done |]); (split; [| split; [done |]]);
    try done;
    try (intros k Hk;
         destruct (decide (ObjectKey (mhcMeta m') = k)) as [<- | Hne];
           [rewrite lookup_insert_eq; by eexists
           | by rewrite lookup_insert_ne]);
    try by exists evs.
  all: eexists; by rewrite <- app_assoc.
Qed.

(** ** More on event routing *)

Lemma clusterToMachineHealthCheck_listed (r : MachineHealthCheckReconciler)
    (w : World) (c : Cluster) :
  failListMachineHealthChecks (Client r) = None ->
  clusterToMachineHealthCheck r w (ClusterObject c)
    = map (fun mhc => ObjectKey (mhcMeta mhc))
        (List.filter
           (fun mhc =>
              bool_decide (metaNamespace (mhcMeta mhc) = metaNamespace (clusterMeta c))
              && bool_decide (metaLabels (mhcMeta mhc) !! ClusterLabelName
                              = Some (metaName (clusterMeta c))))
           (storedPolicies w)).
Proof.
  intros Hlist. unfold clusterToMachineHealthCheck, ListMachineHealthChecks.
  rewrite Hlist. unfold ObjectKey. f_equal. apply List.filter_ext.
  intros mhc. unfold matchesLabels. simpl. by rewrite andb_true_r.
Qed.

(** X15.  Cluster to policies.  For a change of the cluster [c]: when the
    store lists the policies, the work items are the keys of the stored
    policies that are in the cluster's namespace and carry the cluster label
    with the cluster's name, whatever their selector, and of no other
    policy; when the listing fails there is no work item. *)
Theorem cluster_to_policies (r : MachineHealthCheckReconciler) (w : World)
    (c : Cluster) :
  (failListMachineHealthChecks (Client r) = None ->
   forall k,
     k ∈ clusterToMachineHealthCheck r w (ClusterObject c) <->
     exists key mhc,
       mhcs w !! key = Some mhc /\
       metaNamespace (mhcMeta mhc) = metaNamespace (clusterMeta c) /\
       metaLabels (mhcMeta mhc) !! ClusterLabelName = Some (metaName (clusterMeta c)) /\
       k = ObjectKey (mhcMeta mhc)) /\
  (forall err,
     failListMachineHealthChecks (Client r) = Some err ->
     clusterToMachineHealthCheck r w (ClusterObject c) = []).
Proof.
  split.
  - intros Hlist k. rewrite (clusterToMachineHealthCheck_listed r w c Hlist).
    rewrite list_elem_of_fmap. split.
    + intros (mhc & -> & Hin).
      apply list_elem_of_In, filter_In in Hin as [Hin Hsel].
      apply list_elem_of_In, storedPolicies_elem in Hin as [key Hkey].
      apply andb_true_iff in Hsel as [Hns Hlabel].
      apply bool_decide_eq_true in Hns, Hlabel.
      by exists key, mhc.
    + intros (key & mhc & Hkey & Hns & Hlabel & ->).
      exists mhc. split; [done |].
      apply list_elem_of_In, filter_In. split.
      * apply list_elem_of_In, storedPolicies_elem. by exists key.
      * apply andb_true_iff. split; by apply bool_decide_eq_true.
  - intros err Hlist.
    unfold clusterToMachineHealthCheck, ListMachineHealthChecks. by rewrite Hlist.
Qed.

(** An instance of X15: both policies of cluster ["c1"] are enqueued. *)
Lemma cluster_to_policies_witness :
  mkNamespacedName "ns" "q"
    ∈ clusterToMachineHealthCheck Fixture.scenarioReconciler Fixture.routingWorld
        (ClusterObject Fixture.cluster).
Proof.
  destruct (cluster_to_policies Fixture.scenarioReconciler Fixture.routingWorld
              Fixture.cluster) as [Hlisted _].
  apply (Hlisted eq_refl).
  exists (mkNamespacedName "ns" "q"), Fixture.otherPolicy.
  repeat split; vm_compute; reflexivity.
Defined.

(** X16.  A machine enqueues no more than its cluster.  Every work item
    produced for a change of a machine is also produced for a change of the
    cluster the machine belongs to: the cluster of the machine's namespace
    whose name is the machine's cluster name. *)
Theorem machine_items_among_cluster_items (r : MachineHealthCheckReconciler)
    (w : World) (m : Machine) (c : Cluster) :
  metaNamespace (clusterMeta c) = metaNamespace (machineMeta m) ->
  metaName (clusterMeta c) = machineClusterName m ->
  forall k,
    k ∈ machineToMachineHealthCheck r w (MachineObject m) ->
    k ∈ clusterToMachineHealthCheck r w (ClusterObject c).
Proof.
  intros Hns Hname k.
  destruct (failListMachineHealthChecks (Client r)) as [err |] eqn:Hlist.
  { unfold machineToMachineHealthCheck, ListMachineHealthChecks. rewrite Hlist.
    intros Hk. by apply elem_of_nil in Hk. }
  rewrite (machineToMachineHealthCheck_listed r w m Hlist),
          (clusterToMachineHealthCheck_listed r w c Hlist).
  rewrite !list_elem_of_fmap. intros (mhc & -> & Hin). exists mhc. split; [done |].
  apply list_elem_of_In, filter_In in Hin as [Hin Hmon].
  apply list_elem_of_In, filter_In. split; [done |].
  unfold monitors in Hmon. apply andb_true_iff in Hmon as [Hmon _].
  by rewrite Hns, Hname.
Qed.

(** An instance of X16: the machine ["m1"] and its cluster ["c1"]. *)
Lemma machine_items_among_cluster_items_witness :
  mkNamespacedName "ns" "p"
    ∈ clusterToMachineHealthCheck Fixture.scenarioReconciler Fixture.routingWorld
        (ClusterObject Fixture.cluster).
Proof.
  apply (machine_items_among_cluster_items Fixture.scenarioReconciler
           Fixture.routingWorld (Fixture.machine "m1" (Some "n1") ∅)
           Fixture.cluster eq_refl eq_refl).
  vm_compute. repeat constructor.
Defined.

(** X17.  Work items stay in the namespace.  Every work item produced for a
    change of a machine names a policy in the machine's namespace, and every
    work item produced for a change of a cluster names a policy in the
    cluster's namespace. *)
Theorem work_items_namespace (r : MachineHealthCheckReconciler) (w : World) :
  (forall m k,
     k ∈ machineToMachineHealthCheck r w (MachineObject m) ->
     Namespace k = metaNamespace (machineMeta m)) /\
  (forall c k,
     k ∈ clusterToMachineHealthCheck r w (ClusterObject c) ->
     Namespace k = metaNamespace (clusterMeta c)).
Proof.
  split.
  - intros m k.
    destruct (failListMachineHealthChecks (Client r)) as [err |] eqn:Hlist.
    { unfold machineToMachineHealthCheck, ListMachineHealthChecks. rewrite Hlist.
      intros Hk. by apply elem_of_nil in Hk. }
    rewrite (machineToMachineHealthCheck_listed r w m Hlist), list_elem_of_fmap.
    intros (mhc & -> & Hin).
    apply list_elem_of_In, filter_In in Hin as [_ Hmon].
    unfold monitors in Hmon. apply andb_true_iff in Hmon as [Hmon _].
    apply andb_true_iff in Hmon as [Hns _]. by apply bool_decide_eq_true in Hns.
  - intros c k.
    destruct (failListMachineHealthChecks (Client r)) as [err |] eqn:Hlist.
    { unfold clusterToMachineHealthCheck, ListMachineHealthChecks. rewrite Hlist.
      intros Hk. by apply elem_of_nil in Hk. }
    rewrite (clusterToMachineHealthCheck_listed r w c Hlist), list_elem_of_fmap.
    intros (mhc & -> & Hin).
    apply list_elem_of_In, filter_In in Hin as [_ Hsel].
    apply andb_true_iff in Hsel as [Hns _]. by apply bool_decide_eq_true in Hns.
Qed.

(** The policies stored after a pass whose final patch succeeded. *)
Lemma Reconcile_mhcs (r : MachineHealthCheckReconciler) (req : NamespacedName)
    (w : World) (m : MachineHealthCheck) (cluster : Cluster) :
  callsReconcile r req w m cluster ->
  failPatchMachineHealthCheck (Client r) = None ->
  mhcs (Reconcile r req w).2
    = <[ObjectKey (mhcMeta m) := (reconcile r cluster (labelled m) w).1]> (mhcs w).
Proof.
  intros Hcalls Hpatch.
  rewrite (Reconcile_run r req w m cluster Hcalls). cbn zeta. rewrite Hpatch.
  destruct (reconcile_policy r cluster (labelled m) w) as (_ & Hns & Hname & _).
  destruct (reconcile_world r cluster (labelled m) w) as (Hmhcs & _).
  cbn [snd]. simpl. unfold ObjectKey at 1. rewrite Hns, Hname.
  fold (ObjectKey (mhcMeta m)). f_equal.
  by destruct (reconcile r cluster (labelled m) w).2.1 as [? | []].
Qed.

(** X18.  A reconciled policy is found by the cluster mapping.  After a
    pass whose final patch succeeded, a change of the cluster the policy
    names, in the policy's namespace, produces a work item for the policy,
    when the store lists the policies: the pass itself has set the label by
    which the listing selects. *)
Theorem reconciled_policy_is_enqueued (r : MachineHealthCheckReconciler)
    (req : NamespacedName) (w : World) (m : MachineHealthCheck)
    (cluster c : Cluster) :
  callsReconcile r req w m cluster ->
  failPatchMachineHealthCheck (Client r) = None ->
  failListMachineHealthChecks (Client r) = None ->
  metaNamespace (clusterMeta c) = metaNamespace (mhcMeta m) ->
  metaName (clusterMeta c) = ClusterName (mhcSpec m) ->
  ObjectKey (mhcMeta m)
    ∈ clusterToMachineHealthCheck r (Reconcile r req w).2 (ClusterObject c).
Proof.
  intros Hcalls Hpatch Hlist Hns Hname.
  rewrite (clusterToMachineHealthCheck_listed r _ c Hlist).
  destruct (reconcile_policy r cluster (labelled m) w)
    as (_ & Hns' & Hname' & Hlabels & _).
  apply list_elem_of_fmap. exists (reconcile r cluster (labelled m) w).1. split.
  { unfold ObjectKey. by rewrite Hns', Hname'. }
  apply list_elem_of_In, filter_In. split.
  - apply list_elem_of_In, storedPolicies_elem. exists (ObjectKey (mhcMeta m)).
    rewrite (Reconcile_mhcs r req w m cluster Hcalls Hpatch).
    apply lookup_insert_eq.
  - apply andb_true_iff. split; apply bool_decide_eq_true.
    + rewrite Hns', Hns. done.
    + rewrite Hlabels, Hname. simpl. apply lookup_insert_eq.
Qed.

(** An instance of X18: a policy stored without any label is enqueued for
    its cluster once a pass has gone over it. *)
Lemma reconciled_policy_is_enqueued_witness :
  mkNamespacedName "ns" "bare"
    ∈ clusterToMachineHealthCheck Fixture.scenarioReconciler
        (Reconcile Fixture.scenarioReconciler (mkNamespacedName "ns" "bare")
           Fixture.bareWorld).2
        (ClusterObject Fixture.cluster).
Proof.
  apply (reconciled_policy_is_enqueued Fixture.scenarioReconciler
           (mkNamespacedName "ns" "bare") Fixture.bareWorld Fixture.barePolicy
           Fixture.cluster Fixture.cluster); try reflexivity.
  repeat split; reflexivity.
Defined.

(** X19.  Node to machine.  [getMachineFromNode] returns a machine exactly
    when one and only one stored machine refers to the node, and then it
    returns that machine; the machine it returns refers to the node.  In
    every other case, a failed listing included, it returns an error. *)
Theorem getMachineFromNode_unique (r : MachineHealthCheckReconciler) (w : World)
    (node : string) (machine : Machine) :
  (getMachineFromNode r w node = inl machine <->
   failListMachines (Client r) = None /\ owningMachines w node = [machine]) /\
  (getMachineFromNode r w node = inl machine ->
   NodeRef machine = Some node /\
   exists key, machines w !! key = Some machine).
Proof.
  assert (Hiff : getMachineFromNode r w node = inl machine <->
                 failListMachines (Client r) = None /\
                 owningMachines w node = [machine]).
  { destruct (failListMachines (Client r)) as [err |] eqn:Hlist.
    - unfold getMachineFromNode, ListMachinesByNodeName. rewrite Hlist.
      split; [done | by intros [? _]].
    - rewrite (getMachineFromNode_owners r w node Hlist).
      destruct (owningMachines w node) as [| m1 [| m2 ms]]; split;
        try done; try (by intros [_ ?]).
      + intros [= ->]. done.
      + intros [_ [= ->]]. done. }
  split; [exact Hiff |].
  intros Hget. apply Hiff in Hget as [_ Howners].
  assert (Hin : In machine (owningMachines w node))
    by (rewrite Howners; by left).
  apply filter_In in Hin as [Hin Href].
  apply bool_decide_eq_true in Href. split; [done |].
  apply list_elem_of_In in Hin. unfold storedMachines in Hin.
  apply list_elem_of_fmap in Hin as ([key x] & -> & Hin).
  exists key. by apply elem_of_map_to_list.
Qed.

(** X20.  The index agrees with the lookup.  A machine is indexed under the
    name of the node it refers to and under no other name, a machine without
    a node reference and an object that is not a machine under no name at
    all; so a machine is listed for a node name by the index exactly when
    [getMachineFromNode] would keep it. *)
Theorem indexMachineByNodeName_agrees (o : Object) (node : string) :
  (node ∈ indexMachineByNodeName o <->
   exists machine, o = MachineObject machine /\ NodeRef machine = Some node) /\
  (length (indexMachineByNodeName o) <= 1)%nat.
Proof.
  split.
  - destruct o as [c | machine | n | p]; simpl;
      try (split; [intros Hin; by apply elem_of_nil in Hin
                  | intros (machine & Heq & _); discriminate]).
    destruct (NodeRef machine) as [name |] eqn:Href.
    + rewrite list_elem_of_singleton. split.
      * intros ->. by exists machine.
      * intros (machine' & [= <-] & Href'). congruence.
    + split; [intros Hin; by apply elem_of_nil in Hin |].
      intros (machine' & [= <-] & Href'). congruence.
  - destruct o as [c | machine | n | p]; simpl; try lia.
    destruct (NodeRef machine); simpl; lia.
Qed.

(** ** The control plane's status *)

(** Marking a resize touches the conditions only. *)
Lemma markResized_frame (r : controlplane.KubeadmControlPlaneReconciler)
    (owned : list Machine) (replicas desired : Z)
    (st : controlplane.KubeadmControlPlaneStatus) :
  let st' := controlplane.markResized r owned replicas desired st in
  controlplane.Selector st' = controlplane.Selector st /\
  controlplane.Replicas st' = controlplane.Replicas st /\
  controlplane.UpdatedReplicas st' = controlplane.UpdatedReplicas st /\
  controlplane.ReadyReplicas st' = controlplane.ReadyReplicas st /\
  controlplane.UnavailableReplicas st' = controlplane.UnavailableReplicas st /\
  controlplane.Initialized st' = controlplane.Initialized st /\
  controlplane.Ready st' = controlplane.Ready st.
Proof.
  unfold controlplane.markResized.
  destruct (replicas <? desired); [by repeat split |].
  destruct (desired <? replicas); [by repeat split |].
  destruct (wrap32 _ =? replicas); by repeat split.
Qed.

(** What the status of the workload cluster adds. *)
Lemma recordClusterStatus_fields (r : controlplane.KubeadmControlPlaneReconciler)
    (replicas : Z) (status : controlplane.ClusterStatus)
    (st : controlplane.KubeadmControlPlaneStatus) :
  let st' := controlplane.recordClusterStatus r replicas status st in
  controlplane.Selector st' = controlplane.Selector st /\
  controlplane.Replicas st' = replicas /\
  controlplane.UpdatedReplicas st' = controlplane.UpdatedReplicas st /\
  controlplane.ReadyReplicas st' = controlplane.ReadyNodes status /\
  controlplane.UnavailableReplicas st'
    = int32_sub replicas (controlplane.ReadyNodes status) /\
  controlplane.Initialized st'
    = controlplane.Initialized st || controlplane.HasKubeadmConfig status /\
  controlplane.Ready st'
    = controlplane.Ready st || (0 <? controlplane.ReadyNodes status).
Proof.
  unfold controlplane.recordClusterStatus.
  destruct (controlplane.HasKubeadmConfig status); simpl;
    destruct (0 <? controlplane.ReadyNodes status); simpl;
    rewrite ?orb_true_r, ?orb_false_r; by repeat split.
Qed.

(** X21.  What [updateStatus] never changes, and what it never undoes.
    However it ends, [updateStatus] leaves the metadata, the wanted number
    of replicas and the deletion timestamp of the control plane as they
    are, sets [Status.Selector] to the selector of the cluster's control
    plane machines, and never resets [Status.Ready] or [Status.Initialized]
    once they are true. *)
Theorem updateStatus_frame (r : controlplane.KubeadmControlPlaneReconciler)
    (kcp : controlplane.KubeadmControlPlane) (cluster : Cluster) :
  let kcp' := (controlplane.updateStatus r kcp cluster).1 in
  controlplane.kcpMeta kcp' = controlplane.kcpMeta kcp /\
  controlplane.SpecReplicas kcp' = controlplane.SpecReplicas kcp /\
  controlplane.DeletionTimestamp kcp' = controlplane.DeletionTimestamp kcp /\
  controlplane.Selector (controlplane.kcpStatus kcp')
    = controlplane.ControlPlaneSelectorForCluster r (metaName (clusterMeta cluster)) /\
  (controlplane.Ready (controlplane.kcpStatus kcp) = true ->
   controlplane.Ready (controlplane.kcpStatus kcp') = true) /\
  (controlplane.Initialized (controlplane.kcpStatus kcp) = true ->
   controlplane.Initialized (controlplane.kcpStatus kcp') = true).
Proof.
  unfold controlplane.updateStatus.
  destruct (controlplane.GetMachinesForCluster r _ _) as [owned | err];
    [| by repeat split].
  cbn [controlplane.SpecReplicas controlplane.withStatus].
  destruct (controlplane.SpecReplicas kcp) as [desired |] eqn:Hspec;
    [| by repeat split].
  cbn [controlplane.DeletionTimestamp controlplane.withStatus controlplane.kcpStatus].
  match goal with
  | |- context [controlplane.markResized r owned ?n desired ?st] =>
      pose proof (markResized_frame r owned n desired st) as Hmark;
      set (marked := controlplane.markResized r owned n desired st) in *
  end.
  cbn zeta in Hmark. destruct Hmark as (Hsel & _ & _ & _ & _ & Hinit & Hready).
  simpl in Hsel, Hinit, Hready.
  destruct (negb (controlplane.IsZero (controlplane.DeletionTimestamp kcp))).
  { simpl. rewrite Hsel, Hinit, Hready. by repeat split. }
  destruct (controlplane.GetWorkloadCluster r _) as [[status | err] | err];
    simpl; try (rewrite Hsel, Hinit, Hready; by repeat split).
  match goal with
  | |- context [controlplane.recordClusterStatus r ?n status marked] =>
      pose proof (recordClusterStatus_fields r n status marked) as Hrec
  end.
  cbn zeta in Hrec. destruct Hrec as (Hsel' & _ & _ & _ & _ & Hinit' & Hready').
  rewrite Hsel', Hinit', Hready', Hsel, Hinit, Hready.
  repeat split; try done; by intros ->.
Qed.

(** X22.  A nil [Spec.Replicas].  [updateStatus] panics exactly when the
    owned machines can be listed and the control plane's [Spec.Replicas] is
    nil: it dereferences the pointer after the listing.  [Status.Selector]
    and [Status.UpdatedReplicas] have been set by then; the replica counts
    have not. *)
Theorem updateStatus_nil_replicas (r : controlplane.KubeadmControlPlaneReconciler)
    (kcp : controlplane.KubeadmControlPlane) (cluster : Cluster) :
  ((controlplane.updateStatus r kcp cluster).2 = controlplane.Panicked <->
   controlplane.SpecReplicas kcp = None /\
   exists owned,
     controlplane.GetMachinesForCluster r (ObjectKey (clusterMeta cluster))
       (controlplane.withStatus kcp
          (controlplane.setSelector
             (controlplane.ControlPlaneSelectorForCluster r
                (metaName (clusterMeta cluster)))
             (controlplane.kcpStatus kcp))) = inl owned) /\
  ((controlplane.updateStatus r kcp cluster).2 = controlplane.Panicked ->
   controlplane.Replicas
     (controlplane.kcpStatus (controlplane.updateStatus r kcp cluster).1)
     = controlplane.Replicas (controlplane.kcpStatus kcp)).
Proof.
  unfold controlplane.updateStatus.
  destruct (controlplane.GetMachinesForCluster r _ _) as [owned | err] eqn:Hlist.
  2: { split; [| done]. split; [done |]. by intros (_ & owned & ?). }
  cbn [controlplane.SpecReplicas controlplane.withStatus].
  destruct (controlplane.SpecReplicas kcp) as [desired |] eqn:Hspec.
  2: { split; [| done]. split; [| done]. intros _. split; [done |]. by exists owned. }
  cbn [controlplane.DeletionTimestamp controlplane.withStatus controlplane.kcpStatus].
  destruct (negb _).
  { split; [| done]. split; [done | by intros [? _]]. }
  destruct (controlplane.GetWorkloadCluster r _) as [[status | err] | err];
    (split; [| done]); (split; [done | by intros [? _]]).
Qed.

(** Once the owned machines are listed and the wanted number of replicas is
    there, [updateStatus] sets the basic data and, unless the control plane
    is being deleted, asks the workload cluster. *)
Lemma updateStatus_listed (r : controlplane.KubeadmControlPlaneReconciler)
    (kcp : controlplane.KubeadmControlPlane) (cluster : Cluster)
    (owned : list Machine) (desired : Z) :
  controlplane.lists r kcp cluster owned ->
  controlplane.SpecReplicas kcp = Some desired ->
  controlplane.updateStatus r kcp cluster
    = let basic := controlplane.basicStatus r kcp cluster owned desired in
      if negb (controlplane.IsZero (controlplane.DeletionTimestamp kcp))
      then (controlplane.withStatus kcp basic, controlplane.Returned None)
      else
        match controlplane.GetWorkloadCluster r (ObjectKey (clusterMeta cluster)) with
        | inr err =>
            (controlplane.withStatus kcp basic,
             controlplane.Returned
               (Some (Wrapf err "failed to create remote cluster client")))
        | inl (inr err) =>
            (controlplane.withStatus kcp basic, controlplane.Returned (Some err))
        | inl (inl status) =>
            (controlplane.withStatus kcp
               (controlplane.recordClusterStatus r
                  (wrap32 (Z.of_nat (length owned))) status basic),
             controlplane.Returned None)
        end.
Proof.
  intros Hlist Hspec. unfold controlplane.lists in Hlist.
  unfold controlplane.updateStatus. rewrite Hlist.
  cbn [controlplane.SpecReplicas controlplane.withStatus]. rewrite Hspec.
  reflexivity.
Qed.

Lemma basicStatus_fields (r : controlplane.KubeadmControlPlaneReconciler)
    (kcp : controlplane.KubeadmControlPlane) (cluster : Cluster)
    (owned : list Machine) (desired : Z) :
  Z.of_nat (length owned) <= MaxInt32 ->
  let basic := controlplane.basicStatus r kcp cluster owned desired in
  controlplane.Replicas basic = Z.of_nat (length owned) /\
  0 <= controlplane.UpdatedReplicas basic <= Z.of_nat (length owned) /\
  controlplane.ReadyReplicas basic = 0 /\
  controlplane.UnavailableReplicas basic = Z.of_nat (length owned) /\
  controlplane.Initialized basic = controlplane.Initialized (controlplane.kcpStatus kcp) /\
  controlplane.Ready basic = controlplane.Ready (controlplane.kcpStatus kcp).
Proof.
  intros Hlen basic. unfold basic, controlplane.basicStatus. cbn zeta.
  match goal with
  | |- context [controlplane.markResized r owned ?n desired ?st] =>
      destruct (markResized_frame r owned n desired st)
        as (_ & -> & -> & -> & -> & -> & ->)
  end.
  simpl. rewrite (wrap32_of_length owned Hlen).
  pose proof (List.filter_length_le
                (controlplane.MatchesConfigurationHash r
                   (controlplane.withStatus kcp
                      (controlplane.setSelector
                         (controlplane.ControlPlaneSelectorForCluster r
                            (metaName (clusterMeta cluster)))
                         (controlplane.kcpStatus kcp)))) owned) as Hle.
  rewrite wrap32_of_length by lia. repeat split; lia.
Qed.

(** X23.  Replica counts.  When the owned machines are listed (fewer than
    2^31 of them) and [Spec.Replicas] is set, [updateStatus] does not panic
    and, however it then ends, [Status.Replicas] is the number of owned
    machines and [Status.UpdatedReplicas] is between zero and that number. *)
Theorem updateStatus_counts (r : controlplane.KubeadmControlPlaneReconciler)
    (kcp : controlplane.KubeadmControlPlane) (cluster : Cluster)
    (owned : list Machine) (desired : Z) :
  controlplane.lists r kcp cluster owned ->
  controlplane.SpecReplicas kcp = Some desired ->
  Z.of_nat (length owned) <= MaxInt32 ->
  let kcp' := (controlplane.updateStatus r kcp cluster).1 in
  (controlplane.updateStatus r kcp cluster).2 <> controlplane.Panicked /\
  controlplane.Replicas (controlplane.kcpStatus kcp') = Z.of_nat (length owned) /\
  0 <= controlplane.UpdatedReplicas (controlplane.kcpStatus kcp')
    <= controlplane.Replicas (controlplane.kcpStatus kcp').
Proof.
  intros Hlist Hspec Hlen.
  rewrite (updateStatus_listed r kcp cluster owned desired Hlist Hspec). cbn zeta.
  destruct (basicStatus_fields r kcp cluster owned desired Hlen)
    as (Hrep & Hupd & _).
  destruct (negb _);
    [cbn [fst snd controlplane.kcpStatus controlplane.withStatus];
     rewrite Hrep; repeat split; try done; lia |].
  destruct (controlplane.GetWorkloadCluster r _) as [[status | err] | err];
    cbn [fst snd controlplane.kcpStatus controlplane.withStatus];
    try (rewrite Hrep; repeat split; try done; lia).
  destruct (recordClusterStatus_fields r (wrap32 (Z.of_nat (length owned))) status
              (controlplane.basicStatus r kcp cluster owned desired))
    as (_ & -> & -> & _).
  rewrite (wrap32_of_length owned Hlen). repeat split; try done; lia.
Qed.

(** An instance of X23: three owned machines, two of them up to date. *)
Lemma updateStatus_counts_witness :
  controlplane.Replicas
    (controlplane.kcpStatus
       (controlplane.updateStatus
          (Fixture.controlPlaneReconciler Fixture.ownedMachines
             (inl (inl (controlplane.mkClusterStatus 3 2 true))))
          (Fixture.controlPlane None) Fixture.cluster).1) = 3.
Proof.
  destruct (updateStatus_counts
              (Fixture.controlPlaneReconciler Fixture.ownedMachines
                 (inl (inl (controlplane.mkClusterStatus 3 2 true))))
              (Fixture.controlPlane None) Fixture.cluster Fixture.ownedMachines 3)
    as (_ & Hrep & _);
    [reflexivity | reflexivity | vm_compute; discriminate |].
  exact Hrep.
Defined.

(** X24.  Ready and unavailable replicas.  When the owned machines are
    listed, [Spec.Replicas] is set, the control plane is not being deleted
    and the workload cluster reports its status, [updateStatus] returns no
    error; [Status.ReadyReplicas] is the number of ready nodes reported and
    [Status.UnavailableReplicas] is the number of owned machines minus that
    number, so that the two add up to [Status.Replicas]; the unavailable
    count is not clamped and is negative exactly when more nodes are ready
    than machines are owned.  [Status.Ready] becomes true when a node is
    ready and [Status.Initialized] when the kubeadm configuration is there;
    otherwise they stay as they were. *)
Theorem updateStatus_replica_accounting
    (r : controlplane.KubeadmControlPlaneReconciler)
    (kcp : controlplane.KubeadmControlPlane) (cluster : Cluster)
    (owned : list Machine) (desired : Z) (status : controlplane.ClusterStatus) :
  controlplane.lists r kcp cluster owned ->
  controlplane.SpecReplicas kcp = Some desired ->
  controlplane.IsZero (controlplane.DeletionTimestamp kcp) = true ->
  controlplane.GetWorkloadCluster r (ObjectKey (clusterMeta cluster))
    = inl (inl status) ->
  Z.of_nat (length owned) <= MaxInt32 ->
  0 <= controlplane.ReadyNodes status <= MaxInt32 ->
  let st' := controlplane.kcpStatus (controlplane.updateStatus r kcp cluster).1 in
  (controlplane.updateStatus r kcp cluster).2 = controlplane.Returned None /\
  controlplane.ReadyReplicas st' = controlplane.ReadyNodes status /\
  controlplane.ReadyReplicas st' + controlplane.UnavailableReplicas st'
    = controlplane.Replicas st' /\
  (controlplane.UnavailableReplicas st' < 0 <->
   Z.of_nat (length owned) < controlplane.ReadyNodes status) /\
  controlplane.Ready st'
    = controlplane.Ready (controlplane.kcpStatus kcp)
      || (0 <? controlplane.ReadyNodes status) /\
  controlplane.Initialized st'
    = controlplane.Initialized (controlplane.kcpStatus kcp)
      || controlplane.HasKubeadmConfig status.
Proof.
  intros Hlist Hspec Hzero Hworkload Hlen Hready.
  rewrite (updateStatus_listed r kcp cluster owned desired Hlist Hspec). cbn zeta.
  rewrite Hzero, Hworkload. cbn [negb fst snd controlplane.kcpStatus controlplane.withStatus].
  destruct (basicStatus_fields r kcp cluster owned desired Hlen)
    as (_ & _ & _ & _ & Hinit & Hrdy).
  destruct (recordClusterStatus_fields r (wrap32 (Z.of_nat (length owned))) status
              (controlplane.basicStatus r kcp cluster owned desired))
    as (_ & -> & _ & -> & -> & -> & ->).
  rewrite Hinit, Hrdy, (wrap32_of_length owned Hlen).
  unfold int32_sub. rewrite wrap32_small by (unfold MinInt32, MaxInt32 in *; lia).
  repeat split; lia.
Qed.

(** An instance of X24: two of the three nodes are ready. *)
Lemma updateStatus_replica_accounting_witness :
  controlplane.UnavailableReplicas
    (controlplane.kcpStatus
       (controlplane.updateStatus
          (Fixture.controlPlaneReconciler Fixture.ownedMachines
             (inl (inl (controlplane.mkClusterStatus 3 2 true))))
          (Fixture.controlPlane None) Fixture.cluster).1) = 1.
Proof.
  destruct (updateStatus_replica_accounting
              (Fixture.controlPlaneReconciler Fixture.ownedMachines
                 (inl (inl (controlplane.mkClusterStatus 3 2 true))))
              (Fixture.controlPlane None) Fixture.cluster Fixture.ownedMachines 3
              (controlplane.mkClusterStatus 3 2 true))
    as (_ & Hready & Hsum & _);
    [reflexivity | reflexivity | reflexivity | reflexivity
    | vm_compute; discriminate | vm_compute; split; discriminate |].
  rewrite Hready in Hsum.
  set (unavailable := controlplane.UnavailableReplicas _) in *.
  change (2 + unavailable = 3) in Hsum. lia.
Defined.

(** X25.  A control plane that is being deleted.  When the deletion
    timestamp is set, [updateStatus] does not consult the workload cluster:
    its result is the same whatever the management cluster would answer for
    it.  If the owned machines are listed and [Spec.Replicas] is set it
    returns no error, reports no ready replica and every owned machine as
    unavailable, and leaves [Status.Ready] and [Status.Initialized] as they
    were. *)
Theorem updateStatus_deleting (r : controlplane.KubeadmControlPlaneReconciler)
    (kcp : controlplane.KubeadmControlPlane) (cluster : Cluster) :
  controlplane.IsZero (controlplane.DeletionTimestamp kcp) = false ->
  (forall answer,
     controlplane.updateStatus (controlplane.withWorkloadCluster r answer) kcp cluster
       = controlplane.updateStatus r kcp cluster) /\
  (forall owned desired,
     controlplane.lists r kcp cluster owned ->
     controlplane.SpecReplicas kcp = Some desired ->
     Z.of_nat (length owned) <= MaxInt32 ->
     let st' := controlplane.kcpStatus (controlplane.updateStatus r kcp cluster).1 in
     (controlplane.updateStatus r kcp cluster).2 = controlplane.Returned None /\
     controlplane.ReadyReplicas st' = 0 /\
     controlplane.UnavailableReplicas st' = Z.of_nat (length owned) /\
     controlplane.Replicas st' = Z.of_nat (length owned) /\
     controlplane.Ready st' = controlplane.Ready (controlplane.kcpStatus kcp) /\
     controlplane.Initialized st'
       = controlplane.Initialized (controlplane.kcpStatus kcp)).
Proof.
  intros Hdeleting. split.
  - intros answer. unfold controlplane.updateStatus.
    cbn [controlplane.ControlPlaneSelectorForCluster
         controlplane.GetMachinesForCluster controlplane.withWorkloadCluster].
    destruct (controlplane.GetMachinesForCluster r _ _) as [owned | err]; [| done].
    cbn [controlplane.SpecReplicas controlplane.withStatus].
    destruct (controlplane.SpecReplicas kcp) as [desired |]; [| done].
    cbn [controlplane.DeletionTimestamp controlplane.withStatus].
    by rewrite Hdeleting.
  - intros owned desired Hlist Hspec Hlen.
    rewrite (updateStatus_listed r kcp cluster owned desired Hlist Hspec).
    cbn zeta. rewrite Hdeleting.
    cbn [negb fst snd controlplane.kcpStatus controlplane.withStatus].
    destruct (basicStatus_fields r kcp cluster owned desired Hlen)
      as (Hrep & _ & Hready & Hun & Hinit & Hrdy).
    by repeat split.
Qed.

(** An instance of X25: the same three machines under a control plane that
    is being deleted. *)
Lemma updateStatus_deleting_witness :
  controlplane.UnavailableReplicas
    (controlplane.kcpStatus
       (controlplane.updateStatus
          (Fixture.controlPlaneReconciler Fixture.ownedMachines
             (inl (inl (controlplane.mkClusterStatus 3 2 true))))
          (Fixture.controlPlane (Some 1700000000)) Fixture.cluster).1) = 3.
Proof.
  destruct (updateStatus_deleting
              (Fixture.controlPlaneReconciler Fixture.ownedMachines
                 (inl (inl (controlplane.mkClusterStatus 3 2 true))))
              (Fixture.controlPlane (Some 1700000000)) Fixture.cluster eq_refl)
    as [_ Hlisted].
  destruct (Hlisted Fixture.ownedMachines 3) as (_ & _ & Hun & _);
    [reflexivity | reflexivity | vm_compute; discriminate |].
  exact Hun.
Defined.


